(** * s3strata: tier resolution and file lifecycle orchestration

    A shallow embedding of the Python package [s3strata] (config.py,
    objectstore.py, file_manager.py, types.py) and of the reference
    metadata adapter examples/sqlalchemy_adapter.py, together with the
    properties of the tier resolver and of the file manager.

    Conventions of the embedding.
    - A Python [str] is a Rocq [string]; a character is a code point
      below 256.  [Optional[T]] is [option T].
    - Python truthiness ([not x], [x or y], [if x:]) is written out with
      [truthy] and [py_or]: [None] and the empty string are falsy.
    - A [datetime] is an integer number of seconds, [timedelta(seconds=d)]
      is [d]; the calendar range of [datetime] is not represented.
    - [async def] bodies run to completion in program order: a coroutine
      is a function from the world to an outcome and a new world.
    - A raised exception is the outcome [Raise e]; the effects made before
      the raise stay in the world. *)

From Stdlib Require Import ZArith String Ascii List Lia Bool.
From stdpp Require Import base tactics option list strings pretty gmap.

Local Open Scope string_scope.
Local Open Scope Z_scope.
Local Open Scope list_scope.

(** ** Python values *)

Inductive Exn : Type :=
| ValueError (msg : string)
| TypeError (msg : string)
| FileNotFoundError (msg : string)
| ClientError (code : string) (msg : string)
| BotoCoreError (msg : string)
| NoResultFound
| IntegrityError (msg : string)
| OutOfFuel.

Inductive Result (X : Type) : Type :=
| Ok (x : X)
| Raise (e : Exn).
Arguments Ok {X} x.
Arguments Raise {X} e.

Definition is_ok {X} (r : Result X) : bool :=
  match r with Ok _ => true | Raise _ => false end.

(** [bool(x)] for [x : Optional[str]]. *)
Definition truthy (o : option string) : bool :=
  match o with
  | None => false
  | Some s => negb (String.eqb s "")
  end.

(** [x or d] for [x : Optional[str]] and a string [d]. *)
Definition py_or (o : option string) (d : string) : string :=
  match o with
  | Some s => if String.eqb s "" then d else s
  | None => d
  end.

(** [f"{x}"] for [x : Optional[str]]. *)
Definition py_format (o : option string) : string :=
  match o with
  | Some s => s
  | None => "None"
  end.

(** [s.startswith(p)]. *)
Fixpoint startswith (p s : string) : bool :=
  match p, s with
  | EmptyString, _ => true
  | String a p', String b s' => Ascii.eqb a b && startswith p' s'
  | String _ _, EmptyString => false
  end.

(** [p in s] for strings. *)
Fixpoint contains (p s : string) : bool :=
  startswith p s ||
  match s with
  | EmptyString => false
  | String _ s' => contains p s'
  end.

(** [s[n:]]. *)
Fixpoint drop_chars (n : nat) (s : string) : string :=
  match n, s with
  | O, _ => s
  | S n', String _ s' => drop_chars n' s'
  | S _, EmptyString => EmptyString
  end.

(** [s.split(sep)] for a separator of one character. *)
Fixpoint split_on (sep : ascii) (s : string) : list string :=
  match s with
  | EmptyString => [EmptyString]
  | String c s' =>
    if Ascii.eqb c sep then EmptyString :: split_on sep s'
    else
      match split_on sep s' with
      | h :: t => String c h :: t
      | [] => [String c EmptyString]
      end
  end.

Definition lower_char (a : ascii) : ascii :=
  let n := N_of_ascii a in
  if ((65 <=? n) && (n <=? 90))%N then ascii_of_N (n + 32) else a.

(** [s.lower()]. *)
Fixpoint lower (s : string) : string :=
  match s with
  | EmptyString => EmptyString
  | String a s' => String (lower_char a) (lower s')
  end.

(** ** types.py: enumerations *)

Inductive StorageTier : Type := HOT | COLD.
Inductive FileVisibility : Type := PUBLIC | PRIVATE.

Global Instance StorageTier_eq_dec : EqDecision StorageTier.
Proof. solve_decision. Defined.
Global Instance FileVisibility_eq_dec : EqDecision FileVisibility.
Proof. solve_decision. Defined.

(** The [str] value of a member of the [str, Enum] class. *)
Definition StorageTier_value (t : StorageTier) : string :=
  match t with HOT => "HOT" | COLD => "COLD" end.

(** [StorageTier(value)]: lookup of a member by value. *)
Definition StorageTier_of_value (s : string) : Result StorageTier :=
  if String.eqb s "HOT" then Ok HOT
  else if String.eqb s "COLD" then Ok COLD
  else Raise (ValueError ("'" +:+ s +:+ "' is not a valid StorageTier")).

(** ** config.py *)

Record S3StrataAdvancedOptions : Type := {
  default_presigned_url_expiration : Z;
  default_storage_tier : StorageTier;
  default_visibility : FileVisibility
}.

Definition default_advanced : S3StrataAdvancedOptions :=
  {| default_presigned_url_expiration := 14400;
     default_storage_tier := HOT;
     default_visibility := PRIVATE |}.

(** [S3TierConfig].  The two prefixes are annotated [str] in the source;
    [get_tier_config] can nevertheless store [None] there, so the fields
    carry an [option]. *)
Record S3TierConfig : Type := {
  tc_endpoint : string;
  tc_access_key : string;
  tc_secret_key : string;
  tc_bucket : string;
  tc_port : Z;
  tc_use_ssl : bool;
  tc_public_prefix : option string;
  tc_private_prefix : option string
}.

Record S3StrataConfig : Type := {
  endpoint : option string;
  port : option Z;
  use_ssl : option bool;
  access_key : option string;
  secret_key : option string;
  hot_bucket : option string;
  cold_bucket : option string;
  public_hot_prefix : option string;
  private_hot_prefix : option string;
  public_cold_prefix : option string;
  private_cold_prefix : option string;
  hot : option S3TierConfig;
  cold : option S3TierConfig;
  advanced : S3StrataAdvancedOptions
}.

(** The configuration with every field at its dataclass default. *)
Definition empty_config : S3StrataConfig :=
  {| endpoint := None; port := None; use_ssl := None;
     access_key := None; secret_key := None;
     hot_bucket := None; cold_bucket := None;
     public_hot_prefix := None; private_hot_prefix := None;
     public_cold_prefix := None; private_cold_prefix := None;
     hot := None; cold := None; advanced := default_advanced |}.

(** The per-tier override object of a tier. *)
Definition tier_override (config : S3StrataConfig) (tier : StorageTier)
  : option S3TierConfig :=
  match tier with HOT => hot config | COLD => cold config end.

(** ['hot_bucket' if tier == StorageTier.HOT else 'cold_bucket']. *)
Definition bucket_field_name (tier : StorageTier) : string :=
  match tier with HOT => "hot_bucket" | COLD => "cold_bucket" end.

(** The two messages of [get_tier_config].  [f"{tier}"] is written as the
    value of the member, which is how a [str, Enum] member formats up to
    Python 3.10; later versions print [StorageTier.HOT], which holds the
    same value after the class name. *)
Definition missing_config_message (tier : StorageTier) : string :=
  "Missing S3 configuration for " +:+ StorageTier_value tier
  +:+ " tier. Provide either shared config "
  +:+ "(endpoint, access_key, secret_key, " +:+ bucket_field_name tier +:+ ") "
  +:+ "or tier-specific config (" +:+ lower (StorageTier_value tier) +:+ ").".

Definition missing_bucket_message (tier : StorageTier) : string :=
  "Missing bucket configuration for " +:+ StorageTier_value tier
  +:+ " tier. Provide either "
  +:+ bucket_field_name tier +:+ " or "
  +:+ lower (StorageTier_value tier) +:+ ".bucket".

(** [get_tier_config].  In the two prefix expressions the conditional
    expression binds weaker than [or]: [a if c else b or d] is
    [a if c else (b or d)]. *)
Definition get_tier_config (config : S3StrataConfig) (tier : StorageTier)
  : Result S3TierConfig :=
  match tier, hot config, cold config with
  | HOT, Some c, _ => Ok c
  | COLD, _, Some c => Ok c
  | _, _, _ =>
    if negb (truthy (endpoint config)) || negb (truthy (access_key config))
       || negb (truthy (secret_key config))
    then Raise (ValueError (missing_config_message tier))
    else
      let bucket :=
        match tier with HOT => hot_bucket config | COLD => cold_bucket config end in
      if negb (truthy bucket)
      then Raise (ValueError (missing_bucket_message tier))
      else
        Ok {| tc_endpoint := py_format (endpoint config);
              tc_port := match port config with Some p => p | None => 443 end;
              tc_use_ssl := match use_ssl config with Some b => b | None => true end;
              tc_access_key := py_format (access_key config);
              tc_secret_key := py_format (secret_key config);
              tc_bucket := py_format bucket;
              tc_public_prefix :=
                match tier with
                | HOT => public_hot_prefix config
                | COLD => Some (py_or (public_cold_prefix config) "public")
                end;
              tc_private_prefix :=
                match tier with
                | HOT => private_hot_prefix config
                | COLD => Some (py_or (private_cold_prefix config) "private")
                end |}
  end.

Definition get_bucket_name (config : S3StrataConfig) (tier : StorageTier)
  : Result string :=
  match get_tier_config config tier with
  | Ok tc => Ok (tc_bucket tc)
  | Raise e => Raise e
  end.

Definition get_path_prefix (config : S3StrataConfig) (tier : StorageTier)
    (visibility : FileVisibility) : Result (option string) :=
  match get_tier_config config tier with
  | Ok tc =>
    Ok (match visibility with
        | PUBLIC => tc_public_prefix tc
        | PRIVATE => tc_private_prefix tc
        end)
  | Raise e => Raise e
  end.

Definition get_default_presigned_url_expiration (config : S3StrataConfig) : Z :=
  default_presigned_url_expiration (advanced config).

Definition get_default_storage_tier (config : S3StrataConfig) : StorageTier :=
  default_storage_tier (advanced config).

Definition get_default_visibility (config : S3StrataConfig) : FileVisibility :=
  default_visibility (advanced config).

(** ** types.py: records *)

Record PhysicalFile : Type := {
  pf_id : Z;
  pf_storage_tier : StorageTier;
  pf_filename : string;
  pf_path : string;
  pf_hot_until : option Z;
  pf_created_at : option Z;
  pf_updated_at : option Z
}.

Record UploadOptions : Type := {
  up_tier : option StorageTier;
  up_visibility : option FileVisibility;
  up_filename : option string;
  up_path_suffix : option string;
  up_hot_duration : option Z
}.

Record GetUrlOptions : Type := { expires_in : option Z }.

Record SetVisibilityOptions : Type := {
  sv_visibility : FileVisibility;
  sv_move_file : bool
}.

Record SetTierOptions : Type := {
  st_tier : StorageTier;
  st_move_file : bool;
  st_hot_duration : option Z
}.

Record SetHotDurationOptions : Type := { duration : option Z }.

Record S3Object : Type := {
  key : string;
  last_modified : option Z;
  size : option Z;
  etag : option string;
  storage_class : option string
}.

Record OrphanObject : Type := {
  o_key : string;
  o_last_modified : option Z;
  o_size : option Z;
  o_etag : option string;
  o_storage_class : option string;
  o_tier : StorageTier;
  o_bucket : string
}.

Record BucketObjects : Type := {
  bo_tier : StorageTier;
  bo_bucket : string;
  bo_objects : list S3Object;
  bo_count : Z
}.

Record AllBucketObjects : Type := {
  all_hot : BucketObjects;
  all_cold : BucketObjects;
  total_count : Z;
  collected_at : Z
}.

Record DeleteOrphanOptions : Type := {
  do_prefix : option string;
  do_tier : option StorageTier;
  do_dry_run : bool
}.

(** [errors] holds the dictionaries [{"path": ..., "error": ...}] as
    pairs. *)
Record DeleteOrphanResult : Type := {
  deleted : Z;
  failed : Z;
  deleted_paths : list string;
  errors : list (string * string);
  dry_run : bool
}.

(** [extract_filename] is a callable of the caller: it may raise. *)
Record AdoptOrphanOptions : Type := {
  ao_prefix : option string;
  ao_tier : option StorageTier;
  ao_extract_filename : option (string -> Result string);
  ao_set_hot_until : bool;
  ao_hot_duration : option Z
}.

Record AdoptOrphanResult : Type := {
  adopted : Z;
  adopt_failed : Z;
  adopted_file_ids : list Z;
  adopt_errors : list (string * string)
}.

(** ** The world outside the package

    The object storage backend, the clock, the source of [uuid4] and the
    database behind the metadata adapter.  Every request sent to the
    backend and every call of an adapter method is appended to [w_trace].
    [w_faults] is a fault schedule: a request issued when the trace has
    length [n] fails with [e], without any effect on the stored objects,
    when [w_faults n = Some e]. *)

Definition bytes : Type := list Byte.byte.

(** A [boto3] client, as built by [_create_client]. *)
Record Client : Type := {
  endpoint_url : string;
  aws_access_key_id : string;
  aws_secret_access_key : string
}.

Inductive S3Request : Type :=
| PutObject (c : Client) (bucket k : string) (body : bytes)
| GetObject (c : Client) (bucket k : string)
| DeleteObject (c : Client) (bucket k : string)
| HeadObject (c : Client) (bucket k : string)
| ListObjectsV2 (c : Client) (bucket : string) (prefix : option string)
    (token : option nat).

Inductive AdapterRequest : Type :=
| Create (tier : StorageTier) (filename path : string) (hot_until : option Z)
| FindById (id : Z)
| Update (id : Z) (tier : option StorageTier) (path : option string)
    (hot_until : option Z)
| Delete (id : Z)
| FindExpiredHotFiles
| FindAll.

Inductive Event : Type :=
| S3 (r : S3Request)
| Adapter (r : AdapterRequest)
| Print (line : string).

(** An object is stored under the endpoint, the bucket and the key. *)
Definition Location : Type := string * string * string.

Record Stored : Type := { body_of : bytes; stored_at : Z }.

Record World (DB : Type) : Type := {
  w_store : list (Location * Stored);
  w_faults : nat -> option Exn;
  w_page_size : positive;
  w_presign : Client -> string -> string -> Z -> Z -> string;
  w_uuid4 : nat -> string;
  w_uuid4_drawn : nat;
  w_now : Z;
  w_db : DB;
  w_trace : list Event
}.
Arguments w_store {DB} _.
Arguments w_faults {DB} _.
Arguments w_page_size {DB} _.
Arguments w_presign {DB} _.
Arguments w_uuid4 {DB} _.
Arguments w_uuid4_drawn {DB} _.
Arguments w_now {DB} _.
Arguments w_db {DB} _.
Arguments w_trace {DB} _.

Definition set_store {DB} (s : list (Location * Stored)) (w : World DB) : World DB :=
  {| w_store := s; w_faults := w_faults w; w_page_size := w_page_size w;
     w_presign := w_presign w; w_uuid4 := w_uuid4 w;
     w_uuid4_drawn := w_uuid4_drawn w; w_now := w_now w; w_db := w_db w;
     w_trace := w_trace w |}.

Definition set_db {DB} (d : DB) (w : World DB) : World DB :=
  {| w_store := w_store w; w_faults := w_faults w; w_page_size := w_page_size w;
     w_presign := w_presign w; w_uuid4 := w_uuid4 w;
     w_uuid4_drawn := w_uuid4_drawn w; w_now := w_now w; w_db := d;
     w_trace := w_trace w |}.

Definition log {DB} (e : Event) (w : World DB) : World DB :=
  {| w_store := w_store w; w_faults := w_faults w; w_page_size := w_page_size w;
     w_presign := w_presign w; w_uuid4 := w_uuid4 w;
     w_uuid4_drawn := w_uuid4_drawn w; w_now := w_now w; w_db := w_db w;
     w_trace := w_trace w ++ [e] |}.

Definition draw_uuid {DB} (w : World DB) : World DB :=
  {| w_store := w_store w; w_faults := w_faults w; w_page_size := w_page_size w;
     w_presign := w_presign w; w_uuid4 := w_uuid4 w;
     w_uuid4_drawn := S (w_uuid4_drawn w); w_now := w_now w; w_db := w_db w;
     w_trace := w_trace w |}.

(** *** Coroutines: state and exceptions *)

Definition M (DB X : Type) : Type := World DB -> Result X * World DB.

Definition ret {DB X} (x : X) : M DB X := fun w => (Ok x, w).

Definition raise {DB X} (e : Exn) : M DB X := fun w => (Raise e, w).

Definition bind {DB X Y} (m : M DB X) (k : X -> M DB Y) : M DB Y :=
  fun w =>
    match m w with
    | (Ok x, w') => k x w'
    | (Raise e, w') => (Raise e, w')
    end.

(** A pure computation that may raise. *)
Definition lift {DB X} (r : Result X) : M DB X := fun w => (r, w).

(** [try: m / except Exception as e: handler e]. *)
Definition try_except {DB X} (m : M DB X) (handler : Exn -> M DB X) : M DB X :=
  fun w =>
    match m w with
    | (Ok x, w') => (Ok x, w')
    | (Raise e, w') => handler e w'
    end.

Notation "'let*' x := m 'in' k" := (bind m (fun x => k))
  (at level 10, x name, m at level 100, k at level 200).
Notation "m ;;; k" := (bind m (fun _ => k))
  (at level 100, k at level 200, right associativity).

(** [datetime.now()] *)
Definition datetime_now {DB} : M DB Z := fun w => (Ok (w_now w), w).

(** [str(uuid.uuid4())] *)
Definition uuid4 {DB} : M DB string :=
  fun w => (Ok (w_uuid4 w (w_uuid4_drawn w)), draw_uuid w).

(** [print(line)] *)
Definition print {DB} (line : string) : M DB unit :=
  fun w => (Ok tt, log (Print line) w).

(** [str(e)] *)
Definition Exn_str (e : Exn) : string :=
  match e with
  | ValueError m | TypeError m | FileNotFoundError m | BotoCoreError m
  | IntegrityError m => m
  | ClientError _ m => m
  | NoResultFound => "No row was found when one was required"
  | OutOfFuel => "OutOfFuel"
  end.

(** *** The backend *)

Definition Location_eqb (a b : Location) : bool :=
  let '(e1, b1, k1) := a in
  let '(e2, b2, k2) := b in
  String.eqb e1 e2 && String.eqb b1 b2 && String.eqb k1 k2.

Fixpoint store_get (l : Location) (s : list (Location * Stored)) : option Stored :=
  match s with
  | [] => None
  | (l', o) :: s' => if Location_eqb l l' then Some o else store_get l s'
  end.

(** An overwritten object keeps its place in the listing, a new one is
    listed last. *)
Fixpoint store_put (l : Location) (o : Stored) (s : list (Location * Stored))
  : list (Location * Stored) :=
  match s with
  | [] => [(l, o)]
  | (l', o') :: s' =>
    if Location_eqb l l' then (l, o) :: s' else (l', o') :: store_put l o s'
  end.

Definition store_delete (l : Location) (s : list (Location * Stored))
  : list (Location * Stored) :=
  List.filter (fun e => negb (Location_eqb l (fst e))) s.

Definition in_listing (url bucket : string) (prefix : option string)
    (e : Location * Stored) : bool :=
  let '(e1, b1, k1) := fst e in
  String.eqb url e1 && String.eqb bucket b1 &&
  match prefix with Some p => startswith p k1 | None => true end.

Record ListItem : Type := {
  item_Key : string;
  item_LastModified : option Z;
  item_Size : option Z;
  item_ETag : option string;
  item_StorageClass : option string
}.

Record ListResponse : Type := {
  Contents : option (list ListItem);
  IsTruncated : option bool;
  NextContinuationToken : option nat
}.

Definition to_item (e : Location * Stored) : ListItem :=
  {| item_Key := snd (fst e);
     item_LastModified := Some (stored_at (snd e));
     item_Size := Some (Z.of_nat (length (body_of (snd e))));
     item_ETag := None;
     item_StorageClass := None |}.

Definition listing_page (url bucket : string) (prefix : option string)
    (token : option nat) (page : nat) (s : list (Location * Stored)) : ListResponse :=
  let all := List.filter (in_listing url bucket prefix) s in
  let offset := match token with Some n => n | None => O end in
  let rest := skipn offset all in
  let items := List.map to_item (firstn page rest) in
  let more := Nat.ltb page (length rest) in
  {| Contents := match items with [] => None | _ => Some items end;
     IsTruncated := Some more;
     NextContinuationToken := if more then Some (offset + page)%nat else None |}.

Section Backend.
Context {DB : Type}.

(** A request: logged, then failed by the schedule or performed. *)
Definition request {X} (r : S3Request) (perform : M DB X) : M DB X :=
  fun w =>
    match w_faults w (length (w_trace w)) with
    | Some e => (Raise e, log (S3 r) w)
    | None => perform (log (S3 r) w)
    end.

Definition put_object (c : Client) (bucket k : string) (body : bytes) : M DB unit :=
  request (PutObject c bucket k body)
    (fun w =>
       (Ok tt,
        set_store
          (store_put (endpoint_url c, bucket, k)
             {| body_of := body; stored_at := w_now w |} (w_store w)) w)).

Definition get_object (c : Client) (bucket k : string) : M DB bytes :=
  request (GetObject c bucket k)
    (fun w =>
       match store_get (endpoint_url c, bucket, k) (w_store w) with
       | Some o => (Ok (body_of o), w)
       | None =>
         (Raise (ClientError "NoSuchKey" "The specified key does not exist."), w)
       end).

Definition delete_object (c : Client) (bucket k : string) : M DB unit :=
  request (DeleteObject c bucket k)
    (fun w =>
       (Ok tt, set_store (store_delete (endpoint_url c, bucket, k) (w_store w)) w)).

Definition head_object (c : Client) (bucket k : string) : M DB unit :=
  request (HeadObject c bucket k)
    (fun w =>
       match store_get (endpoint_url c, bucket, k) (w_store w) with
       | Some o => (Ok tt, w)
       | None => (Raise (ClientError "404" "Not Found"), w)
       end).

Definition list_objects_v2 (c : Client) (bucket : string)
    (prefix : option string) (token : option nat) : M DB ListResponse :=
  request (ListObjectsV2 c bucket prefix token)
    (fun w =>
       (Ok (listing_page (endpoint_url c) bucket prefix token
              (Pos.to_nat (w_page_size w)) (w_store w)), w)).

(** Signing is computed by the client without a request. *)
Definition generate_presigned_url (c : Client) (bucket k : string)
    (expires : Z) : M DB string :=
  fun w => (Ok (w_presign w c bucket k expires (w_now w)), w).
End Backend.

(** ** objectstore.py *)

(** [urllib.parse.quote(s, safe)]: the string is encoded in UTF-8 and
    every byte outside the unreserved characters and [safe] becomes
    [%XX]. *)
Definition hex_digit (n : N) : ascii :=
  if (n <? 10)%N then ascii_of_N (48 + n) else ascii_of_N (55 + n).

Definition utf8 (a : ascii) : list N :=
  let n := N_of_ascii a in
  if (n <? 128)%N then [n] else [(192 + n / 64)%N; (128 + n mod 64)%N].

Definition always_safe (n : N) : bool :=
  ((65 <=? n) && (n <=? 90) || (97 <=? n) && (n <=? 122)
   || (48 <=? n) && (n <=? 57)
   || (n =? 95) || (n =? 46) || (n =? 45) || (n =? 126))%N.

Fixpoint has_char (a : ascii) (s : string) : bool :=
  match s with
  | EmptyString => false
  | String b s' => Ascii.eqb a b || has_char a s'
  end.

Definition quote_byte (safe : string) (n : N) : string :=
  if always_safe n || ((n <? 128)%N && has_char (ascii_of_N n) safe)
  then String (ascii_of_N n) EmptyString
  else String "%" (String (hex_digit (n / 16)) (String (hex_digit (n mod 16)) EmptyString)).

Fixpoint quote (s safe : string) : string :=
  match s with
  | EmptyString => EmptyString
  | String a s' =>
    fold_right (fun n acc => quote_byte safe n +:+ acc) (quote s' safe) (utf8 a)
  end.

Record ObjectStoreService : Type := {
  hot_config : S3TierConfig;
  cold_config : S3TierConfig;
  hot_client : Client;
  cold_client : Client
}.

Module ObjectStore.

Definition protocol_of (tier_config : S3TierConfig) : string :=
  if tc_use_ssl tier_config then "https" else "http".

Definition _create_client (tier_config : S3TierConfig) : Client :=
  let protocol := protocol_of tier_config in
  let port := tc_port tier_config in
  let is_standard_port :=
    (String.eqb protocol "http" && (port =? 80))
    || (String.eqb protocol "https" && (port =? 443)) in
  {| endpoint_url :=
       if is_standard_port
       then protocol +:+ "://" +:+ tc_endpoint tier_config
       else protocol +:+ "://" +:+ tc_endpoint tier_config +:+ ":" +:+ pretty port;
     aws_access_key_id := tc_access_key tier_config;
     aws_secret_access_key := tc_secret_key tier_config |}.

(** [ObjectStoreService.__init__] *)
Definition init (config : S3StrataConfig) : Result ObjectStoreService :=
  match get_tier_config config HOT with
  | Raise e => Raise e
  | Ok hc =>
    match get_tier_config config COLD with
    | Raise e => Raise e
    | Ok cc =>
      Ok {| hot_config := hc; cold_config := cc;
            hot_client := _create_client hc;
            cold_client := _create_client cc |}
    end
  end.

Definition _get_client (self : ObjectStoreService) (tier : StorageTier) : Client :=
  match tier with HOT => hot_client self | COLD => cold_client self end.

Definition _get_config (self : ObjectStoreService) (tier : StorageTier)
  : S3TierConfig :=
  match tier with HOT => hot_config self | COLD => cold_config self end.

Definition get_public_url (self : ObjectStoreService) (tier : StorageTier)
    (path : string) : string :=
  let config := _get_config self tier in
  let protocol := protocol_of config in
  let port := tc_port config in
  let port_suffix :=
    if (port =? 443) || (port =? 80) then "" else ":" +:+ pretty port in
  protocol +:+ "://" +:+ tc_endpoint config +:+ port_suffix +:+ "/"
  +:+ tc_bucket config +:+ "/" +:+ quote path "/".

Section Requests.
Context {DB : Type}.
Variable self : ObjectStoreService.

Definition upload (tier : StorageTier) (path : string) (data : bytes)
  : M DB unit :=
  put_object (_get_client self tier) (tc_bucket (_get_config self tier))
    path data.

Definition download (tier : StorageTier) (path : string) : M DB bytes :=
  try_except
    (get_object (_get_client self tier) (tc_bucket (_get_config self tier)) path)
    (fun e =>
       match e with
       | ClientError code _ =>
         if String.eqb code "NoSuchKey"
         then raise (FileNotFoundError ("File not found: " +:+ path))
         else raise e
       | _ => raise e
       end).

Definition delete (tier : StorageTier) (path : string) : M DB unit :=
  delete_object (_get_client self tier) (tc_bucket (_get_config self tier))
    path.

Definition copy (source_tier : StorageTier) (source_path : string)
    (dest_tier : StorageTier) (dest_path : string) : M DB unit :=
  let* data := download source_tier source_path in
  upload dest_tier dest_path data.

Definition move (source_tier : StorageTier) (source_path : string)
    (dest_tier : StorageTier) (dest_path : string) : M DB unit :=
  copy source_tier source_path dest_tier dest_path ;;;
  delete source_tier source_path.

Definition exists_ (tier : StorageTier) (path : string) : M DB bool :=
  try_except
    (head_object (_get_client self tier) (tc_bucket (_get_config self tier))
       path ;;; ret true)
    (fun e =>
       match e with
       | ClientError _ _ => ret false
       | _ => raise e
       end).

Definition get_presigned_url (tier : StorageTier) (path : string)
    (expires : Z) : M DB string :=
  generate_presigned_url (_get_client self tier)
    (tc_bucket (_get_config self tier)) path expires.

Definition to_S3Object (item : ListItem) : S3Object :=
  {| key := item_Key item;
     last_modified := item_LastModified item;
     size := item_Size item;
     etag := item_ETag item;
     storage_class := item_StorageClass item |}.

(** The [while True] loop of [list_objects]; [fuel] bounds the number
    of pages requested. *)
Fixpoint list_objects_loop (fuel : nat) (client : Client) (bucket : string)
    (prefix : option string) (objects : list S3Object)
    (continuation_token : option nat) : M DB (list S3Object) :=
  match fuel with
  | O => raise OutOfFuel
  | S fuel' =>
    let* response :=
      list_objects_v2 client bucket
        (if truthy prefix then prefix else None) continuation_token in
    let objects :=
      match Contents response with
      | Some items => (objects ++ List.map to_S3Object items)%list
      | None => objects
      end in
    if negb (match IsTruncated response with Some b => b | None => false end)
    then ret objects
    else list_objects_loop fuel' client bucket prefix objects
           (NextContinuationToken response)
  end.

(** [list_objects]: a backend holding [n] objects answers in at most
    [n + 1] pages. *)
Definition list_objects (tier : StorageTier) (prefix : option string)
  : M DB (list S3Object) :=
  fun w =>
    list_objects_loop (S (length (w_store w))) (_get_client self tier)
      (tc_bucket (_get_config self tier)) prefix [] None w.
End Requests.
End ObjectStore.

(** ** types.py: the [StorageAdapter] interface

    An adapter works on its database [DB]; the methods that read the
    clock take the current time as first argument. *)
Class StorageAdapter (DB : Type) : Type := {
  adapter_create : Z -> StorageTier -> string -> string -> option Z ->
                   DB -> Result PhysicalFile * DB;
  adapter_find_by_id : Z -> DB -> Result (option PhysicalFile) * DB;
  adapter_update : Z -> Z -> option StorageTier -> option string -> option Z ->
                   DB -> Result PhysicalFile * DB;
  adapter_delete : Z -> DB -> Result unit * DB;
  adapter_find_expired_hot_files : Z -> DB -> Result (list PhysicalFile) * DB;
  adapter_find_all : DB -> Result (list PhysicalFile) * DB
}.

(** A call of an adapter method from the file manager. *)
Definition call {DB X} (r : AdapterRequest) (method : DB -> Result X * DB)
  : M DB X :=
  fun w =>
    let '(x, d) := method (w_db w) in
    (x, set_db d (log (Adapter r) w)).

(** [asyncio.gather(a, b, c)]: the three coroutines are started in order
    and all of them run; the first exception in that order is raised. *)
Definition gather3 {DB X Y Z'} (a : M DB X) (b : M DB Y) (c : M DB Z')
  : M DB (X * Y * Z') :=
  fun w =>
    let '(ra, w1) := a w in
    let '(rb, w2) := b w1 in
    let '(rc, w3) := c w2 in
    match ra, rb, rc with
    | Ok x, Ok y, Ok z => (Ok (x, y, z), w3)
    | Raise e, _, _ => (Raise e, w3)
    | _, Raise e, _ => (Raise e, w3)
    | _, _, Raise e => (Raise e, w3)
    end.

(** [asyncio.gather(a, b)] *)
Definition gather2 {DB X Y} (a : M DB X) (b : M DB Y) : M DB (X * Y) :=
  fun w =>
    let '(ra, w1) := a w in
    let '(rb, w2) := b w1 in
    match ra, rb with
    | Ok x, Ok y => (Ok (x, y), w2)
    | Raise e, _ => (Raise e, w2)
    | _, Raise e => (Raise e, w2)
    end.

(** ** file_manager.py *)

Record FileManager : Type := {
  fm_config : S3StrataConfig;
  fm_objectstore : ObjectStoreService
}.

Module FileManager.

(** [FileManager.__init__]: the adapter is the database of the world. *)
Definition init (config : S3StrataConfig) : Result FileManager :=
  match ObjectStore.init config with
  | Ok os => Ok {| fm_config := config; fm_objectstore := os |}
  | Raise e => Raise e
  end.

Definition _get_visibility_from_path (path : string) : Result FileVisibility :=
  if startswith "public/" path then Ok PUBLIC
  else if startswith "private/" path then Ok PRIVATE
  else Raise (ValueError ("Invalid path format: " +:+ path)).

Definition _build_path (self : FileManager) (tier : StorageTier)
    (visibility : FileVisibility) (path_suffix : string) : Result string :=
  match get_path_prefix (fm_config self) tier visibility with
  | Ok prefix => Ok (py_format prefix +:+ "/" +:+ path_suffix)
  | Raise e => Raise e
  end.

(** [_normalize_tier]: a member of [StorageTier] is an instance of
    [str], so the member is looked up again by its value. *)
Definition _normalize_tier (tier : StorageTier) : Result StorageTier :=
  StorageTier_of_value (StorageTier_value tier).

Section Methods.
Context {DB : Type} `{StorageAdapter DB}.
Variable self : FileManager.

Definition upload (data : bytes) (options : UploadOptions)
  : M DB PhysicalFile :=
  let tier :=
    match up_tier options with
    | Some t => t
    | None => get_default_storage_tier (fm_config self)
    end in
  let visibility :=
    match up_visibility options with
    | Some v => v
    | None => get_default_visibility (fm_config self)
    end in
  let* filename :=
    (if truthy (up_filename options)
     then ret (py_format (up_filename options))
     else uuid4) in
  let* path_suffix :=
    (if truthy (up_path_suffix options)
     then ret (py_format (up_path_suffix options))
     else let* u := uuid4 in ret (u +:+ "-" +:+ filename)) in
  let* full_path := lift (_build_path self tier visibility path_suffix) in
  let* hot_until :=
    (match tier, up_hot_duration options with
     | HOT, Some d => let* now := datetime_now in ret (Some (now + d))
     | _, _ => ret None
     end) in
  ObjectStore.upload (fm_objectstore self) tier full_path data ;;;
  let* physical_file :=
    (fun w => call (Create tier filename full_path hot_until)
                (adapter_create (w_now w) tier filename full_path hot_until) w) in
  ret physical_file.

Definition get_url (file : PhysicalFile) (options : GetUrlOptions)
  : M DB string :=
  let* tier := lift (_normalize_tier (pf_storage_tier file)) in
  let* visibility := lift (_get_visibility_from_path (pf_path file)) in
  match visibility with
  | PUBLIC =>
    ret (ObjectStore.get_public_url (fm_objectstore self) tier (pf_path file))
  | PRIVATE =>
    let expires :=
      match expires_in options with
      | Some n =>
        if n =? 0 then get_default_presigned_url_expiration (fm_config self)
        else n
      | None => get_default_presigned_url_expiration (fm_config self)
      end in
    ObjectStore.get_presigned_url (fm_objectstore self) tier (pf_path file)
      expires
  end.

Definition set_visibility (file : PhysicalFile)
    (options : SetVisibilityOptions) : M DB PhysicalFile :=
  let* tier := lift (_normalize_tier (pf_storage_tier file)) in
  let* current_visibility := lift (_get_visibility_from_path (pf_path file)) in
  let new_visibility := sv_visibility options in
  if decide (current_visibility = new_visibility) then ret file
  else
    let* current_prefix :=
      lift (get_path_prefix (fm_config self) tier current_visibility) in
    let* path_suffix :=
      (match current_prefix with
       | Some p => ret (drop_chars (String.length p + 1) (pf_path file))
       | None => raise (TypeError "object of type 'NoneType' has no len()")
       end) in
    let* new_path := lift (_build_path self tier new_visibility path_suffix) in
    (if sv_move_file options
     then ObjectStore.move (fm_objectstore self) tier (pf_path file) tier new_path
     else ret tt) ;;;
    let* updated_file :=
      (fun w => call (Update (pf_id file) None (Some new_path) None)
                  (adapter_update (w_now w) (pf_id file) None (Some new_path) None) w) in
    ret updated_file.

(** [set_tier].  The two calls of [adapter.update] at the end differ
    in the source only by the keyword [hot_until=hot_until]; when
    [hot_until] is [None] that is the default of the parameter. *)
Definition set_tier (file : PhysicalFile) (options : SetTierOptions)
  : M DB PhysicalFile :=
  let* current_tier := lift (_normalize_tier (pf_storage_tier file)) in
  let new_tier := st_tier options in
  if decide (current_tier = new_tier) then ret file
  else
    let* hu :=
      (match new_tier, st_hot_duration options with
       | HOT, Some d => let* now := datetime_now in ret (Some (now + d), true)
       | HOT, None => ret (None, false)
       | COLD, _ => ret (None, true)
       end) in
    let hot_until : option Z := fst hu in
    let update_hot_until : bool := snd hu in
    (if st_move_file options
     then ObjectStore.move (fm_objectstore self) current_tier (pf_path file)
            new_tier (pf_path file)
     else ret tt) ;;;
    let* updated_file :=
      (if update_hot_until
       then
         fun w => call (Update (pf_id file) (Some new_tier) None hot_until)
                    (adapter_update (w_now w) (pf_id file) (Some new_tier) None hot_until) w
       else
         fun w => call (Update (pf_id file) (Some new_tier) None None)
                    (adapter_update (w_now w) (pf_id file) (Some new_tier) None None) w) in
    ret updated_file.

Definition delete (file : PhysicalFile) : M DB unit :=
  let* tier := lift (_normalize_tier (pf_storage_tier file)) in
  ObjectStore.delete (fm_objectstore self) tier (pf_path file) ;;;
  call (Delete (pf_id file)) (adapter_delete (pf_id file)).

(** [set_hot_duration] reads nothing of [self] but the adapter, which is
    the database of the world. *)
Definition set_hot_duration (file : PhysicalFile)
    (options : SetHotDurationOptions) : M DB PhysicalFile :=
  let* tier := lift (_normalize_tier (pf_storage_tier file)) in
  if negb (bool_decide (tier = HOT))
  then raise (ValueError "set_hot_duration only applies to HOT tier files")
  else
    let* hot_until :=
      (match duration options with
       | Some d =>
         if d =? 0
         then let* now := datetime_now in ret (Some now)
         else let* now := datetime_now in ret (Some (now + d))
       | None => ret None
       end) in
    let* updated_file :=
      (fun w => call (Update (pf_id file) None None hot_until)
                  (adapter_update (w_now w) (pf_id file) None None hot_until) w) in
    ret updated_file.

(** The [for] loop of [archive_expired_hot_files]. *)
Fixpoint archive_loop (expired_files : list PhysicalFile) (moved_count : Z)
  : M DB Z :=
  match expired_files with
  | [] => ret moved_count
  | file :: rest =>
    let* moved_count :=
      try_except
        (set_tier file
           {| st_tier := COLD; st_move_file := true; st_hot_duration := None |} ;;;
         ret (moved_count + 1))
        (fun e =>
           print ("Failed to archive file " +:+ pretty (pf_id file) +:+ ": "
                  +:+ Exn_str e) ;;;
           ret moved_count) in
    archive_loop rest moved_count
  end.

Definition archive_expired_hot_files : M DB Z :=
  let* expired_files :=
    (fun w => call FindExpiredHotFiles
                (adapter_find_expired_hot_files (w_now w)) w) in
  archive_loop expired_files 0.

(** One list comprehension of [list_orphan_objects]:
    [OrphanObject(..., tier=tier, bucket=get_bucket_name(config, tier))
     for obj in objects if obj.key not in db_paths]. *)
Fixpoint orphans_in (tier : StorageTier) (db_paths : gset string)
    (objects : list S3Object) : Result (list OrphanObject) :=
  match objects with
  | [] => Ok []
  | obj :: rest =>
    if bool_decide (key obj ∉ db_paths)
    then
      match get_bucket_name (fm_config self) tier with
      | Raise e => Raise e
      | Ok bucket =>
        match orphans_in tier db_paths rest with
        | Raise e => Raise e
        | Ok orphans =>
          Ok ({| o_key := key obj;
                 o_last_modified := last_modified obj;
                 o_size := size obj;
                 o_etag := etag obj;
                 o_storage_class := storage_class obj;
                 o_tier := tier;
                 o_bucket := bucket |} :: orphans)
        end
      end
    else orphans_in tier db_paths rest
  end.

Definition list_orphan_objects (prefix : option string)
  : M DB (list OrphanObject) :=
  let* fetched :=
    gather3
      (ObjectStore.list_objects (fm_objectstore self) HOT prefix)
      (ObjectStore.list_objects (fm_objectstore self) COLD prefix)
      (call FindAll adapter_find_all) in
  let hot_objects := fst (fst fetched) in
  let cold_objects := snd (fst fetched) in
  let db_files := snd fetched in
  let db_paths : gset string := list_to_set (List.map pf_path db_files) in
  let* hot_orphans := lift (orphans_in HOT db_paths hot_objects) in
  let* cold_orphans := lift (orphans_in COLD db_paths cold_objects) in
  ret (hot_orphans ++ cold_orphans)%list.
Definition get_by_id (id : Z) : M DB (option PhysicalFile) :=
  call (FindById id) (adapter_find_by_id id).

Definition exists_ (file : PhysicalFile) : M DB bool :=
  let* tier := lift (_normalize_tier (pf_storage_tier file)) in
  ObjectStore.exists_ (fm_objectstore self) tier (pf_path file).

Definition list_files : M DB (list PhysicalFile) :=
  call FindAll adapter_find_all.

Definition list_all_objects (prefix : option string) : M DB AllBucketObjects :=
  let* fetched :=
    gather2
      (ObjectStore.list_objects (fm_objectstore self) HOT prefix)
      (ObjectStore.list_objects (fm_objectstore self) COLD prefix) in
  let hot_objects := fst fetched in
  let cold_objects := snd fetched in
  let* hot_name := lift (get_bucket_name (fm_config self) HOT) in
  let hot_bucket :=
    {| bo_tier := HOT; bo_bucket := hot_name; bo_objects := hot_objects;
       bo_count := Z.of_nat (length hot_objects) |} in
  let* cold_name := lift (get_bucket_name (fm_config self) COLD) in
  let cold_bucket :=
    {| bo_tier := COLD; bo_bucket := cold_name; bo_objects := cold_objects;
       bo_count := Z.of_nat (length cold_objects) |} in
  let* now := datetime_now in
  ret {| all_hot := hot_bucket; all_cold := cold_bucket;
         total_count :=
           Z.of_nat (length hot_objects) + Z.of_nat (length cold_objects);
         collected_at := now |}.

(** [[o for o in orphans if o.tier == options.tier] if options.tier
    else orphans] *)
Definition filter_by_tier (tier : option StorageTier) (orphans : list OrphanObject)
  : list OrphanObject :=
  match tier with
  | Some t => List.filter (fun o => bool_decide (o_tier o = t)) orphans
  | None => orphans
  end.

(** The [for] loop of [delete_orphan_objects]; [result] is the object
    the loop updates. *)
Fixpoint delete_orphans_loop (dry : bool) (orphans : list OrphanObject)
    (result : DeleteOrphanResult) : M DB DeleteOrphanResult :=
  match orphans with
  | [] => ret result
  | orphan :: rest =>
    let* result :=
      try_except
        ((if negb dry
          then ObjectStore.delete (fm_objectstore self) (o_tier orphan) (o_key orphan)
          else ret tt) ;;;
         ret {| deleted := deleted result + 1;
                failed := failed result;
                deleted_paths := deleted_paths result ++ [o_key orphan];
                errors := errors result;
                dry_run := dry_run result |})
        (fun e =>
           ret {| deleted := deleted result;
                  failed := failed result + 1;
                  deleted_paths := deleted_paths result;
                  errors := errors result ++ [(o_key orphan, Exn_str e)];
                  dry_run := dry_run result |}) in
    delete_orphans_loop dry rest result
  end.

Definition delete_orphan_objects (options : DeleteOrphanOptions)
  : M DB DeleteOrphanResult :=
  let* orphans := list_orphan_objects (do_prefix options) in
  let filtered_orphans := filter_by_tier (do_tier options) orphans in
  delete_orphans_loop (do_dry_run options) filtered_orphans
    {| deleted := 0; failed := 0; deleted_paths := []; errors := [];
       dry_run := do_dry_run options |}.

(** [lambda path: path.split("/")[-1]] *)
Definition default_extract_filename (path : string) : Result string :=
  Ok (List.last (split_on "/" path) EmptyString).

(** The [for] loop of [adopt_orphan_objects]. *)
Fixpoint adopt_orphans_loop (options : AdoptOrphanOptions)
    (extract_filename : string -> Result string) (orphans : list OrphanObject)
    (result : AdoptOrphanResult) : M DB AdoptOrphanResult :=
  match orphans with
  | [] => ret result
  | orphan :: rest =>
    let* result :=
      try_except
        (let* filename := lift (extract_filename (o_key orphan)) in
         let* hot_until :=
           (match o_tier orphan, ao_set_hot_until options, ao_hot_duration options with
            | HOT, true, Some d => let* now := datetime_now in ret (Some (now + d))
            | _, _, _ => ret None
            end) in
         let* physical_file :=
           (fun w => call (Create (o_tier orphan) filename (o_key orphan) hot_until)
                       (adapter_create (w_now w) (o_tier orphan) filename
                          (o_key orphan) hot_until) w) in
         ret {| adopted := adopted result + 1;
                adopt_failed := adopt_failed result;
                adopted_file_ids := adopted_file_ids result ++ [pf_id physical_file];
                adopt_errors := adopt_errors result |})
        (fun e =>
           ret {| adopted := adopted result;
                  adopt_failed := adopt_failed result + 1;
                  adopted_file_ids := adopted_file_ids result;
                  adopt_errors := adopt_errors result ++ [(o_key orphan, Exn_str e)] |}) in
    adopt_orphans_loop options extract_filename rest result
  end.

Definition adopt_orphan_objects (options : AdoptOrphanOptions)
  : M DB AdoptOrphanResult :=
  let* orphans := list_orphan_objects (ao_prefix options) in
  let filtered_orphans := filter_by_tier (ao_tier options) orphans in
  let extract_filename :=
    match ao_extract_filename options with
    | Some f => f
    | None => default_extract_filename
    end in
  adopt_orphans_loop options extract_filename filtered_orphans
    {| adopted := 0; adopt_failed := 0; adopted_file_ids := []; adopt_errors := [] |}.
End Methods.
End FileManager.

(** ** examples/sqlalchemy_adapter.py

    The table [physical_files] is the list of its rows in insertion
    order; [next_id] is the value the autoincremented primary key takes
    next.  A statement that violates the unique constraint on [path]
    raises and leaves the table as it was. *)

Record PhysicalFileModel : Type := {
  m_id : Z;
  m_storage_tier : string;
  m_filename : string;
  m_path : string;
  m_hot_until : option Z;
  m_created_at : Z;
  m_updated_at : Z
}.

Record Session : Type := {
  rows : list PhysicalFileModel;
  next_id : Z
}.

Module SQLAlchemyAdapter.

Definition _to_dto (model : PhysicalFileModel) : Result PhysicalFile :=
  match StorageTier_of_value (m_storage_tier model) with
  | Raise e => Raise e
  | Ok tier =>
    Ok {| pf_id := m_id model;
          pf_storage_tier := tier;
          pf_filename := m_filename model;
          pf_path := m_path model;
          pf_hot_until := m_hot_until model;
          pf_created_at := Some (m_created_at model);
          pf_updated_at := Some (m_updated_at model) |}
  end.

(** [[self._to_dto(model) for model in models]] *)
Fixpoint _to_dtos (models : list PhysicalFileModel) : Result (list PhysicalFile) :=
  match models with
  | [] => Ok []
  | model :: rest =>
    match _to_dto model with
    | Raise e => Raise e
    | Ok file =>
      match _to_dtos rest with
      | Raise e => Raise e
      | Ok files => Ok (file :: files)
      end
    end
  end.

(** [select(PhysicalFileModel).where(PhysicalFileModel.id == id)] *)
Definition select_by_id (id : Z) (session : Session) : list PhysicalFileModel :=
  List.filter (fun model => m_id model =? id) (rows session).

Definition path_taken (path : string) (except_id : option Z) (session : Session)
  : bool :=
  existsb
    (fun model =>
       String.eqb (m_path model) path
       && match except_id with Some i => negb (m_id model =? i) | None => true end)
    (rows session).

Definition unique_violation : Exn :=
  IntegrityError "UNIQUE constraint failed: physical_files.path".

Definition create (now : Z) (storage_tier : StorageTier) (filename path : string)
    (hot_until : option Z) (session : Session) : Result PhysicalFile * Session :=
  let model :=
    {| m_id := next_id session;
       m_storage_tier := StorageTier_value storage_tier;
       m_filename := filename;
       m_path := path;
       m_hot_until := hot_until;
       m_created_at := now;
       m_updated_at := now |} in
  if path_taken path None session
  then (Raise unique_violation, session)
  else
    (_to_dto model,
     {| rows := rows session ++ [model]; next_id := next_id session + 1 |}).

Definition find_by_id (id : Z) (session : Session)
  : Result (option PhysicalFile) * Session :=
  match select_by_id id session with
  | [] => (Ok None, session)
  | model :: _ =>
    (match _to_dto model with
     | Ok file => Ok (Some file)
     | Raise e => Raise e
     end, session)
  end.

Definition replace_row (model : PhysicalFileModel) (session : Session) : Session :=
  {| rows :=
       List.map (fun r => if m_id r =? m_id model then model else r) (rows session);
     next_id := next_id session |}.

Definition update (now : Z) (id : Z) (storage_tier : option StorageTier)
    (path : option string) (hot_until : option Z) (session : Session)
  : Result PhysicalFile * Session :=
  match select_by_id id session with
  | [] => (Raise NoResultFound, session)
  | model :: _ =>
    let model' :=
      {| m_id := m_id model;
         m_storage_tier :=
           match storage_tier with
           | Some t => StorageTier_value t
           | None => m_storage_tier model
           end;
         m_filename := m_filename model;
         m_path := match path with Some p => p | None => m_path model end;
         m_hot_until :=
           match hot_until with
           | Some h => Some h
           | None => m_hot_until model
           end;
         m_created_at := m_created_at model;
         m_updated_at := now |} in
    if match path with
       | Some p => path_taken p (Some id) session
       | None => false
       end
    then (Raise unique_violation, session)
    else (_to_dto model', replace_row model' session)
  end.

Definition delete (id : Z) (session : Session) : Result unit * Session :=
  match select_by_id id session with
  | [] => (Raise NoResultFound, session)
  | model :: _ =>
    (Ok tt,
     {| rows := List.filter (fun r => negb (m_id r =? id)) (rows session);
        next_id := next_id session |})
  end.

Definition is_expired_hot (now : Z) (model : PhysicalFileModel) : bool :=
  String.eqb (m_storage_tier model) (StorageTier_value HOT)
  && match m_hot_until model with
     | Some h => h <=? now
     | None => false
     end.

Definition find_expired_hot_files (now : Z) (session : Session)
  : Result (list PhysicalFile) * Session :=
  (_to_dtos (List.filter (is_expired_hot now) (rows session)), session).

Definition find_all (session : Session) : Result (list PhysicalFile) * Session :=
  (_to_dtos (rows session), session).

End SQLAlchemyAdapter.

Global Instance SQLAlchemy_StorageAdapter : StorageAdapter Session := {|
  adapter_create := SQLAlchemyAdapter.create;
  adapter_find_by_id := SQLAlchemyAdapter.find_by_id;
  adapter_update := SQLAlchemyAdapter.update;
  adapter_delete := SQLAlchemyAdapter.delete;
  adapter_find_expired_hot_files := SQLAlchemyAdapter.find_expired_hot_files;
  adapter_find_all := SQLAlchemyAdapter.find_all
|}.

(** * Vocabulary of the statements, concrete configurations and worlds *)

(** The shared fields [get_tier_config] requires for a tier. *)
Inductive SharedField : Type :=
| Endpoint | AccessKey | SecretKey | TierBucket.

Definition shared_field (config : S3StrataConfig) (tier : StorageTier)
    (f : SharedField) : option string :=
  match f with
  | Endpoint => endpoint config
  | AccessKey => access_key config
  | SecretKey => secret_key config
  | TierBucket =>
    match tier with HOT => hot_bucket config | COLD => cold_bucket config end
  end.

Definition shared_field_name (tier : StorageTier) (f : SharedField) : string :=
  match f with
  | Endpoint => "endpoint"
  | AccessKey => "access_key"
  | SecretKey => "secret_key"
  | TierBucket => bucket_field_name tier
  end.

(** The shared configuration used by the examples of the package. *)
Definition shared_config : S3StrataConfig :=
  {| endpoint := Some "s3.amazonaws.com"; port := None; use_ssl := None;
     access_key := Some "your-access-key"; secret_key := Some "your-secret-key";
     hot_bucket := Some "my-hot-bucket"; cold_bucket := Some "my-cold-bucket";
     public_hot_prefix := None; private_hot_prefix := None;
     public_cold_prefix := None; private_cold_prefix := None;
     hot := None; cold := None; advanced := default_advanced |}.

(** The tier and the visibility [upload] settles on. *)
Definition upload_tier (self : FileManager) (options : UploadOptions) : StorageTier :=
  match up_tier options with
  | Some t => t
  | None => get_default_storage_tier (fm_config self)
  end.

Definition upload_visibility (self : FileManager) (options : UploadOptions)
  : FileVisibility :=
  match up_visibility options with
  | Some v => v
  | None => get_default_visibility (fm_config self)
  end.

(** The prefix of a resolved tier for a visibility. *)
Definition prefix_of (tc : S3TierConfig) (visibility : FileVisibility)
  : option string :=
  match visibility with
  | PUBLIC => tc_public_prefix tc
  | PRIVATE => tc_private_prefix tc
  end.

(** A remote object tagged with a tier and the bucket of that tier. *)
Definition as_orphan (tier : StorageTier) (bucket : string) (obj : S3Object)
  : OrphanObject :=
  {| o_key := key obj;
     o_last_modified := last_modified obj;
     o_size := size obj;
     o_etag := etag obj;
     o_storage_class := storage_class obj;
     o_tier := tier;
     o_bucket := bucket |}.

(** The remote objects no record points at. *)
Definition untracked (db_files : list PhysicalFile) (objects : list S3Object)
  : list S3Object :=
  List.filter (fun obj => bool_decide (key obj ∉ List.map pf_path db_files)) objects.

(** A prefix under which [_get_visibility_from_path] recognises a path. *)
Definition conventional_prefix (p : string) : bool :=
  String.eqb p "public" || String.eqb p "private"
  || startswith "public/" p || startswith "private/" p.

Definition tier_config (bucket public_prefix private_prefix : string)
  : S3TierConfig :=
  {| tc_endpoint := "s3.example.com";
     tc_access_key := "test-key";
     tc_secret_key := "test-secret";
     tc_bucket := bucket;
     tc_port := 443;
     tc_use_ssl := true;
     tc_public_prefix := Some public_prefix;
     tc_private_prefix := Some private_prefix |}.

(** Separate endpoint mode with the given prefixes on both tiers. *)
Definition separate_config (public_prefix private_prefix : string)
  : S3StrataConfig :=
  {| endpoint := None; port := None; use_ssl := None;
     access_key := None; secret_key := None;
     hot_bucket := None; cold_bucket := None;
     public_hot_prefix := None; private_hot_prefix := None;
     public_cold_prefix := None; private_cold_prefix := None;
     hot := Some (tier_config "hot-bucket" public_prefix private_prefix);
     cold := Some (tier_config "cold-bucket" public_prefix private_prefix);
     advanced := default_advanced |}.

Definition manager_of (config : S3StrataConfig) (hc cc : S3TierConfig)
  : FileManager :=
  {| fm_config := config;
     fm_objectstore :=
       {| hot_config := hc; cold_config := cc;
          hot_client := ObjectStore._create_client hc;
          cold_client := ObjectStore._create_client cc |} |}.

Definition separate_manager (public_prefix private_prefix : string) : FileManager :=
  manager_of (separate_config public_prefix private_prefix)
    (tier_config "hot-bucket" public_prefix private_prefix)
    (tier_config "cold-bucket" public_prefix private_prefix).

Definition world_of (store : list (Location * Stored))
    (faults : nat -> option Exn) (db : Session) (now : Z) : World Session :=
  {| w_store := store;
     w_faults := faults;
     w_page_size := 2%positive;
     w_presign :=
       fun c bucket k expires _ =>
         endpoint_url c +:+ "/" +:+ bucket +:+ "/" +:+ k
         +:+ "?X-Amz-Expires=" +:+ pretty expires;
     w_uuid4 := fun n => "uuid-" +:+ pretty n;
     w_uuid4_drawn := O;
     w_now := now;
     w_db := db;
     w_trace := [] |}.

Definition no_faults : nat -> option Exn := fun _ => None.

Definition empty_session : Session := {| rows := []; next_id := 1 |}.

Definition hot_row (id : Z) (path : string) (hot_until : option Z)
  : PhysicalFileModel :=
  {| m_id := id; m_storage_tier := "HOT"; m_filename := "file";
     m_path := path; m_hot_until := hot_until;
     m_created_at := 0; m_updated_at := 0 |}.

Definition hot_file (id : Z) (path : string) (hot_until : option Z)
  : PhysicalFile :=
  {| pf_id := id; pf_storage_tier := HOT; pf_filename := "file";
     pf_path := path; pf_hot_until := hot_until;
     pf_created_at := Some 0; pf_updated_at := Some 0 |}.

Definition hot_location (path : string) : Location :=
  ("https://s3.example.com", "hot-bucket", path).

Definition stored (data : bytes) : Stored := {| body_of := data; stored_at := 0 |}.

Definition report_upload : UploadOptions :=
  {| up_tier := Some HOT; up_visibility := Some PUBLIC;
     up_filename := Some "report.pdf"; up_path_suffix := Some "report.pdf";
     up_hot_duration := None |}.

Definition literal_manager : FileManager := separate_manager "public" "private".

Definition assets_manager : FileManager :=
  separate_manager "public/assets" "private/assets".

Definition media_manager : FileManager := separate_manager "media" "vault".

Definition fresh_world : World Session := world_of [] no_faults empty_session 1000.

Definition report_file (path : string) : PhysicalFile :=
  {| pf_id := 1; pf_storage_tier := HOT; pf_filename := "report.pdf";
     pf_path := path; pf_hot_until := None;
     pf_created_at := Some 1000; pf_updated_at := Some 1000 |}.

Definition abc_world : World Session :=
  world_of
    [(hot_location "public/a", stored []);
     (hot_location "public/b", stored []);
     (hot_location "public/c", stored [])]
    no_faults
    {| rows := [hot_row 1 "public/b" None]; next_id := 2 |}
    1000.

Definition listed (k : string) : S3Object :=
  {| key := k; last_modified := Some 0; size := Some 0;
     etag := None; storage_class := None |}.

(** The [hot_until] that [set_hot_duration] passes to [update]. *)
Definition requested_hot_until (now : Z) (options : SetHotDurationOptions)
  : option Z :=
  match duration options with
  | Some d => Some (if d =? 0 then now else now + d)
  | None => None
  end.

Definition expiring_world : World Session :=
  world_of [(hot_location "private/report.pdf", stored [])] no_faults
    {| rows := [hot_row 1 "private/report.pdf" (Some 5000)]; next_id := 2 |}
    1000.

Definition expiring_file : PhysicalFile :=
  hot_file 1 "private/report.pdf" (Some 5000).

Definition cold_options : SetTierOptions :=
  {| st_tier := COLD; st_move_file := true; st_hot_duration := None |}.

Definition failure_line (file : PhysicalFile) (e : Exn) : string :=
  "Failed to archive file " +:+ pretty (pf_id file) +:+ ": " +:+ Exn_str e.

(** The sweep as a sequence of transitions: every record of the list is
    given one [set_tier] to COLD, in order, in the world the previous
    record left; a failure is printed and the sweep goes on. *)
Inductive archive_steps {DB : Type} `{StorageAdapter DB} (self : FileManager)
  : list PhysicalFile -> World DB -> list (Result PhysicalFile) -> World DB -> Prop :=
| archive_done (w : World DB) : archive_steps self [] w [] w
| archive_moved (file : PhysicalFile) (rest : list PhysicalFile)
    (w w1 w2 : World DB) (file' : PhysicalFile)
    (outcomes : list (Result PhysicalFile)) :
    FileManager.set_tier self file cold_options w = (Ok file', w1) ->
    archive_steps self rest w1 outcomes w2 ->
    archive_steps self (file :: rest) w (Ok file' :: outcomes) w2
| archive_failed (file : PhysicalFile) (rest : list PhysicalFile)
    (w w1 w2 : World DB) (e : Exn) (outcomes : list (Result PhysicalFile)) :
    FileManager.set_tier self file cold_options w = (Raise e, w1) ->
    archive_steps self rest (log (Print (failure_line file e)) w1) outcomes w2 ->
    archive_steps self (file :: rest) w (Raise e :: outcomes) w2.

Definition successes {X} (outcomes : list (Result X)) : Z :=
  Z.of_nat (length (List.filter is_ok outcomes)).

Definition failures {X} (outcomes : list (Result X)) : Z :=
  Z.of_nat (length (List.filter (fun r => negb (is_ok r)) outcomes)).

(** Coroutines that leave the database of the adapter as it is,
    whatever their outcome. *)
Definition keeps_db {DB X : Type} (m : M DB X) : Prop :=
  forall w, w_db (snd (m w)) = w_db w.

(** The row of the table with a given primary key. *)
Definition row_of (id : Z) (session : Session) : option PhysicalFileModel :=
  head (SQLAlchemyAdapter.select_by_id id session).

Definition tier_of_row (id : Z) (session : Session) : option string :=
  m_storage_tier <$> row_of id session.

(** Three expired HOT records; the request at position 5 of the trace,
    the download of the second record, meets a transport error. *)
Definition sweep_world : World Session :=
  world_of
    [(hot_location "private/one", stored []);
     (hot_location "private/two", stored []);
     (hot_location "private/three", stored [])]
    (fun n => if Nat.eqb n 5
              then Some (BotoCoreError "Could not connect to the endpoint URL")
              else None)
    {| rows := [hot_row 1 "private/one" (Some 900);
                hot_row 2 "private/two" (Some 950);
                hot_row 3 "private/three" (Some 1000)];
       next_id := 4 |}
    1000.

(** The objects of a listing that are still to come after a token. *)
Definition remaining {DB : Type} (client : Client) (bucket : string)
    (prefix : option string) (token : option nat) (w : World DB) : nat :=
  length
    (skipn (match token with Some n => n | None => O end)
       (List.filter
          (in_listing (endpoint_url client) bucket
             (if truthy prefix then prefix else None))
          (w_store w))).

(** The prefix override field of the shared mode for a tier and a
    visibility. *)
Definition prefix_field (config : S3StrataConfig) (tier : StorageTier)
    (visibility : FileVisibility) : option string :=
  match tier, visibility with
  | HOT, PUBLIC => public_hot_prefix config
  | HOT, PRIVATE => private_hot_prefix config
  | COLD, PUBLIC => public_cold_prefix config
  | COLD, PRIVATE => private_cold_prefix config
  end.

(** The literal a visibility falls back to. *)
Definition default_prefix (visibility : FileVisibility) : string :=
  match visibility with PUBLIC => "public" | PRIVATE => "private" end.

(** Separate endpoint mode for the HOT tier only. *)
Definition hot_only_config : S3StrataConfig :=
  {| endpoint := None; port := None; use_ssl := None;
     access_key := None; secret_key := None;
     hot_bucket := None; cold_bucket := None;
     public_hot_prefix := None; private_hot_prefix := None;
     public_cold_prefix := None; private_cold_prefix := None;
     hot := Some (tier_config "hot-bucket" "public" "private");
     cold := None;
     advanced := default_advanced |}.

(** Shared mode with the four prefix fields set. *)
Definition prefixed_config : S3StrataConfig :=
  {| endpoint := Some "s3.example.com"; port := Some 9000; use_ssl := Some false;
     access_key := Some "shared-key"; secret_key := Some "shared-secret";
     hot_bucket := Some "hot-bucket"; cold_bucket := Some "cold-bucket";
     public_hot_prefix := Some "hot-public";
     private_hot_prefix := Some "hot-private";
     public_cold_prefix := Some "cold-public";
     private_cold_prefix := Some "cold-private";
     hot := None; cold := None; advanced := default_advanced |}.

(** The characters [quote] leaves alone when [safe] is "/". *)
Definition url_safe (a : ascii) : bool :=
  always_safe (N_of_ascii a) || Ascii.eqb a "/".

Fixpoint all_chars (P : ascii -> bool) (s : string) : bool :=
  match s with
  | EmptyString => true
  | String a s' => P a && all_chars P s'
  end.

(** The ports [_create_client] writes into the endpoint although
    [get_public_url] leaves them out. *)
Definition port_only_in_endpoint (tc : S3TierConfig) : bool :=
  (tc_use_ssl tc && (tc_port tc =? 80))
  || (negb (tc_use_ssl tc) && (tc_port tc =? 443)).

(** Where a tier keeps the object of a path. *)
Definition location_of (os : ObjectStoreService) (tier : StorageTier)
    (path : string) : Location :=
  (endpoint_url (ObjectStore._get_client os tier),
   tc_bucket (ObjectStore._get_config os tier), path).

(** The objects a listing of a tier with a prefix is about, as the
    backend lists them. *)
Definition listed_objects {DB : Type} (os : ObjectStoreService)
    (tier : StorageTier) (prefix : option string) (w : World DB) : list S3Object :=
  List.map (fun e => ObjectStore.to_S3Object (to_item e))
    (List.filter
       (in_listing (endpoint_url (ObjectStore._get_client os tier))
          (tc_bucket (ObjectStore._get_config os tier))
          (if truthy prefix then prefix else None))
       (w_store w)).

(** No request fails. *)
Definition fault_free {DB : Type} (w : World DB) : Prop :=
  forall n, w_faults w n = None.

(** A tier on plain HTTP at port 443. *)
Definition http_443_service : ObjectStoreService :=
  fm_objectstore
    (manager_of empty_config
       {| tc_endpoint := "minio.local"; tc_access_key := "k"; tc_secret_key := "s";
          tc_bucket := "files"; tc_port := 443; tc_use_ssl := false;
          tc_public_prefix := Some "public"; tc_private_prefix := Some "private" |}
       (tier_config "cold-bucket" "public" "private")).

(** The three requests of an undisturbed [move]. *)
Definition move_requests (os : ObjectStoreService) (source_tier : StorageTier)
    (source_path : string) (dest_tier : StorageTier) (dest_path : string)
    (data : bytes) : list Event :=
  [S3 (GetObject (ObjectStore._get_client os source_tier)
         (tc_bucket (ObjectStore._get_config os source_tier)) source_path);
   S3 (PutObject (ObjectStore._get_client os dest_tier)
         (tc_bucket (ObjectStore._get_config os dest_tier)) dest_path data);
   S3 (DeleteObject (ObjectStore._get_client os source_tier)
         (tc_bucket (ObjectStore._get_config os source_tier)) source_path)].

(** The next [k] requests do not fail. *)
Definition next_requests_succeed {DB : Type} (k : nat) (w : World DB) : Prop :=
  forall i, (i < k)%nat -> w_faults w (length (w_trace w) + i)%nat = None.

(** Both tiers in one bucket of one endpoint. *)
Definition one_bucket_manager : FileManager :=
  manager_of empty_config
    (tier_config "files" "public" "private")
    (tier_config "files" "public" "private").

(** The expiry [get_url] asks a presigned URL for. *)
Definition url_expiry (self : FileManager) (options : GetUrlOptions) : Z :=
  match expires_in options with
  | Some n =>
    if n =? 0 then get_default_presigned_url_expiration (fm_config self) else n
  | None => get_default_presigned_url_expiration (fm_config self)
  end.

Definition is_request (e : Event) : bool :=
  match e with S3 _ => true | _ => false end.

(** Coroutines that only talk to the object store: the database of the
    adapter, the clock and the fault schedule stay, and the trace grows by
    requests. *)
Definition requests_only {DB X : Type} (m : M DB X) : Prop :=
  forall w,
    w_db (snd (m w)) = w_db w
    /\ w_now (snd (m w)) = w_now w
    /\ exists evs,
         w_trace (snd (m w)) = w_trace w ++ evs
         /\ forallb is_request evs = true.

Definition cold_file (id : Z) (path : string) (hot_until : option Z)
  : PhysicalFile :=
  {| pf_id := id; pf_storage_tier := COLD; pf_filename := "file";
     pf_path := path; pf_hot_until := hot_until;
     pf_created_at := Some 0; pf_updated_at := Some 0 |}.

Definition cold_location (path : string) : Location :=
  ("https://s3.example.com", "cold-bucket", path).

(** A COLD record that still carries an expiry, with its object. *)
Definition archived_world : World Session :=
  world_of [(cold_location "private/report.pdf", stored [])] no_faults
    {| rows := [{| m_id := 1; m_storage_tier := "COLD"; m_filename := "file";
                   m_path := "private/report.pdf"; m_hot_until := Some 500;
                   m_created_at := 0; m_updated_at := 0 |}];
       next_id := 2 |}
    1000.

(** The other visibility. *)
Definition other_visibility (v : FileVisibility) : FileVisibility :=
  match v with PUBLIC => PRIVATE | PRIVATE => PUBLIC end.

(** The adapter call that ends a [set_visibility]. *)
Definition path_update (file : PhysicalFile) (new_path : string) : Event :=
  Adapter (Update (pf_id file) None (Some new_path) None).

(** Two records; the second already holds the private path of the
    first. *)
Definition crowded_world : World Session :=
  world_of
    [(hot_location "public/a.txt", stored [Byte.x01]);
     (hot_location "private/a.txt", stored [Byte.x02])]
    no_faults
    {| rows := [hot_row 1 "public/a.txt" None; hot_row 2 "private/a.txt" None];
       next_id := 3 |}
    1000.

(** The result [delete_orphan_objects] starts from. *)
Definition empty_delete_result (dry : bool) : DeleteOrphanResult :=
  {| deleted := 0; failed := 0; deleted_paths := []; errors := []; dry_run := dry |}.

(** The [hot_until] an adopted orphan is created with. *)
Definition adopted_hot_until (options : AdoptOrphanOptions) (now : Z)
    (orphan : OrphanObject) : option Z :=
  match o_tier orphan, ao_set_hot_until options, ao_hot_duration options with
  | HOT, true, Some d => Some (now + d)
  | _, _, _ => None
  end.

(** [sep.join(parts)] *)
Fixpoint join_with (sep : string) (parts : list string) : string :=
  match parts with
  | [] => EmptyString
  | [s] => s
  | s :: rest => s +:+ sep +:+ join_with sep rest
  end.

(** Two orphans in the HOT bucket, none in the COLD one, no record. *)
Definition orphan_world : World Session :=
  world_of
    [(hot_location "public/docs/a.txt", stored [Byte.x01]);
     (hot_location "private/b.bin", stored [Byte.x02])]
    no_faults empty_session 1000.

(** The adapter calls of an adoption: one [create] for every orphan
    whose filename could be extracted. *)
Definition adoption_calls (options : AdoptOrphanOptions)
    (extract_filename : string -> Result string) (now : Z)
    (orphans : list OrphanObject) : list Event :=
  flat_map
    (fun o =>
       match extract_filename (o_key o) with
       | Ok filename =>
         [Adapter (Create (o_tier o) filename (o_key o)
                     (adopted_hot_until options now o))]
       | Raise _ => []
       end)
    orphans.

(** The extractor [adopt_orphan_objects] uses. *)
Definition extractor_of (options : AdoptOrphanOptions) : string -> Result string :=
  match ao_extract_filename options with
  | Some f => f
  | None => FileManager.default_extract_filename
  end.

Definition adopt_all : AdoptOrphanOptions :=
  {| ao_prefix := None; ao_tier := None; ao_extract_filename := None;
     ao_set_hot_until := true; ao_hot_duration := Some 3600 |}.

(** The orphans of [orphan_world]. *)
Definition two_orphans : list OrphanObject :=
  [as_orphan HOT "hot-bucket"
     {| key := "public/docs/a.txt"; last_modified := Some 0; size := Some 1;
        etag := None; storage_class := None |};
   as_orphan HOT "hot-bucket"
     {| key := "private/b.bin"; last_modified := Some 0; size := Some 1;
        etag := None; storage_class := None |}].

(** Two worlds that differ at most in their trace. *)
Definition only_trace_differs {DB : Type} (w w' : World DB) : Prop :=
  w_store w' = w_store w
  /\ w_faults w' = w_faults w
  /\ w_page_size w' = w_page_size w
  /\ w_presign w' = w_presign w
  /\ w_uuid4 w' = w_uuid4 w
  /\ w_uuid4_drawn w' = w_uuid4_drawn w
  /\ w_now w' = w_now w
  /\ w_db w' = w_db w.

(** Shared endpoint mode with one bucket for both tiers, and the manager
    built from it. *)
Definition one_bucket_config : S3StrataConfig :=
  {| endpoint := Some "s3.example.com"; port := None; use_ssl := None;
     access_key := Some "test-key"; secret_key := Some "test-secret";
     hot_bucket := Some "files"; cold_bucket := Some "files";
     public_hot_prefix := None; private_hot_prefix := None;
     public_cold_prefix := None; private_cold_prefix := None;
     hot := None; cold := None; advanced := default_advanced |}.

Definition shared_bucket_manager : FileManager :=
  manager_of one_bucket_config
    {| tc_endpoint := "s3.example.com"; tc_access_key := "test-key";
       tc_secret_key := "test-secret"; tc_bucket := "files"; tc_port := 443;
       tc_use_ssl := true; tc_public_prefix := None; tc_private_prefix := None |}
    (tier_config "files" "public" "private").

Definition shared_bucket_world : World Session :=
  world_of [(("https://s3.example.com", "files", "public/a"), stored []);
            (("https://s3.example.com", "files", "private/b"), stored [])]
    no_faults empty_session 1000.

(** What the schema of the [physical_files] table promises: primary keys
    and paths are unique, the keys handed out so far lie below the next one,
    and every stored tier is the value of a member of [StorageTier]. *)
Definition table_ok (session : Session) : Prop :=
  NoDup (List.map m_id (rows session))
  /\ NoDup (List.map m_path (rows session))
  /\ Forall (fun m => m_id m < next_id session) (rows session)
  /\ Forall (fun m => exists t, m_storage_tier m = StorageTier_value t)
       (rows session).

(** The record [create] returns for its arguments at a given time. *)
Definition created_file (now id : Z) (storage_tier : StorageTier)
    (filename path : string) (hot_until : option Z) : PhysicalFile :=
  {| pf_id := id; pf_storage_tier := storage_tier; pf_filename := filename;
     pf_path := path; pf_hot_until := hot_until;
     pf_created_at := Some now; pf_updated_at := Some now |}.

(** The [hot_until] that [upload] asks the adapter to store. *)
Definition upload_hot_until (self : FileManager) (options : UploadOptions)
    (now : Z) : option Z :=
  match upload_tier self options, up_hot_duration options with
  | HOT, Some d => Some (now + d)
  | _, _ => None
  end.

(** The ids of the records a sweep has moved: those whose transition
    returned. *)
Fixpoint moved_ids (files : list PhysicalFile)
    (outcomes : list (Result PhysicalFile)) : list Z :=
  match files, outcomes with
  | file :: files', Ok _ :: outcomes' => pf_id file :: moved_ids files' outcomes'
  | _ :: files', Raise _ :: outcomes' => moved_ids files' outcomes'
  | _, _ => []
  end.

(** The ids of the rows [find_expired_hot_files] selects at a time. *)
Definition expired_ids (now : Z) (session : Session) : list Z :=
  List.map m_id
    (List.filter (SQLAlchemyAdapter.is_expired_hot now) (rows session)).

(** What is left of a list of ids without the moved ones. *)
Definition without (moved ids : list Z) : list Z :=
  List.filter (fun i => negb (existsb (Z.eqb i) moved)) ids.

(** * Properties *)

(** ** The tier resolver *)

Lemma truthy_Some (o : option string) :
  truthy o = true -> exists s, o = Some s /\ s <> "" /\ py_format o = s.
Proof.
  destruct o as [s|]; simpl; [|discriminate].
  intros Hs. exists s. split; [reflexivity|]. split; [|reflexivity].
  intros ->. discriminate.
Qed.

Lemma get_tier_config_override (config : S3StrataConfig) (tier : StorageTier)
    (c : S3TierConfig) :
  tier_override config tier = Some c -> get_tier_config config tier = Ok c.
Proof.
  unfold tier_override, get_tier_config.
  destruct tier; intros ->; [reflexivity|].
  destruct (hot config); reflexivity.
Qed.

(** What the shared mode resolves to, tier by tier: the two prefixes of
    the HOT tier are the override fields as they are, those of the COLD
    tier fall back to the literals. *)
Lemma get_tier_config_shared (config : S3StrataConfig) (tier : StorageTier) :
  tier_override config tier = None ->
  (forall f, truthy (shared_field config tier f) = true) ->
  get_tier_config config tier =
  Ok {| tc_endpoint := py_format (endpoint config);
        tc_access_key := py_format (access_key config);
        tc_secret_key := py_format (secret_key config);
        tc_bucket := py_format (shared_field config tier TierBucket);
        tc_port := match port config with Some p => p | None => 443 end;
        tc_use_ssl := match use_ssl config with Some b => b | None => true end;
        tc_public_prefix :=
          match tier with
          | HOT => public_hot_prefix config
          | COLD => Some (py_or (public_cold_prefix config) "public")
          end;
        tc_private_prefix :=
          match tier with
          | HOT => private_hot_prefix config
          | COLD => Some (py_or (private_cold_prefix config) "private")
          end |}.
Proof.
  intros Hov Hall.
  pose proof (Hall Endpoint) as He. pose proof (Hall AccessKey) as Ha.
  pose proof (Hall SecretKey) as Hs. pose proof (Hall TierBucket) as Hb.
  simpl in He, Ha, Hs, Hb.
  unfold get_tier_config, tier_override in *.
  destruct tier; rewrite Hov.
  - rewrite He, Ha, Hs, Hb. simpl. reflexivity.
  - destruct (hot config); rewrite He, Ha, Hs, Hb; reflexivity.
Qed.

(** In shared mode the COLD tier gets the stated defaults. *)
Lemma get_tier_config_shared_cold_defaults (config : S3StrataConfig) :
  cold config = None ->
  (forall f, truthy (shared_field config COLD f) = true) ->
  port config = None -> use_ssl config = None ->
  public_cold_prefix config = None -> private_cold_prefix config = None ->
  exists tc, get_tier_config config COLD = Ok tc
    /\ tc_port tc = 443 /\ tc_use_ssl tc = true
    /\ tc_public_prefix tc = Some "public"
    /\ tc_private_prefix tc = Some "private".
Proof.
  intros Hc Hall Hp Hs Hpub Hpriv.
  rewrite (get_tier_config_shared config COLD Hc Hall).
  eexists. split; [reflexivity|]. simpl.
  rewrite Hp, Hs, Hpub, Hpriv. auto.
Qed.

(** C1: in shared mode with the prefix fields unset, the HOT tier resolves
    to a configuration whose two prefixes are [None], not the literals
    "public" and "private"; the COLD tier of the same configuration gets
    the literals. *)
Theorem get_tier_config_hot_prefix_default :
  get_tier_config shared_config HOT =
    Ok {| tc_endpoint := "s3.amazonaws.com";
          tc_access_key := "your-access-key";
          tc_secret_key := "your-secret-key";
          tc_bucket := "my-hot-bucket";
          tc_port := 443;
          tc_use_ssl := true;
          tc_public_prefix := None;
          tc_private_prefix := None |}
  /\ get_tier_config shared_config COLD =
    Ok {| tc_endpoint := "s3.amazonaws.com";
          tc_access_key := "your-access-key";
          tc_secret_key := "your-secret-key";
          tc_bucket := "my-cold-bucket";
          tc_port := 443;
          tc_use_ssl := true;
          tc_public_prefix := Some "public";
          tc_private_prefix := Some "private" |}.
Proof. split; reflexivity. Qed.

(** C9: without an override for the tier, a configuration that lacks one
    of the required shared fields does not resolve: [get_tier_config]
    raises a [ValueError] whose message contains the value of the tier and
    the name of every field that is missing. *)
Theorem get_tier_config_missing_shared_fields
    (config : S3StrataConfig) (tier : StorageTier) :
  tier_override config tier = None ->
  (exists f, truthy (shared_field config tier f) = false) ->
  exists msg,
    get_tier_config config tier = Raise (ValueError msg)
    /\ contains (StorageTier_value tier) msg = true
    /\ forall f, truthy (shared_field config tier f) = false ->
                 contains (shared_field_name tier f) msg = true.
Proof.
  intros Hov [f0 Hf0].
  unfold get_tier_config, tier_override in *.
  destruct (negb (truthy (endpoint config)) || negb (truthy (access_key config))
            || negb (truthy (secret_key config))) eqn:Hshared.
  - exists (missing_config_message tier).
    split; [destruct tier; rewrite Hov; [|destruct (hot config)]; reflexivity|].
    split; [destruct tier; reflexivity|].
    intros f _. destruct tier, f; reflexivity.
  - apply orb_false_iff in Hshared as [Hshared Hs].
    apply orb_false_iff in Hshared as [He Ha].
    apply negb_false_iff in He, Ha, Hs.
    assert (Hb : truthy (shared_field config tier TierBucket) = false).
    { destruct f0; simpl in Hf0; try congruence. exact Hf0. }
    exists (missing_bucket_message tier).
    split.
    { destruct tier; rewrite Hov; simpl in Hb;
        [|destruct (hot config)]; rewrite Hb; reflexivity. }
    split; [destruct tier; reflexivity|].
    intros f Hf. destruct f; simpl in Hf; try congruence.
    destruct tier; reflexivity.
Qed.

Lemma get_tier_config_missing_shared_fields_witness :
  exists msg,
    get_tier_config empty_config HOT = Raise (ValueError msg)
    /\ contains (StorageTier_value HOT) msg = true
    /\ forall f, truthy (shared_field empty_config HOT f) = false ->
                 contains (shared_field_name HOT f) msg = true.
Proof.
  apply (get_tier_config_missing_shared_fields empty_config HOT).
  - reflexivity.
  - exists Endpoint. reflexivity.
Defined.

(** ** The backend store *)

Lemma Location_eqb_refl (l : Location) : Location_eqb l l = true.
Proof.
  destruct l as [[e b] k]. unfold Location_eqb.
  rewrite !String.eqb_refl. reflexivity.
Qed.

Lemma Location_eqb_eq (a b : Location) : Location_eqb a b = true <-> a = b.
Proof.
  destruct a as [[e1 b1] k1], b as [[e2 b2] k2]. unfold Location_eqb.
  rewrite !andb_true_iff, !String.eqb_eq. split.
  - intros [[-> ->] ->]. reflexivity.
  - intros [= -> -> ->]. auto.
Qed.

Lemma store_get_put (l : Location) (o : Stored) (s : list (Location * Stored)) :
  store_get l (store_put l o s) = Some o.
Proof.
  induction s as [|[l' o'] s IH]; simpl.
  - rewrite Location_eqb_refl. reflexivity.
  - destruct (Location_eqb l l') eqn:E; simpl.
    + rewrite Location_eqb_refl. reflexivity.
    + rewrite E. exact IH.
Qed.

Lemma store_get_delete (l : Location) (s : list (Location * Stored)) :
  store_get l (store_delete l s) = None.
Proof.
  unfold store_delete.
  induction s as [|[l' o'] s IH]; simpl; [reflexivity|].
  destruct (Location_eqb l l') eqn:E; simpl; [exact IH|].
  rewrite E. exact IH.
Qed.

(** ** The file manager, for every adapter *)

Lemma _normalize_tier_total (tier : StorageTier) :
  FileManager._normalize_tier tier = Ok tier.
Proof. destruct tier; reflexivity. Qed.

Lemma init_resolves (config : S3StrataConfig) (fm : FileManager) :
  FileManager.init config = Ok fm ->
  fm_config fm = config
  /\ get_tier_config config HOT = Ok (hot_config (fm_objectstore fm))
  /\ get_tier_config config COLD = Ok (cold_config (fm_objectstore fm))
  /\ hot_client (fm_objectstore fm)
     = ObjectStore._create_client (hot_config (fm_objectstore fm))
  /\ cold_client (fm_objectstore fm)
     = ObjectStore._create_client (cold_config (fm_objectstore fm)).
Proof.
  unfold FileManager.init, ObjectStore.init.
  destruct (get_tier_config config HOT) as [hc|]; [|discriminate].
  destruct (get_tier_config config COLD) as [cc|]; [|discriminate].
  intros [= <-]. simpl. auto.
Qed.

Lemma init_tier_config (config : S3StrataConfig) (fm : FileManager)
    (tier : StorageTier) :
  FileManager.init config = Ok fm ->
  get_tier_config (fm_config fm) tier
  = Ok (ObjectStore._get_config (fm_objectstore fm) tier).
Proof.
  intros Hi. destruct (init_resolves _ _ Hi) as (-> & Hh & Hc & _).
  destruct tier; assumption.
Qed.

Lemma elem_of_untracked (db_files : list PhysicalFile) (objects : list S3Object)
    (obj : S3Object) :
  obj ∈ untracked db_files objects
  <-> obj ∈ objects /\ forall r, r ∈ db_files -> pf_path r <> key obj.
Proof.
  unfold untracked. rewrite list_elem_of_In, filter_In, <- list_elem_of_In.
  rewrite bool_decide_eq_true.
  split; intros [Hin Hk]; (split; [exact Hin|]).
  - intros r Hr Heq. apply Hk. rewrite <- Heq.
    apply list_elem_of_In, in_map, list_elem_of_In, Hr.
  - intros Hm. apply list_elem_of_In, in_map_iff in Hm as (r & Heq & Hr).
    apply (Hk r); [apply list_elem_of_In, Hr | exact Heq].
Qed.

Section AnyAdapter.
Context {DB : Type} `{StorageAdapter DB}.

Ltac run :=
  unfold bind, ret, lift, raise, try_except, call, put_object, get_object,
    delete_object, head_object, list_objects_v2, request, datetime_now, uuid4,
    print in *; simpl in *.

(** C10: when the visibility read off the path of a record is the
    requested one, [set_visibility] returns the record it was given and
    leaves the world as it was: no request is sent to the object store
    and no method of the adapter is called. *)
Theorem set_visibility_same_is_noop (self : FileManager) (file : PhysicalFile)
    (options : SetVisibilityOptions) (w : World DB) :
  FileManager._get_visibility_from_path (pf_path file)
  = Ok (sv_visibility options) ->
  FileManager.set_visibility self file options w = (Ok file, w).
Proof.
  intros Hv. unfold FileManager.set_visibility.
  rewrite _normalize_tier_total, Hv. run.
  destruct (decide (sv_visibility options = sv_visibility options)); congruence.
Qed.

(** C5: [delete] sends the delete of the object at the path of the record
    first.  When that request fails, the exception is the outcome, the
    adapter is not called and its database is as before.  Otherwise the
    delete of the adapter is the second and last call. *)
Theorem delete_object_before_record (self : FileManager) (file : PhysicalFile)
    (w : World DB) :
  let os := fm_objectstore self in
  let tier := pf_storage_tier file in
  let client := ObjectStore._get_client os tier in
  let bucket := tc_bucket (ObjectStore._get_config os tier) in
  let req := S3 (DeleteObject client bucket (pf_path file)) in
  let r := FileManager.delete self file w in
  match w_faults w (length (w_trace w)) with
  | Some e =>
    fst r = Raise e
    /\ w_trace (snd r) = w_trace w ++ [req]
    /\ w_db (snd r) = w_db w
    /\ w_store (snd r) = w_store w
  | None =>
    w_trace (snd r) = w_trace w ++ [req; Adapter (Delete (pf_id file))]
    /\ (fst r, w_db (snd r)) = adapter_delete (pf_id file) (w_db w)
    /\ store_get (endpoint_url client, bucket, pf_path file) (w_store (snd r)) = None
  end.
Proof.
  intros os tier client bucket req r. subst r.
  unfold FileManager.delete. rewrite _normalize_tier_total.
  unfold ObjectStore.delete. run.
  fold os tier client bucket.
  destruct (w_faults w (length (w_trace w))) as [e|]; simpl.
  - auto.
  - destruct (adapter_delete (pf_id file) (w_db w)) as [x d] eqn:Hd. simpl.
    rewrite <- app_assoc. simpl.
    split; [reflexivity|]. split; [reflexivity|].
    apply store_get_delete.
Qed.

Lemma init_path_prefix (config : S3StrataConfig) (self : FileManager)
    (tier : StorageTier) (visibility : FileVisibility) :
  FileManager.init config = Ok self ->
  get_path_prefix (fm_config self) tier visibility
  = Ok (prefix_of (ObjectStore._get_config (fm_objectstore self) tier) visibility).
Proof.
  intros Hi. unfold get_path_prefix.
  rewrite (init_tier_config _ _ tier Hi). destruct visibility; reflexivity.
Qed.

Lemma init_build_path (config : S3StrataConfig) (self : FileManager)
    (tier : StorageTier) (visibility : FileVisibility) (path_suffix : string) :
  FileManager.init config = Ok self ->
  FileManager._build_path self tier visibility path_suffix
  = Ok (py_format
          (prefix_of (ObjectStore._get_config (fm_objectstore self) tier) visibility)
        +:+ "/" +:+ path_suffix).
Proof.
  intros Hi. unfold FileManager._build_path.
  rewrite (init_path_prefix _ _ tier visibility Hi). reflexivity.
Qed.

(** C4: [upload] sends the put of the bytes at the path
    [{prefix}/{path_suffix}] first.  When the put fails, the exception is
    the outcome, the adapter is not called, and neither its database nor
    the stored objects change.  Otherwise the object is stored and the
    [create] of the adapter, for the same path, is the second and last
    call: a record is only ever created for an object that was put. *)
Theorem upload_object_before_record (config : S3StrataConfig)
    (self : FileManager) (data : bytes) (options : UploadOptions) (w : World DB) :
  FileManager.init config = Ok self ->
  let tier := upload_tier self options in
  let visibility := upload_visibility self options in
  let os := fm_objectstore self in
  let client := ObjectStore._get_client os tier in
  let bucket := tc_bucket (ObjectStore._get_config os tier) in
  let r := FileManager.upload self data options w in
  exists filename path_suffix,
    (truthy (up_filename options) = true ->
     filename = py_format (up_filename options))
    /\ (truthy (up_path_suffix options) = true ->
        path_suffix = py_format (up_path_suffix options))
    /\ let hot_until :=
         match tier, up_hot_duration options with
         | HOT, Some d => Some (w_now w + d)
         | _, _ => None
         end in
       let full_path :=
         py_format (prefix_of (ObjectStore._get_config os tier) visibility)
         +:+ "/" +:+ path_suffix in
       let put := S3 (PutObject client bucket full_path data) in
       match w_faults w (length (w_trace w)) with
       | Some e =>
         fst r = Raise e
         /\ w_trace (snd r) = w_trace w ++ [put]
         /\ w_db (snd r) = w_db w
         /\ w_store (snd r) = w_store w
       | None =>
         w_trace (snd r)
         = w_trace w ++ [put; Adapter (Create tier filename full_path hot_until)]
         /\ (fst r, w_db (snd r))
            = adapter_create (w_now w) tier filename full_path hot_until (w_db w)
         /\ store_get (endpoint_url client, bucket, full_path) (w_store (snd r))
            = Some {| body_of := data; stored_at := w_now w |}
       end.
Proof.
  intros Hi tier visibility os client bucket r. subst r.
  unfold FileManager.upload.
  fold (upload_tier self options) (upload_visibility self options).
  fold tier visibility.
  set (fname := if truthy (up_filename options)
                then py_format (up_filename options)
                else w_uuid4 w (w_uuid4_drawn w)).
  set (drawn := if truthy (up_filename options)
                then w_uuid4_drawn w else S (w_uuid4_drawn w)).
  set (suffix := if truthy (up_path_suffix options)
                 then py_format (up_path_suffix options)
                 else w_uuid4 w drawn +:+ "-" +:+ fname).
  exists fname, suffix.
  split; [intros Hf; subst fname; rewrite Hf; reflexivity|].
  split; [intros Hs; subst suffix; rewrite Hs; reflexivity|].
  subst fname suffix drawn.
  unfold ObjectStore.upload.
  destruct (truthy (up_filename options)), (truthy (up_path_suffix options));
    run; rewrite (init_build_path _ _ tier visibility _ Hi); fold os client bucket;
    destruct tier, (up_hot_duration options) as [d|]; simpl;
    destruct (w_faults w (length (w_trace w))) as [e|]; simpl; auto;
    match goal with
    | |- context [adapter_create ?a ?b ?c ?d ?e ?f] =>
      destruct (adapter_create a b c d e f) as [x d'] eqn:Hc
    end; destruct x; simpl; rewrite <- app_assoc; simpl;
    (split; [reflexivity|]); (split; [reflexivity|]); apply store_get_put.
Qed.

Lemma orphans_in_filter (self : FileManager) (tier : StorageTier) (bucket : string)
    (db_files : list PhysicalFile) (objects : list S3Object) :
  get_bucket_name (fm_config self) tier = Ok bucket ->
  FileManager.orphans_in self tier (list_to_set (List.map pf_path db_files)) objects
  = Ok (List.map (as_orphan tier bucket) (untracked db_files objects)).
Proof.
  intros Hb. unfold untracked.
  induction objects as [|obj rest IH]; simpl; [reflexivity|].
  rewrite IH, Hb.
  assert (Hd : bool_decide (key obj ∉ (list_to_set (List.map pf_path db_files) : gset string))
               = bool_decide (key obj ∉ List.map pf_path db_files)).
  { apply bool_decide_ext. rewrite elem_of_list_to_set. reflexivity. }
  rewrite Hd.
  destruct (bool_decide (key obj ∉ List.map pf_path db_files)); reflexivity.
Qed.

Lemma init_bucket_name (config : S3StrataConfig) (self : FileManager)
    (tier : StorageTier) :
  FileManager.init config = Ok self ->
  get_bucket_name (fm_config self) tier
  = Ok (tc_bucket (ObjectStore._get_config (fm_objectstore self) tier)).
Proof.
  intros Hi. unfold get_bucket_name. rewrite (init_tier_config _ _ tier Hi).
  reflexivity.
Qed.

(** C6: whatever the two listings and the record set are,
    [list_orphan_objects] returns the HOT objects whose key is the path of
    no record, tagged HOT with the HOT bucket, followed by the COLD
    objects whose key is the path of no record, tagged COLD with the COLD
    bucket; the records are all the records, of either tier.  With the
    HOT objects a, b, c and one record at the key of b, the HOT orphans
    are a and c. *)
Theorem list_orphan_objects_is_difference (config : S3StrataConfig)
    (self : FileManager) (prefix : option string) (w w1 w2 : World DB)
    (hot_objects cold_objects : list S3Object) (db_files : list PhysicalFile)
    (db' : DB) :
  FileManager.init config = Ok self ->
  ObjectStore.list_objects (fm_objectstore self) HOT prefix w
  = (Ok hot_objects, w1) ->
  ObjectStore.list_objects (fm_objectstore self) COLD prefix w1
  = (Ok cold_objects, w2) ->
  adapter_find_all (w_db w2) = (Ok db_files, db') ->
  let hot_bucket := tc_bucket (hot_config (fm_objectstore self)) in
  let cold_bucket := tc_bucket (cold_config (fm_objectstore self)) in
  exists orphans,
    FileManager.list_orphan_objects self prefix w
    = (Ok orphans, set_db db' (log (Adapter FindAll) w2))
    /\ orphans
       = List.map (as_orphan HOT hot_bucket) (untracked db_files hot_objects)
         ++ List.map (as_orphan COLD cold_bucket) (untracked db_files cold_objects)
    /\ (forall o, o ∈ orphans <->
          exists obj,
            (forall r, r ∈ db_files -> pf_path r <> key obj)
            /\ (obj ∈ hot_objects /\ o = as_orphan HOT hot_bucket obj
                \/ obj ∈ cold_objects /\ o = as_orphan COLD cold_bucket obj))
    /\ (forall a b c r,
          hot_objects = [a; b; c] -> db_files = [r] -> pf_path r = key b ->
          key a <> key b -> key c <> key b ->
          List.filter (fun o => bool_decide (o_tier o = HOT)) orphans
          = [as_orphan HOT hot_bucket a; as_orphan HOT hot_bucket c]).
Proof.
  intros Hi Hh Hc Hd hb cb.
  eexists. split.
  { unfold FileManager.list_orphan_objects, bind, gather3, call, lift, ret.
    rewrite Hh, Hc, Hd. simpl.
    rewrite (orphans_in_filter self HOT hb), (orphans_in_filter self COLD cb).
    - reflexivity.
    - apply (init_bucket_name config self COLD Hi).
    - apply (init_bucket_name config self HOT Hi). }
  split; [reflexivity|]. split.
  - intros o. rewrite elem_of_app, !list_elem_of_In, !in_map_iff. split.
    + intros [(obj & <- & Hin)|(obj & <- & Hin)];
        apply list_elem_of_In, elem_of_untracked in Hin as [Hin Hk];
        exists obj; (split; [exact Hk|]); [left|right]; auto.
    + intros (obj & Hk & [[Hin ->]|[Hin ->]]); [left|right];
        exists obj; (split; [reflexivity|]);
        apply list_elem_of_In, elem_of_untracked; auto.
  - intros a b c r -> -> Hr Ha Hcb.
    rewrite List.filter_app.
    assert (Hcold : forall l, List.filter (fun o => bool_decide (o_tier o = HOT))
                     (List.map (as_orphan COLD cb) l) = []).
    { induction l as [|x l IH]; simpl; [reflexivity|exact IH]. }
    rewrite Hcold, app_nil_r.
    unfold untracked. simpl. rewrite Hr.
    rewrite (bool_decide_eq_true_2 (key a ∉ [key b])),
      (bool_decide_eq_true_2 (key c ∉ [key b])),
      (bool_decide_eq_false_2 (key b ∉ [key b])); simpl.
    + reflexivity.
    + intros Hn. apply Hn. apply list_elem_of_In. left. reflexivity.
    + intros Hin. apply list_elem_of_In in Hin as [Heq|[]]. congruence.
    + intros Hin. apply list_elem_of_In in Hin as [Heq|[]]. congruence.
Qed.

End AnyAdapter.

(** ** Visibility read off the path *)

Lemma append_cons (a : ascii) (p s : string) :
  String a p +:+ s = String a (p +:+ s).
Proof. reflexivity. Qed.

Lemma append_nil (s : string) : "" +:+ s = s.
Proof. reflexivity. Qed.

Lemma startswith_cons (a b : ascii) (p s : string) :
  startswith (String a p) (String b s) = Ascii.eqb a b && startswith p s.
Proof. reflexivity. Qed.

Lemma startswith_joined (q p s : string) :
  has_char "/" q = false ->
  startswith (q +:+ "/") (p +:+ "/" +:+ s)
  = String.eqb p q || startswith (q +:+ "/") p.
Proof.
  revert p. induction q as [|c q IH]; intros p Hq.
  - destruct p as [|a p]; [reflexivity|].
    change (startswith ("" +:+ "/") (String a p +:+ "/" +:+ s))
      with (Ascii.eqb "/" a && true).
    change (startswith ("" +:+ "/") (String a p)) with (Ascii.eqb "/" a && true).
    reflexivity.
  - change (has_char "/" (String c q))
      with (Ascii.eqb "/" c || has_char "/" q) in Hq.
    apply orb_false_iff in Hq as [Hc Hq].
    destruct p as [|a p].
    + change (startswith (String c q +:+ "/") ("" +:+ "/" +:+ s))
        with (Ascii.eqb c "/" && startswith (q +:+ "/") s).
      rewrite Ascii.eqb_sym, Hc. reflexivity.
    + change (startswith (String c q +:+ "/") (String a p +:+ "/" +:+ s))
        with (Ascii.eqb c a && startswith (q +:+ "/") (p +:+ "/" +:+ s)).
      change (startswith (String c q +:+ "/") (String a p))
        with (Ascii.eqb c a && startswith (q +:+ "/") p).
      change ((String a p =? String c q)%string)
        with (Ascii.eqb a c && (p =? q)%string).
      rewrite (IH p Hq), (Ascii.eqb_sym a c).
      destruct (Ascii.eqb c a); reflexivity.
Qed.

Lemma visibility_of_built_path (p s : string) :
  FileManager._get_visibility_from_path (p +:+ "/" +:+ s)
  = if String.eqb p "public" || startswith "public/" p then Ok PUBLIC
    else if String.eqb p "private" || startswith "private/" p then Ok PRIVATE
    else Raise (ValueError ("Invalid path format: " +:+ p +:+ "/" +:+ s)).
Proof.
  unfold FileManager._get_visibility_from_path.
  pose proof (startswith_joined "public" p s eq_refl) as Hpub.
  pose proof (startswith_joined "private" p s eq_refl) as Hpriv.
  change ("public" +:+ "/") with "public/" in Hpub.
  change ("private" +:+ "/") with "private/" in Hpriv.
  rewrite Hpub, Hpriv. reflexivity.
Qed.

Lemma visibility_of_built_path_error (p s : string) :
  conventional_prefix p = false ->
  FileManager._get_visibility_from_path (p +:+ "/" +:+ s)
  = Raise (ValueError ("Invalid path format: " +:+ p +:+ "/" +:+ s)).
Proof.
  unfold conventional_prefix. intros Hc.
  rewrite visibility_of_built_path.
  destruct (String.eqb p "public"), (String.eqb p "private"),
    (startswith "public/" p), (startswith "private/" p);
    simpl in *; congruence.
Qed.

Lemma visibility_of_built_path_ok (p s : string) :
  conventional_prefix p = true ->
  exists v, FileManager._get_visibility_from_path (p +:+ "/" +:+ s) = Ok v.
Proof.
  unfold conventional_prefix. intros Hc.
  rewrite visibility_of_built_path.
  destruct (String.eqb p "public"), (String.eqb p "private"),
    (startswith "public/" p), (startswith "private/" p);
    simpl in *; eauto; congruence.
Qed.

Lemma startswith_app (p s : string) : startswith p (p +:+ s) = true.
Proof.
  induction p as [|a p IH]; [reflexivity|].
  rewrite append_cons, startswith_cons, Ascii.eqb_refl. exact IH.
Qed.

Lemma append_assoc (a b c : string) : (a +:+ b) +:+ c = a +:+ (b +:+ c).
Proof.
  induction a as [|x a IH]; [reflexivity|].
  rewrite !append_cons, IH. reflexivity.
Qed.

(** ** The reference adapter *)

Lemma _to_dto_path (model : PhysicalFileModel) (file : PhysicalFile) :
  SQLAlchemyAdapter._to_dto model = Ok file ->
  pf_id file = m_id model /\ pf_path file = m_path model
  /\ pf_hot_until file = m_hot_until model
  /\ StorageTier_value (pf_storage_tier file) = m_storage_tier model.
Proof.
  unfold SQLAlchemyAdapter._to_dto, StorageTier_of_value.
  destruct (String.eqb (m_storage_tier model) "HOT") eqn:Eh.
  - apply String.eqb_eq in Eh. intros [= <-]. simpl. auto.
  - destruct (String.eqb (m_storage_tier model) "COLD") eqn:Ec; [|discriminate].
    apply String.eqb_eq in Ec. intros [= <-]. simpl. auto.
Qed.

Lemma create_path (now : Z) (tier : StorageTier) (filename path : string)
    (hot_until : option Z) (session session' : Session) (file : PhysicalFile) :
  SQLAlchemyAdapter.create now tier filename path hot_until session
  = (Ok file, session') ->
  pf_path file = path.
Proof.
  unfold SQLAlchemyAdapter.create.
  destruct (SQLAlchemyAdapter.path_taken path None session); [discriminate|].
  intros [= Hd _]. apply _to_dto_path in Hd as (_ & Hp & _). exact Hp.
Qed.

Section UploadedRecord.
Context {DB : Type} `{StorageAdapter DB}.

(** The record [upload] returns is the one [create] returned for the
    built path. *)
Lemma upload_create_result (config : S3StrataConfig) (self : FileManager)
    (data : bytes) (options : UploadOptions) (w w' : World DB)
    (file : PhysicalFile) :
  FileManager.init config = Ok self ->
  FileManager.upload self data options w = (Ok file, w') ->
  exists filename path_suffix hot_until db',
    adapter_create (w_now w) (upload_tier self options) filename
      (py_format
         (prefix_of
            (ObjectStore._get_config (fm_objectstore self) (upload_tier self options))
            (upload_visibility self options))
       +:+ "/" +:+ path_suffix)
      hot_until (w_db w)
    = (Ok file, db').
Proof.
  intros Hi. unfold FileManager.upload.
  fold (upload_tier self options) (upload_visibility self options).
  unfold ObjectStore.upload, bind, ret, lift, call, put_object, request,
    datetime_now, uuid4.
  destruct (truthy (up_filename options)), (truthy (up_path_suffix options));
    simpl; rewrite (init_build_path _ _ _ _ _ Hi);
    destruct (upload_tier self options), (up_hot_duration options) as [d|]; simpl;
    destruct (w_faults w (length (w_trace w))) as [e|]; simpl; try discriminate;
    match goal with
    | |- context [adapter_create ?a ?b ?c ?d ?e ?f] =>
      destruct (adapter_create a b c d e f) as [x d'] eqn:Hc
    end; destruct x; simpl; intros [= <- <-]; eauto.
Qed.

End UploadedRecord.

(** C3, as the code has it: the path of a record created by [upload]
    begins with the resolved prefix and a slash.  [get_url] and
    [set_visibility] raise the invalid-path error on that record when the
    prefix, as formatted into the path, is neither "public" nor "private"
    and does not begin with "public/" or "private/"; for every other
    prefix [get_url] returns a URL. *)
Theorem upload_then_get_url_by_prefix (config : S3StrataConfig)
    (self : FileManager) (data : bytes) (options : UploadOptions)
    (w w' : World Session) (file : PhysicalFile) :
  FileManager.init config = Ok self ->
  FileManager.upload self data options w = (Ok file, w') ->
  let prefix :=
    py_format
      (prefix_of
         (ObjectStore._get_config (fm_objectstore self) (upload_tier self options))
         (upload_visibility self options)) in
  let invalid := ValueError ("Invalid path format: " +:+ pf_path file) in
  startswith (prefix +:+ "/") (pf_path file) = true
  /\ (conventional_prefix prefix = false ->
      forall (w1 : World Session) (o : GetUrlOptions) (so : SetVisibilityOptions),
        FileManager.get_url self file o w1 = (Raise invalid, w1)
        /\ FileManager.set_visibility self file so w1 = (Raise invalid, w1))
  /\ (conventional_prefix prefix = true ->
      forall (w1 : World Session) (o : GetUrlOptions),
        exists url, FileManager.get_url self file o w1 = (Ok url, w1)).
Proof.
  intros Hi Hu prefix invalid.
  destruct (upload_create_result _ _ _ _ _ _ _ Hi Hu)
    as (filename & suffix & hot_until & db' & Hc).
  apply create_path in Hc. fold prefix in Hc.
  subst invalid. rewrite Hc.
  split; [rewrite <- append_assoc; apply startswith_app|]. split.
  - intros Hconv w1 o so.
    unfold FileManager.get_url, FileManager.set_visibility.
    rewrite _normalize_tier_total, Hc,
      (visibility_of_built_path_error prefix suffix Hconv).
    split; reflexivity.
  - intros Hconv w1 o.
    destruct (visibility_of_built_path_ok prefix suffix Hconv) as [v Hv].
    unfold FileManager.get_url.
    rewrite _normalize_tier_total, Hc, Hv.
    destruct v; eexists; reflexivity.
Qed.

(** ** Runs on concrete configurations *)

Lemma separate_manager_init (public_prefix private_prefix : string) :
  FileManager.init (separate_config public_prefix private_prefix)
  = Ok (separate_manager public_prefix private_prefix).
Proof. reflexivity. Qed.

(** C3, counterexample: the prefixes "public/assets" and "private/assets"
    are not the literals, and the record [upload] creates under them is
    served by [get_url] and moved by [set_visibility] without the
    invalid-path error. *)
Lemma custom_prefix_round_trip_succeeds :
  FileManager.init (separate_config "public/assets" "private/assets")
  = Ok assets_manager
  /\ get_path_prefix (fm_config assets_manager) HOT PUBLIC = Ok (Some "public/assets")
  /\ get_path_prefix (fm_config assets_manager) HOT PRIVATE = Ok (Some "private/assets")
  /\ fst (FileManager.upload assets_manager [] report_upload fresh_world)
     = Ok (report_file "public/assets/report.pdf")
  /\ fst (FileManager.get_url assets_manager (report_file "public/assets/report.pdf")
            {| expires_in := None |}
            (snd (FileManager.upload assets_manager [] report_upload fresh_world)))
     = Ok "https://s3.example.com/hot-bucket/public/assets/report.pdf"
  /\ fst (FileManager.set_visibility assets_manager
            (report_file "public/assets/report.pdf")
            {| sv_visibility := PRIVATE; sv_move_file := true |}
            (snd (FileManager.upload assets_manager [] report_upload fresh_world)))
     = Ok (report_file "private/assets/report.pdf").
Proof. repeat split; vm_compute; reflexivity. Qed.

Lemma upload_then_get_url_by_prefix_witness :
  FileManager.init (separate_config "media" "vault") = Ok media_manager
  /\ fst (FileManager.upload media_manager [] report_upload fresh_world)
     = Ok (report_file "media/report.pdf")
  /\ fst (FileManager.get_url media_manager (report_file "media/report.pdf")
            {| expires_in := None |} fresh_world)
     = Raise (ValueError "Invalid path format: media/report.pdf").
Proof.
  split; [reflexivity|]. split; [reflexivity|].
  assert (Hu : FileManager.upload media_manager [] report_upload fresh_world
               = (Ok (report_file "media/report.pdf"),
                  snd (FileManager.upload media_manager [] report_upload fresh_world)))
    by reflexivity.
  destruct (upload_then_get_url_by_prefix _ _ _ _ _ _ _
              (separate_manager_init "media" "vault") Hu) as (_ & Hraise & _).
  destruct (Hraise eq_refl fresh_world {| expires_in := None |}
              {| sv_visibility := PRIVATE; sv_move_file := true |}) as [Hg _].
  exact (f_equal fst Hg).
Defined.

Lemma set_visibility_same_is_noop_witness :
  FileManager._get_visibility_from_path (pf_path (report_file "public/report.pdf"))
  = Ok PUBLIC
  /\ FileManager.set_visibility literal_manager (report_file "public/report.pdf")
       {| sv_visibility := PUBLIC; sv_move_file := true |} fresh_world
     = (Ok (report_file "public/report.pdf"), fresh_world).
Proof.
  split; [reflexivity|].
  apply set_visibility_same_is_noop. reflexivity.
Defined.

Lemma upload_object_before_record_witness :
  FileManager.init (separate_config "public" "private") = Ok literal_manager
  /\ w_trace (snd (FileManager.upload literal_manager [] report_upload fresh_world))
     = [S3 (PutObject (hot_client (fm_objectstore literal_manager)) "hot-bucket"
              "public/report.pdf" []);
        Adapter (Create HOT "report.pdf" "public/report.pdf" None)].
Proof.
  split; [reflexivity|].
  destruct (upload_object_before_record _ literal_manager [] report_upload
              fresh_world (separate_manager_init "public" "private"))
    as (filename & path_suffix & Hf & Hs & Hrun).
  rewrite (Hf eq_refl), (Hs eq_refl) in Hrun.
  destruct Hrun as (Ht & _). exact Ht.
Defined.

Lemma list_orphan_objects_is_difference_witness :
  FileManager.init (separate_config "public" "private") = Ok literal_manager
  /\ fst (ObjectStore.list_objects (fm_objectstore literal_manager) HOT None abc_world)
     = Ok [listed "public/a"; listed "public/b"; listed "public/c"]
  /\ fst (adapter_find_all (w_db abc_world)) = Ok [hot_file 1 "public/b" None]
  /\ fst (FileManager.list_orphan_objects literal_manager None abc_world)
     = Ok [as_orphan HOT "hot-bucket" (listed "public/a");
           as_orphan HOT "hot-bucket" (listed "public/c")].
Proof.
  split; [reflexivity|]. split; [reflexivity|]. split; [reflexivity|].
  set (os := fm_objectstore literal_manager).
  set (w1 := snd (ObjectStore.list_objects os HOT None abc_world)).
  set (w2 := snd (ObjectStore.list_objects os COLD None w1)).
  assert (Hh : ObjectStore.list_objects os HOT None abc_world
               = (Ok [listed "public/a"; listed "public/b"; listed "public/c"], w1))
    by reflexivity.
  assert (Hc : ObjectStore.list_objects os COLD None w1 = (Ok [], w2))
    by reflexivity.
  assert (Hd : adapter_find_all (w_db w2)
               = (Ok [hot_file 1 "public/b" None], w_db w2))
    by reflexivity.
  destruct (list_orphan_objects_is_difference _ literal_manager None abc_world
              w1 w2 _ _ _ _ (separate_manager_init "public" "private") Hh Hc Hd)
    as (orphans & Heq & Hlist & _).
  rewrite Heq, Hlist. reflexivity.
Defined.

(** ** Clearing [hot_until] *)

(** [update] of the reference adapter writes a column only when the
    argument is not [None]: called with [hot_until=None] it returns the
    record with the [hot_until] the row had. *)
Lemma update_None_keeps_hot_until (now id : Z) (tier : option StorageTier)
    (path : option string) (session session' : Session) (file : PhysicalFile) :
  SQLAlchemyAdapter.update now id tier path None session = (Ok file, session') ->
  exists model,
    head (SQLAlchemyAdapter.select_by_id id session) = Some model
    /\ pf_hot_until file = m_hot_until model.
Proof.
  unfold SQLAlchemyAdapter.update.
  destruct (SQLAlchemyAdapter.select_by_id id session) as [|model rest];
    [discriminate|].
  destruct (match path with
            | Some p => SQLAlchemyAdapter.path_taken p (Some id) session
            | None => false
            end); [discriminate|].
  intros [= Hd _]. apply _to_dto_path in Hd as (_ & _ & Hh & _).
  exists model. split; [reflexivity|exact Hh].
Qed.

Lemma update_Some_sets_hot_until (now id h : Z) (tier : option StorageTier)
    (path : option string) (session session' : Session) (file : PhysicalFile) :
  SQLAlchemyAdapter.update now id tier path (Some h) session = (Ok file, session') ->
  pf_hot_until file = Some h.
Proof.
  unfold SQLAlchemyAdapter.update.
  destruct (SQLAlchemyAdapter.select_by_id id session) as [|model rest];
    [discriminate|].
  destruct (match path with
            | Some p => SQLAlchemyAdapter.path_taken p (Some id) session
            | None => false
            end); [discriminate|].
  intros [= Hd _]. apply _to_dto_path in Hd as (_ & _ & Hh & _). exact Hh.
Qed.

Section HotDuration.
Context {DB : Type} `{StorageAdapter DB}.

(** On a record that is not HOT, [set_hot_duration] raises and changes
    nothing. *)
Lemma set_hot_duration_not_hot (file : PhysicalFile)
    (options : SetHotDurationOptions) (w : World DB) :
  pf_storage_tier file <> HOT ->
  FileManager.set_hot_duration file options w
  = (Raise (ValueError "set_hot_duration only applies to HOT tier files"), w).
Proof.
  intros Ht. unfold FileManager.set_hot_duration.
  rewrite _normalize_tier_total. unfold bind, lift.
  rewrite bool_decide_eq_false_2 by exact Ht. reflexivity.
Qed.

(** On a HOT record, [set_hot_duration] is a single [update] of the
    adapter: no request goes to the object store. *)
Lemma set_hot_duration_hot (file : PhysicalFile)
    (options : SetHotDurationOptions) (w : World DB) :
  pf_storage_tier file = HOT ->
  let hot_until := requested_hot_until (w_now w) options in
  let r := FileManager.set_hot_duration file options w in
  (fst r, w_db (snd r))
  = adapter_update (w_now w) (pf_id file) None None hot_until (w_db w)
  /\ w_trace (snd r)
     = w_trace w ++ [Adapter (Update (pf_id file) None None hot_until)]
  /\ w_store (snd r) = w_store w.
Proof.
  intros Ht hot_until r. subst r hot_until.
  unfold FileManager.set_hot_duration, requested_hot_until.
  rewrite _normalize_tier_total. unfold bind, lift, ret, call, datetime_now.
  rewrite bool_decide_eq_true_2 by exact Ht. simpl.
  destruct (duration options) as [d|]; [destruct (d =? 0)|]; simpl;
    match goal with
    | |- context [adapter_update ?a ?b ?c ?d ?e ?f] =>
      destruct (adapter_update a b c d e f) as [x d'] eqn:Hu
    end; destruct x; simpl; auto.
Qed.

End HotDuration.

(** C2: [set_tier] to COLD on a HOT record whose [hot_until] is set calls
    [update(id, storage_tier=COLD, hot_until=None)]; the reference adapter
    reads [None] as "leave the column", so the returned record and the
    row in the database are COLD and still carry the old [hot_until]. *)
Theorem set_tier_cold_keeps_hot_until :
  let r :=
    FileManager.set_tier literal_manager expiring_file
      {| st_tier := COLD; st_move_file := true; st_hot_duration := None |}
      expiring_world in
  fst r
  = Ok {| pf_id := 1; pf_storage_tier := COLD; pf_filename := "file";
          pf_path := "private/report.pdf"; pf_hot_until := Some 5000;
          pf_created_at := Some 0; pf_updated_at := Some 1000 |}
  /\ rows (w_db (snd r))
     = [{| m_id := 1; m_storage_tier := "COLD"; m_filename := "file";
           m_path := "private/report.pdf"; m_hot_until := Some 5000;
           m_created_at := 0; m_updated_at := 1000 |}]
  /\ last (w_trace (snd r)) = Some (Adapter (Update 1 (Some COLD) None None)).
Proof. repeat split; vm_compute; reflexivity. Qed.

(** C8: [set_hot_duration] with [duration=None] on a HOT record whose
    [hot_until] is set calls [update(id, hot_until=None)]; the reference
    adapter leaves the column, so the returned record and the row still
    carry the old [hot_until].  With a duration of 0 the same record gets
    [hot_until = now]. *)
Theorem set_hot_duration_none_keeps_hot_until :
  let r :=
    FileManager.set_hot_duration expiring_file
      {| duration := None |} expiring_world in
  let r0 :=
    FileManager.set_hot_duration expiring_file
      {| duration := Some 0 |} expiring_world in
  fst r
  = Ok {| pf_id := 1; pf_storage_tier := HOT; pf_filename := "file";
          pf_path := "private/report.pdf"; pf_hot_until := Some 5000;
          pf_created_at := Some 0; pf_updated_at := Some 1000 |}
  /\ List.map m_hot_until (rows (w_db (snd r))) = [Some 5000]
  /\ w_trace (snd r) = [Adapter (Update 1 None None None)]
  /\ List.map m_hot_until (rows (w_db (snd r0))) = [Some 1000].
Proof. repeat split; vm_compute; reflexivity. Qed.

(** ** The archival sweep *)

Lemma successes_failures {X} (outcomes : list (Result X)) :
  successes outcomes + failures outcomes = Z.of_nat (length outcomes).
Proof.
  unfold successes, failures.
  induction outcomes as [|r rest IH]; simpl; [reflexivity|].
  destruct r; simpl; lia.
Qed.

Section Sweep.
Context {DB : Type} `{StorageAdapter DB}.
Variable self : FileManager.

Lemma archive_loop_cons (file : PhysicalFile) (rest : list PhysicalFile)
    (count : Z) (w : World DB) :
  FileManager.archive_loop self (file :: rest) count w
  = match FileManager.set_tier self file cold_options w with
    | (Ok _, w1) => FileManager.archive_loop self rest (count + 1) w1
    | (Raise e, w1) =>
      FileManager.archive_loop self rest count (log (Print (failure_line file e)) w1)
    end.
Proof.
  cbn [FileManager.archive_loop].
  unfold bind, try_except, ret, print, failure_line, cold_options.
  destruct (FileManager.set_tier self file _ w) as [[file'|e] w1]; reflexivity.
Qed.

(** The loop never raises: it returns the count it was given plus the
    number of transitions that succeeded. *)
Lemma archive_loop_steps (files : list PhysicalFile) (count : Z) (w : World DB) :
  exists outcomes w',
    archive_steps self files w outcomes w'
    /\ length outcomes = length files
    /\ FileManager.archive_loop self files count w
       = (Ok (count + successes outcomes), w').
Proof.
  revert count w. induction files as [|file rest IH]; intros count w.
  - exists [], w. split; [constructor|]. split; [reflexivity|].
    simpl. unfold ret, successes. simpl. rewrite Z.add_0_r. reflexivity.
  - rewrite archive_loop_cons.
    destruct (FileManager.set_tier self file cold_options w) as [[file'|e] w1] eqn:Hs.
    + destruct (IH (count + 1) w1) as (outcomes & w' & Hsteps & Hlen & Hrun).
      exists (Ok file' :: outcomes), w'.
      split; [eapply archive_moved; eassumption|].
      split; [simpl; congruence|].
      rewrite Hrun. unfold successes. simpl.
      f_equal. f_equal. lia.
    + destruct (IH count (log (Print (failure_line file e)) w1))
        as (outcomes & w' & Hsteps & Hlen & Hrun).
      exists (Raise e :: outcomes), w'.
      split; [eapply archive_failed; eassumption|].
      split; [simpl; congruence|].
      rewrite Hrun. reflexivity.
Qed.

End Sweep.

Lemma keeps_db_ret {DB X : Type} (x : X) : keeps_db (@ret DB X x).
Proof. intros w. reflexivity. Qed.

Lemma keeps_db_raise {DB X : Type} (e : Exn) : keeps_db (@raise DB X e).
Proof. intros w. reflexivity. Qed.

Lemma keeps_db_bind {DB X Y : Type} (m : M DB X) (k : X -> M DB Y) :
  keeps_db m -> (forall x, keeps_db (k x)) -> keeps_db (bind m k).
Proof.
  intros Hm Hk w. unfold bind. specialize (Hm w).
  destruct (m w) as [[x|e] w1]; simpl in *; [rewrite Hk|]; exact Hm.
Qed.

Lemma keeps_db_try_except {DB X : Type} (m : M DB X) (handler : Exn -> M DB X) :
  keeps_db m -> (forall e, keeps_db (handler e)) -> keeps_db (try_except m handler).
Proof.
  intros Hm Hh w. unfold try_except. specialize (Hm w).
  destruct (m w) as [[x|e] w1]; simpl in *; [|rewrite Hh]; exact Hm.
Qed.

Lemma keeps_db_request {DB X : Type} (r : S3Request) (perform : M DB X) :
  keeps_db perform -> keeps_db (request r perform).
Proof.
  intros Hp w. unfold request.
  destruct (w_faults w (length (w_trace w))); [reflexivity|].
  rewrite Hp. reflexivity.
Qed.

(** A move, whatever its outcome, leaves the database of the adapter. *)
Lemma move_db {DB : Type} (os : ObjectStoreService) (source_tier : StorageTier)
    (source_path : string) (dest_tier : StorageTier) (dest_path : string) :
  keeps_db (@ObjectStore.move DB os source_tier source_path dest_tier dest_path).
Proof.
  unfold ObjectStore.move, ObjectStore.copy, ObjectStore.download,
    ObjectStore.upload, ObjectStore.delete, get_object, put_object, delete_object.
  repeat first
    [ apply keeps_db_bind | apply keeps_db_try_except | apply keeps_db_request
    | apply keeps_db_ret | apply keeps_db_raise | intros ? ].
  - destruct (store_get _ _); reflexivity.
  - destruct e; try apply keeps_db_raise.
    destruct (String.eqb code "NoSuchKey"); apply keeps_db_raise.
  - reflexivity.
  - reflexivity.
Qed.

Lemma select_replace_row_same (model : PhysicalFileModel) (session : Session) :
  SQLAlchemyAdapter.select_by_id (m_id model)
    (SQLAlchemyAdapter.replace_row model session)
  = List.map (fun _ => model)
      (SQLAlchemyAdapter.select_by_id (m_id model) session).
Proof.
  unfold SQLAlchemyAdapter.select_by_id, SQLAlchemyAdapter.replace_row. simpl.
  induction (rows session) as [|r rest IH]; simpl; [reflexivity|].
  destruct (m_id r =? m_id model) eqn:E; simpl.
  - rewrite Z.eqb_refl. simpl. rewrite IH. reflexivity.
  - rewrite E. exact IH.
Qed.

Lemma select_replace_row_other (id : Z) (model : PhysicalFileModel)
    (session : Session) :
  id <> m_id model ->
  SQLAlchemyAdapter.select_by_id id (SQLAlchemyAdapter.replace_row model session)
  = SQLAlchemyAdapter.select_by_id id session.
Proof.
  intros Hne.
  unfold SQLAlchemyAdapter.select_by_id, SQLAlchemyAdapter.replace_row. simpl.
  induction (rows session) as [|r rest IH]; simpl; [reflexivity|].
  destruct (m_id r =? m_id model) eqn:E; simpl.
  - apply Z.eqb_eq in E.
    assert (Hm : (m_id model =? id) = false) by (apply Z.eqb_neq; congruence).
    assert (Hr : (m_id r =? id) = false) by (apply Z.eqb_neq; congruence).
    rewrite Hm, Hr. exact IH.
  - destruct (m_id r =? id); [rewrite IH|]; auto.
Qed.

Lemma select_by_id_id (id : Z) (session : Session) (model : PhysicalFileModel)
    (rest : list PhysicalFileModel) :
  SQLAlchemyAdapter.select_by_id id session = model :: rest -> m_id model = id.
Proof.
  unfold SQLAlchemyAdapter.select_by_id. intros Hs.
  assert (Hin : In model (List.filter (fun m => m_id m =? id) (rows session)))
    by (rewrite Hs; left; reflexivity).
  apply filter_In in Hin as [_ Hid]. apply Z.eqb_eq, Hid.
Qed.

(** What an [update] to COLD without other arguments does to the table. *)
Lemma update_cold_rows (now id : Z) (session session' : Session)
    (r : Result PhysicalFile) :
  SQLAlchemyAdapter.update now id (Some COLD) None None session = (r, session') ->
  (forall id', id' <> id -> row_of id' session' = row_of id' session)
  /\ match r with
     | Ok _ => tier_of_row id session' = Some "COLD"
     | Raise _ => session' = session
     end.
Proof.
  unfold SQLAlchemyAdapter.update.
  destruct (SQLAlchemyAdapter.select_by_id id session) as [|model rest] eqn:Hsel.
  - intros [= <- <-]. auto.
  - pose proof (select_by_id_id _ _ _ _ Hsel) as Hid.
    unfold SQLAlchemyAdapter._to_dto. simpl.
    intros [= <- <-]. split.
    + intros id' Hne. unfold row_of.
      rewrite select_replace_row_other; [reflexivity|]. simpl. congruence.
    + unfold tier_of_row, row_of.
      match goal with
      | |- context [SQLAlchemyAdapter.replace_row ?m _] => set (model' := m)
      end.
      assert (Hid' : id = m_id model') by (simpl; congruence).
      rewrite Hid' at 1. rewrite select_replace_row_same.
      simpl. rewrite Hid, Hsel. reflexivity.
Qed.

(** What a transition to COLD does to the table of the reference
    adapter: failed, it leaves the table; done, the row is COLD; either
    way the other rows are as before. *)
Lemma set_tier_cold_rows (self : FileManager) (file : PhysicalFile)
    (w w1 : World Session) (r : Result PhysicalFile) :
  pf_storage_tier file = HOT ->
  FileManager.set_tier self file cold_options w = (r, w1) ->
  (forall id', id' <> pf_id file -> row_of id' (w_db w1) = row_of id' (w_db w))
  /\ match r with
     | Ok _ => tier_of_row (pf_id file) (w_db w1) = Some "COLD"
     | Raise _ => w_db w1 = w_db w
     end.
Proof.
  intros Ht. unfold FileManager.set_tier.
  rewrite _normalize_tier_total, Ht.
  unfold cold_options, lift. cbn [st_tier st_move_file st_hot_duration].
  unfold bind at 1. destruct (decide (HOT = COLD)) as [Hd|_]; [discriminate|].
  unfold bind at 1. unfold ret at 1. cbn [fst snd].
  unfold bind at 1.
  pose proof (move_db (DB := Session) (fm_objectstore self) HOT (pf_path file)
                COLD (pf_path file) w) as Hmove.
  destruct (ObjectStore.move (fm_objectstore self) HOT (pf_path file) COLD
              (pf_path file) w) as [[u|e] w0]; simpl in Hmove.
  - unfold bind, call, ret. cbn [adapter_update SQLAlchemy_StorageAdapter].
    destruct (SQLAlchemyAdapter.update (w_now w0) (pf_id file) (Some COLD) None None
                (w_db w0)) as [x d] eqn:Hu.
    apply update_cold_rows in Hu. rewrite Hmove in Hu.
    destruct x; intros [= <- <-]; simpl; exact Hu.
  - intros [= <- <-]. rewrite Hmove. auto.
Qed.

(** Over records that are HOT and have distinct ids, the sweep leaves the
    rows of the other ids, turns the row of every moved record COLD and
    leaves the row of every failed one. *)
Lemma archive_steps_rows (self : FileManager) (files : list PhysicalFile)
    (w w2 : World Session) (outcomes : list (Result PhysicalFile)) :
  archive_steps self files w outcomes w2 ->
  Forall (fun f => pf_storage_tier f = HOT) files ->
  NoDup (List.map pf_id files) ->
  (forall id, ~ In id (List.map pf_id files) ->
              row_of id (w_db w2) = row_of id (w_db w))
  /\ (forall (i : nat) file outcome,
        files !! i = Some file -> outcomes !! i = Some outcome ->
        match outcome with
        | Ok _ => tier_of_row (pf_id file) (w_db w2) = Some "COLD"
        | Raise _ => row_of (pf_id file) (w_db w2) = row_of (pf_id file) (w_db w)
        end).
Proof.
  induction 1 as [w|file rest w w1 w2 file' outcomes Hstep Hsteps IH
                  |file rest w w1 w2 e outcomes Hstep Hsteps IH];
    intros Hhot Hnd.
  - split; [reflexivity|]. intros i file outcome Hf. discriminate.
  - apply Forall_cons in Hhot as [Hfile Hrest].
    apply NoDup_cons in Hnd as [Hnin Hnd]. rewrite list_elem_of_In in Hnin.
    destruct (set_tier_cold_rows _ _ _ _ _ Hfile Hstep) as [Hother Hcold].
    destruct (IH Hrest Hnd) as [IHother IHall]. split.
    + intros id Hid. simpl in Hid.
      rewrite IHother by tauto. apply Hother. intros ->. tauto.
    + intros [|i] f outcome Hf Ho; simpl in Hf, Ho.
      * injection Hf as <-. injection Ho as <-.
        unfold tier_of_row in *. rewrite IHother by exact Hnin. exact Hcold.
      * specialize (IHall i f outcome Hf Ho).
        destruct outcome; [exact IHall|]. rewrite IHall. apply Hother.
        intros Heq. apply Hnin. rewrite <- Heq.
        apply in_map, list_elem_of_In. eapply list_elem_of_lookup_2, Hf.
  - apply Forall_cons in Hhot as [Hfile Hrest].
    apply NoDup_cons in Hnd as [Hnin Hnd]. rewrite list_elem_of_In in Hnin.
    destruct (set_tier_cold_rows _ _ _ _ _ Hfile Hstep) as [Hother Hsame].
    destruct (IH Hrest Hnd) as [IHother IHall].
    change (w_db (log (Print (failure_line file e)) w1)) with (w_db w1)
      in IHother, IHall.
    rewrite Hsame in IHother, IHall. split.
    + intros id Hid. simpl in Hid. apply IHother. tauto.
    + intros [|i] f outcome Hf Ho; simpl in Hf, Ho.
      * injection Hf as <-. injection Ho as <-. apply IHother, Hnin.
      * exact (IHall i f outcome Hf Ho).
Qed.

Lemma _to_dtos_hot (models : list PhysicalFileModel) :
  Forall (fun m => m_storage_tier m = "HOT") models ->
  exists files,
    SQLAlchemyAdapter._to_dtos models = Ok files
    /\ List.map pf_id files = List.map m_id models
    /\ Forall (fun f => pf_storage_tier f = HOT) files.
Proof.
  induction 1 as [|m rest Hm Hrest IH]; simpl.
  - exists []. auto.
  - destruct IH as (files & -> & Hids & Hhot).
    unfold SQLAlchemyAdapter._to_dto. rewrite Hm. simpl.
    eexists. split; [reflexivity|]. simpl. rewrite Hids.
    split; [reflexivity|]. constructor; [reflexivity|exact Hhot].
Qed.

Lemma expired_rows_hot (now : Z) (session : Session) :
  Forall (fun m => m_storage_tier m = "HOT")
    (List.filter (SQLAlchemyAdapter.is_expired_hot now) (rows session)).
Proof.
  apply List.Forall_forall. intros m Hin.
  apply filter_In in Hin as [_ He].
  unfold SQLAlchemyAdapter.is_expired_hot in He.
  apply andb_true_iff in He as [He _]. apply String.eqb_eq in He. exact He.
Qed.

Lemma NoDup_map_filter {A B : Type} (f : A -> B) (p : A -> bool) (l : list A) :
  NoDup (List.map f l) -> NoDup (List.map f (List.filter p l)).
Proof.
  induction l as [|a l IH]; simpl; [auto|].
  intros Hnd. apply NoDup_cons in Hnd as [Hnin Hnd].
  destruct (p a); simpl; [|auto].
  apply NoDup_cons. split; [|auto].
  intros Hin. apply Hnin.
  apply list_elem_of_In, in_map_iff in Hin as (x & <- & Hx).
  apply filter_In in Hx as [Hx _].
  apply list_elem_of_In, in_map, Hx.
Qed.

(** With a primary key, the row of an id is the row that carries it. *)
Lemma row_of_In (session : Session) (m : PhysicalFileModel) :
  NoDup (List.map m_id (rows session)) ->
  In m (rows session) ->
  row_of (m_id m) session = Some m.
Proof.
  unfold row_of, SQLAlchemyAdapter.select_by_id.
  induction (rows session) as [|r rest IH]; simpl; [tauto|].
  intros Hnd Hin. apply NoDup_cons in Hnd as [Hnin Hnd].
  rewrite list_elem_of_In in Hnin.
  destruct Hin as [->|Hin].
  - rewrite Z.eqb_refl. reflexivity.
  - destruct (m_id r =? m_id m) eqn:E.
    + apply Z.eqb_eq in E. exfalso. apply Hnin. rewrite E. apply in_map, Hin.
    + apply IH; assumption.
Qed.

(** C7: over the expired HOT records the reference adapter returns,
    [archive_expired_hot_files] gives each record one transition to COLD
    with a move, in order; it never raises; it returns the number of
    transitions that succeeded; the row of a record whose transition
    failed is still HOT and the row of a moved record is COLD.  With
    three expired records and one failure the result is 2. *)
Theorem archive_expired_hot_files_best_effort (self : FileManager)
    (w : World Session) :
  NoDup (List.map m_id (rows (w_db w))) ->
  exists expired outcomes w',
    adapter_find_expired_hot_files (w_now w) (w_db w) = (Ok expired, w_db w)
    /\ archive_steps self expired
         (set_db (w_db w) (log (Adapter FindExpiredHotFiles) w)) outcomes w'
    /\ length outcomes = length expired
    /\ FileManager.archive_expired_hot_files self w = (Ok (successes outcomes), w')
    /\ successes outcomes = Z.of_nat (length expired) - failures outcomes
    /\ (forall (i : nat) file outcome,
          expired !! i = Some file -> outcomes !! i = Some outcome ->
          tier_of_row (pf_id file) (w_db w')
          = Some (if is_ok outcome then "COLD" else "HOT"))
    /\ (length expired = 3%nat -> failures outcomes = 1 -> successes outcomes = 2).
Proof.
  intros Hkey.
  set (models := List.filter (SQLAlchemyAdapter.is_expired_hot (w_now w))
                   (rows (w_db w))).
  destruct (_to_dtos_hot models (expired_rows_hot _ _))
    as (expired & Hdto & Hids & Hhot).
  set (w0 := set_db (w_db w) (log (Adapter FindExpiredHotFiles) w)).
  destruct (archive_loop_steps self expired 0 w0)
    as (outcomes & w' & Hsteps & Hlen & Hrun).
  assert (Hnd : NoDup (List.map pf_id expired)).
  { rewrite Hids. apply NoDup_map_filter, Hkey. }
  destruct (archive_steps_rows _ _ _ _ _ Hsteps Hhot Hnd) as [_ Hrows].
  pose proof (successes_failures outcomes) as Hsum.
  exists expired, outcomes, w'.
  split.
  { cbn [adapter_find_expired_hot_files SQLAlchemy_StorageAdapter].
    unfold SQLAlchemyAdapter.find_expired_hot_files. fold models.
    rewrite Hdto. reflexivity. }
  split; [exact Hsteps|]. split; [exact Hlen|]. split.
  { unfold FileManager.archive_expired_hot_files, bind, call.
    cbn [adapter_find_expired_hot_files SQLAlchemy_StorageAdapter].
    unfold SQLAlchemyAdapter.find_expired_hot_files. fold models.
    rewrite Hdto. fold w0. rewrite Hrun. reflexivity. }
  split; [lia|]. split; [|lia].
  intros i file outcome Hf Ho.
  specialize (Hrows i file outcome Hf Ho).
  destruct outcome as [file'|e]; simpl; [exact Hrows|].
  unfold tier_of_row. rewrite Hrows.
  change (w_db w0) with (w_db w).
  assert (Hin : In (pf_id file) (List.map m_id models)).
  { rewrite <- Hids. apply in_map, list_elem_of_In.
    eapply list_elem_of_lookup_2, Hf. }
  apply in_map_iff in Hin as (m & Hid & Hm).
  pose proof Hm as Hm'. apply filter_In in Hm' as [Hrow _].
  rewrite <- Hid, (row_of_In _ _ Hkey Hrow). simpl.
  f_equal.
  pose proof (expired_rows_hot (w_now w) (w_db w)) as Hall.
  rewrite List.Forall_forall in Hall. exact (Hall m Hm).
Qed.

Lemma archive_expired_hot_files_best_effort_witness :
  NoDup (List.map m_id (rows (w_db sweep_world)))
  /\ fst (FileManager.archive_expired_hot_files literal_manager sweep_world) = Ok 2
  /\ List.map m_storage_tier
       (rows (w_db (snd (FileManager.archive_expired_hot_files literal_manager
                           sweep_world))))
     = ["COLD"; "HOT"; "COLD"]
  /\ exists (expired : list PhysicalFile) (outcomes : list (Result PhysicalFile)) w',
       FileManager.archive_expired_hot_files literal_manager sweep_world
       = (Ok (successes outcomes), w')
       /\ length outcomes = length expired.
Proof.
  assert (Hkey : NoDup (List.map m_id (rows (w_db sweep_world)))).
  { apply NoDup_ListNoDup. repeat constructor; simpl; intuition discriminate. }
  split; [exact Hkey|]. split; [reflexivity|]. split; [reflexivity|].
  destruct (archive_expired_hot_files_best_effort literal_manager sweep_world Hkey)
    as (expired & outcomes & w' & _ & _ & Hlen & Hrun & _).
  exists expired, outcomes, w'. split; [exact Hrun|exact Hlen].
Defined.

(** ** The listing loop *)

(** Past the number of objects still to come, the fuel of the loop makes
    no difference: every page but the last brings at least one object. *)
Lemma list_objects_loop_fuel {DB : Type} (fuel fuel' : nat) (client : Client)
    (bucket : string) (prefix : option string) (objects : list S3Object)
    (token : option nat) (w : World DB) :
  (remaining client bucket prefix token w < fuel)%nat ->
  (remaining client bucket prefix token w < fuel')%nat ->
  ObjectStore.list_objects_loop fuel client bucket prefix objects token w
  = ObjectStore.list_objects_loop fuel' client bucket prefix objects token w.
Proof.
  revert fuel' objects token w.
  induction fuel as [|fuel IH]; intros fuel' objects token w Hf Hf'; [lia|].
  destruct fuel' as [|fuel']; [lia|].
  cbn [ObjectStore.list_objects_loop].
  unfold bind, list_objects_v2, request.
  destruct (w_faults w (length (w_trace w))) as [e|]; [reflexivity|].
  cbn [IsTruncated Contents NextContinuationToken listing_page w_store log
       w_page_size].
  set (all := List.filter
                (in_listing (endpoint_url client) bucket
                   (if truthy prefix then prefix else None)) (w_store w)).
  set (offset := match token with Some n => n | None => O end).
  set (page := Pos.to_nat (w_page_size w)).
  destruct (Nat.ltb page (length (skipn offset all))) eqn:Hmore;
    cbn [negb]; [|reflexivity].
  apply Nat.ltb_lt in Hmore.
  assert (Hpage : (0 < page)%nat) by (subst page; lia).
  assert (Hrem : (remaining client bucket prefix (Some (offset + page)%nat)
                    (log (S3 (ListObjectsV2 client bucket
                                (if truthy prefix then prefix else None) token)) w)
                  < remaining client bucket prefix token w)%nat).
  { unfold remaining. cbn [w_store log]. fold all offset.
    rewrite (Nat.add_comm offset page), <- List.skipn_skipn.
    rewrite (List.length_skipn page). lia. }
  apply IH; lia.
Qed.

(** The fuel [list_objects] gives the loop is enough. *)
Lemma list_objects_enough_fuel {DB : Type} (self : ObjectStoreService)
    (tier : StorageTier) (prefix : option string) (fuel : nat) (w : World DB) :
  (length (w_store w) < fuel)%nat ->
  ObjectStore.list_objects_loop fuel (ObjectStore._get_client self tier)
    (tc_bucket (ObjectStore._get_config self tier)) prefix [] None w
  = ObjectStore.list_objects self tier prefix w.
Proof.
  intros Hfuel. unfold ObjectStore.list_objects.
  assert (Hrem : (remaining (ObjectStore._get_client self tier)
                    (tc_bucket (ObjectStore._get_config self tier)) prefix None w
                  <= length (w_store w))%nat).
  { unfold remaining. simpl. apply List.filter_length_le. }
  apply list_objects_loop_fuel; lia.
Qed.

(** * Further properties *)

(** ** config.py *)

(** A tier resolves exactly when it has an override object or the three
    shared fields and the bucket field of the tier are all given and not
    empty. *)
Theorem get_tier_config_resolves_iff (config : S3StrataConfig)
    (tier : StorageTier) :
  is_ok (get_tier_config config tier) = true
  <-> tier_override config tier <> None
      \/ forall f, truthy (shared_field config tier f) = true.
Proof.
  split.
  - intros Hok.
    destruct (tier_override config tier) as [c|] eqn:Hov; [left; discriminate|].
    right. intros f.
    destruct (truthy (shared_field config tier f)) eqn:Hf; [reflexivity|].
    exfalso.
    assert (Hraise : exists e, get_tier_config config tier = Raise e).
    { unfold get_tier_config, tier_override in *.
      destruct (negb (truthy (endpoint config)) || negb (truthy (access_key config))
                || negb (truthy (secret_key config))) eqn:Hs.
      - destruct tier; rewrite Hov; [|destruct (hot config)]; eauto.
      - apply orb_false_iff in Hs as [Hs Hsk]. apply orb_false_iff in Hs as [He Ha].
        apply negb_false_iff in He, Ha, Hsk.
        assert (Hb : truthy (shared_field config tier TierBucket) = false).
        { destruct f; simpl in Hf; try congruence. exact Hf. }
        destruct tier; rewrite Hov; simpl in Hb; [|destruct (hot config)];
          rewrite Hb; simpl; eauto. }
    destruct Hraise as [e He]. rewrite He in Hok. discriminate.
  - intros [Hov|Hall].
    + destruct (tier_override config tier) as [c|] eqn:Hc; [|congruence].
      rewrite (get_tier_config_override _ _ _ Hc). reflexivity.
    + destruct (tier_override config tier) as [c|] eqn:Hc.
      * rewrite (get_tier_config_override _ _ _ Hc). reflexivity.
      * rewrite (get_tier_config_shared _ _ Hc Hall). reflexivity.
Qed.

(** The override object of a tier is returned as it is, whatever the
    shared fields hold, and the bucket and the prefixes the helpers
    return are those of the override. *)
Theorem override_wins (config : S3StrataConfig) (tier : StorageTier)
    (c : S3TierConfig) (visibility : FileVisibility) :
  tier_override config tier = Some c ->
  get_tier_config config tier = Ok c
  /\ get_bucket_name config tier = Ok (tc_bucket c)
  /\ get_path_prefix config tier visibility = Ok (prefix_of c visibility).
Proof.
  intros Hov. unfold get_bucket_name, get_path_prefix.
  rewrite (get_tier_config_override _ _ _ Hov).
  destruct visibility; auto.
Qed.

Lemma override_wins_witness :
  tier_override hot_only_config HOT
  = Some (tier_config "hot-bucket" "public" "private")
  /\ get_bucket_name hot_only_config HOT = Ok "hot-bucket"
  /\ get_path_prefix hot_only_config HOT PRIVATE = Ok (Some "private").
Proof.
  split; [reflexivity|].
  destruct (override_wins hot_only_config HOT
              (tier_config "hot-bucket" "public" "private") PRIVATE eq_refl)
    as (_ & Hb & Hp).
  split; [exact Hb|exact Hp].
Defined.

(** In shared mode a prefix field that is set and not empty is the prefix
    of its tier and visibility, for both tiers; an unset or empty field of
    the COLD tier gives the literal "public" or "private". *)
Theorem get_path_prefix_shared (config : S3StrataConfig) (tier : StorageTier)
    (visibility : FileVisibility) :
  tier_override config tier = None ->
  (forall f, truthy (shared_field config tier f) = true) ->
  (truthy (prefix_field config tier visibility) = true ->
   get_path_prefix config tier visibility
   = Ok (prefix_field config tier visibility))
  /\ (tier = COLD -> truthy (prefix_field config tier visibility) = false ->
      get_path_prefix config tier visibility
      = Ok (Some (default_prefix visibility))).
Proof.
  intros Hov Hall. unfold get_path_prefix.
  rewrite (get_tier_config_shared _ _ Hov Hall).
  split.
  - intros Ht. destruct (truthy_Some _ Ht) as (s & Hs & Hne & _).
    destruct tier, visibility; simpl in *; rewrite Hs; try reflexivity;
      simpl; apply String.eqb_neq in Hne; rewrite Hne; reflexivity.
  - intros -> Hf.
    destruct visibility; simpl in *;
      [destruct (public_cold_prefix config) as [s|]
      |destruct (private_cold_prefix config) as [s|]]; simpl in *;
      try reflexivity; apply negb_false_iff in Hf; rewrite Hf; reflexivity.
Qed.

Lemma get_path_prefix_shared_witness :
  tier_override prefixed_config HOT = None
  /\ (forall f, truthy (shared_field prefixed_config HOT f) = true)
  /\ get_path_prefix prefixed_config HOT PUBLIC = Ok (Some "hot-public")
  /\ get_path_prefix shared_config COLD PRIVATE = Ok (Some "private").
Proof.
  assert (Hall : forall f, truthy (shared_field prefixed_config HOT f) = true)
    by (intros []; reflexivity).
  assert (Hcold : forall f, truthy (shared_field shared_config COLD f) = true)
    by (intros []; reflexivity).
  split; [reflexivity|]. split; [exact Hall|]. split.
  - exact (proj1 (get_path_prefix_shared prefixed_config HOT PUBLIC eq_refl Hall)
             eq_refl).
  - exact (proj2 (get_path_prefix_shared shared_config COLD PRIVATE eq_refl Hcold)
             eq_refl eq_refl).
Defined.


(** ** objectstore.py *)

Lemma append_empty_r (s : string) : s +:+ "" = s.
Proof.
  induction s as [|a s IH]; [reflexivity|].
  rewrite append_cons, IH. reflexivity.
Qed.

Lemma always_safe_ascii (n : N) : always_safe n = true -> (n < 128)%N.
Proof.
  unfold always_safe. rewrite !orb_true_iff, !andb_true_iff, !N.leb_le, !N.eqb_eq.
  lia.
Qed.

Lemma quote_byte_safe (a : ascii) :
  url_safe a = true -> quote_byte "/" (N_of_ascii a) = String a EmptyString.
Proof.
  unfold url_safe, quote_byte. intros Hs.
  rewrite ascii_N_embedding.
  apply orb_true_iff in Hs as [Hs|Hs].
  - rewrite Hs. reflexivity.
  - apply Ascii.eqb_eq in Hs. subst a. reflexivity.
Qed.

Lemma url_safe_ascii (a : ascii) : url_safe a = true -> (N_of_ascii a < 128)%N.
Proof.
  unfold url_safe. intros Hs. apply orb_true_iff in Hs as [Hs|Hs].
  - apply always_safe_ascii, Hs.
  - apply Ascii.eqb_eq in Hs. subst a. reflexivity.
Qed.

Lemma quote_safe (s : string) : all_chars url_safe s = true -> quote s "/" = s.
Proof.
  induction s as [|a s IH]; [reflexivity|].
  cbn [all_chars quote]. intros Hs. apply andb_true_iff in Hs as [Ha Hs].
  unfold utf8. pose proof (url_safe_ascii a Ha) as Hlt.
  apply N.ltb_lt in Hlt. rewrite Hlt. cbn [fold_right].
  rewrite (quote_byte_safe a Ha), (IH Hs). reflexivity.
Qed.

(** A path made of letters, digits, [_ . - ~] and slashes is not
    changed by the percent-encoding: the public URL of the path is the
    public URL of the empty path followed by the path. *)
Theorem get_public_url_safe_path (self : ObjectStoreService) (tier : StorageTier)
    (path : string) :
  all_chars url_safe path = true ->
  quote path "/" = path
  /\ ObjectStore.get_public_url self tier path
     = ObjectStore.get_public_url self tier "" +:+ path.
Proof.
  intros Hs. split; [apply quote_safe, Hs|].
  unfold ObjectStore.get_public_url. rewrite (quote_safe path Hs).
  change (quote "" "/") with "".
  rewrite !append_assoc. reflexivity.
Qed.

Lemma get_public_url_safe_path_witness :
  all_chars url_safe "public/reports/2024_q1-final~v2.pdf" = true
  /\ ObjectStore.get_public_url (fm_objectstore literal_manager) HOT
       "public/reports/2024_q1-final~v2.pdf"
     = "https://s3.example.com/hot-bucket/public/reports/2024_q1-final~v2.pdf".
Proof.
  split; [reflexivity|].
  rewrite (proj2 (get_public_url_safe_path (fm_objectstore literal_manager) HOT
                    "public/reports/2024_q1-final~v2.pdf" eq_refl)).
  reflexivity.
Defined.

(** The public URL of an object begins with the endpoint the client of
    its tier talks to, except over HTTPS at port 80 and over HTTP at port
    443: there the client's endpoint names the port and the public URL
    does not. *)
Theorem get_public_url_endpoint (self : ObjectStoreService) (tier : StorageTier)
    (path : string) :
  let tc := ObjectStore._get_config self tier in
  let rest := "/" +:+ tc_bucket tc +:+ "/" +:+ quote path "/" in
  let origin := ObjectStore.protocol_of tc +:+ "://" +:+ tc_endpoint tc in
  (port_only_in_endpoint tc = false ->
   ObjectStore.get_public_url self tier path
   = endpoint_url (ObjectStore._create_client tc) +:+ rest)
  /\ (port_only_in_endpoint tc = true ->
      endpoint_url (ObjectStore._create_client tc)
      = origin +:+ ":" +:+ pretty (tc_port tc)
      /\ ObjectStore.get_public_url self tier path = origin +:+ rest).
Proof.
  intros tc rest origin. subst rest origin.
  unfold ObjectStore.get_public_url, ObjectStore._create_client,
    port_only_in_endpoint, ObjectStore.protocol_of.
  fold tc.
  destruct (tc_use_ssl tc); cbn [negb andb orb String.eqb Ascii.eqb Bool.eqb];
    destruct (tc_port tc =? 80) eqn:H80; destruct (tc_port tc =? 443) eqn:H443;
    try (apply Z.eqb_eq in H80; apply Z.eqb_eq in H443; congruence);
    cbn [negb andb orb]; split; intros Hp; try discriminate;
    cbn [endpoint_url]; rewrite ?append_assoc, ?append_nil; auto.
Qed.

Lemma get_public_url_endpoint_witness :
  port_only_in_endpoint (ObjectStore._get_config http_443_service HOT) = true
  /\ endpoint_url (ObjectStore._get_client http_443_service HOT)
     = "http://minio.local:443"
  /\ ObjectStore.get_public_url http_443_service HOT "public/a b.txt"
     = "http://minio.local/files/public/a%20b.txt"
  /\ port_only_in_endpoint
       (ObjectStore._get_config (fm_objectstore literal_manager) COLD) = false
  /\ ObjectStore.get_public_url (fm_objectstore literal_manager) COLD "public/a"
     = "https://s3.example.com/cold-bucket/public/a".
Proof.
  split; [reflexivity|].
  destruct (proj2 (get_public_url_endpoint http_443_service HOT "public/a b.txt")
              eq_refl) as [He Hu].
  split; [exact He|]. split; [exact Hu|]. split; [reflexivity|].
  exact (proj1 (get_public_url_endpoint (fm_objectstore literal_manager) COLD
                  "public/a") eq_refl).
Defined.

Lemma request_ok {DB X : Type} (r : S3Request) (perform : M DB X) (w : World DB) :
  w_faults w (length (w_trace w)) = None ->
  request r perform w = perform (log (S3 r) w).
Proof. intros Hf. unfold request. rewrite Hf. reflexivity. Qed.

Lemma trace_log_length {DB : Type} (e : Event) (w : World DB) :
  length (w_trace (log e w)) = S (length (w_trace w)).
Proof. cbn [w_trace log]. rewrite length_app. simpl. lia. Qed.

Lemma store_get_put_other (l l' : Location) (o : Stored)
    (s : list (Location * Stored)) :
  l <> l' -> store_get l (store_put l' o s) = store_get l s.
Proof.
  intros Hne.
  assert (Hl : Location_eqb l l' = false).
  { destruct (Location_eqb l l') eqn:E; [|reflexivity].
    apply Location_eqb_eq in E. contradiction. }
  induction s as [|[l0 o0] s IH]; simpl.
  - rewrite Hl. reflexivity.
  - destruct (Location_eqb l' l0) eqn:E; simpl.
    + apply Location_eqb_eq in E. subst l0. rewrite Hl. reflexivity.
    + destruct (Location_eqb l l0); [reflexivity|exact IH].
Qed.

Lemma store_get_delete_other (l l' : Location) (s : list (Location * Stored)) :
  l <> l' -> store_get l (store_delete l' s) = store_get l s.
Proof.
  intros Hne. unfold store_delete.
  induction s as [|[l0 o0] s IH]; simpl; [reflexivity|].
  destruct (Location_eqb l' l0) eqn:E; simpl.
  - apply Location_eqb_eq in E. subst l0.
    destruct (Location_eqb l l') eqn:E'; [|exact IH].
    apply Location_eqb_eq in E'. contradiction.
  - destruct (Location_eqb l l0); [reflexivity|exact IH].
Qed.

(** [download] returns the stored bytes; a key the backend does not hold
    is reported as [FileNotFoundError] naming the path, as is a
    [ClientError] of the backend with the code [NoSuchKey]; every other
    exception is passed on as it is.  Only the one request is made. *)
Theorem download_outcome {DB : Type} (self : ObjectStoreService)
    (tier : StorageTier) (path : string) (w : World DB) :
  let r := ObjectStore.download self tier path w in
  let missing := Raise (FileNotFoundError ("File not found: " +:+ path)) in
  snd r
  = log (S3 (GetObject (ObjectStore._get_client self tier)
               (tc_bucket (ObjectStore._get_config self tier)) path)) w
  /\ fst r
     = match w_faults w (length (w_trace w)) with
       | None =>
         match store_get (location_of self tier path) (w_store w) with
         | Some o => Ok (body_of o)
         | None => missing
         end
       | Some (ClientError code msg) =>
         if String.eqb code "NoSuchKey" then missing
         else Raise (ClientError code msg)
       | Some e => Raise e
       end.
Proof.
  unfold ObjectStore.download, try_except, get_object, request, raise, location_of.
  destruct (w_faults w (length (w_trace w))) as [e|]; cbn [fst snd w_store log].
  - destruct e; try (split; reflexivity).
    destruct (String.eqb code "NoSuchKey"); split; reflexivity.
  - destruct (store_get _ (w_store w)); split; reflexivity.
Qed.

(** [exists] answers [True] for a stored object and [False] for a
    missing one; a [ClientError] of any kind is answered [False]; an
    exception that is not a [ClientError] is raised. *)
Theorem exists_outcome {DB : Type} `{StorageAdapter DB} (self : FileManager)
    (file : PhysicalFile) (w : World DB) :
  let os := fm_objectstore self in
  let r := FileManager.exists_ self file w in
  w_store (snd r) = w_store w
  /\ w_db (snd r) = w_db w
  /\ fst r
     = match w_faults w (length (w_trace w)) with
       | None =>
         Ok (bool_decide
               (store_get (location_of os (pf_storage_tier file) (pf_path file))
                  (w_store w) <> None))
       | Some (ClientError _ _) => Ok false
       | Some e => Raise e
       end.
Proof.
  unfold FileManager.exists_. rewrite _normalize_tier_total.
  unfold ObjectStore.exists_, bind, lift, try_except, head_object, request, raise,
    ret, location_of.
  destruct (w_faults w (length (w_trace w))) as [e|]; cbn [fst snd w_store log].
  - destruct e; repeat split; reflexivity.
  - destruct (store_get _ (w_store w)) eqn:Hg; repeat split; reflexivity.
Qed.

(** An undisturbed [move] of a stored object, step by step. *)
Lemma move_run {DB : Type} (os : ObjectStoreService) (source_tier : StorageTier)
    (source_path : string) (dest_tier : StorageTier) (dest_path : string)
    (w : World DB) (o : Stored) :
  next_requests_succeed 3 w ->
  store_get (location_of os source_tier source_path) (w_store w) = Some o ->
  let r := ObjectStore.move os source_tier source_path dest_tier dest_path w in
  fst r = Ok tt
  /\ w_trace (snd r)
     = w_trace w
       ++ move_requests os source_tier source_path dest_tier dest_path (body_of o)
  /\ w_store (snd r)
     = store_delete (location_of os source_tier source_path)
         (store_put (location_of os dest_tier dest_path)
            {| body_of := body_of o; stored_at := w_now w |} (w_store w))
  /\ w_db (snd r) = w_db w
  /\ w_faults (snd r) = w_faults w
  /\ w_now (snd r) = w_now w.
Proof.
  intros Hok Hsrc.
  pose proof (Hok 0%nat ltac:(lia)) as H0.
  pose proof (Hok 1%nat ltac:(lia)) as H1.
  pose proof (Hok 2%nat ltac:(lia)) as H2.
  rewrite Nat.add_0_r in H0.
  unfold ObjectStore.move, ObjectStore.copy, ObjectStore.download,
    ObjectStore.upload, ObjectStore.delete, bind, try_except, get_object,
    put_object, delete_object, location_of in *.
  rewrite (request_ok _ _ w H0). cbn [w_store log]. rewrite Hsrc.
  rewrite request_ok
    by (rewrite trace_log_length; cbn [w_faults log];
        rewrite <- H1; f_equal; lia).
  rewrite request_ok
    by (cbn [w_trace set_store]; rewrite !trace_log_length;
        cbn [w_faults log set_store]; rewrite <- H2; f_equal; lia).
  cbn [fst snd w_trace w_store w_db w_faults w_now set_store log].
  rewrite <- !app_assoc. repeat split; reflexivity.
Qed.

(** A [move] that meets no failure puts the bytes of the source at the
    destination and removes the source, in three requests (get, put,
    delete); every other object stays as it was. *)
Theorem move_relocates {DB : Type} (os : ObjectStoreService)
    (source_tier : StorageTier) (source_path : string) (dest_tier : StorageTier)
    (dest_path : string) (w : World DB) (o : Stored) :
  next_requests_succeed 3 w ->
  store_get (location_of os source_tier source_path) (w_store w) = Some o ->
  location_of os source_tier source_path <> location_of os dest_tier dest_path ->
  let r := ObjectStore.move os source_tier source_path dest_tier dest_path w in
  fst r = Ok tt
  /\ w_trace (snd r)
     = w_trace w
       ++ move_requests os source_tier source_path dest_tier dest_path (body_of o)
  /\ store_get (location_of os dest_tier dest_path) (w_store (snd r))
     = Some {| body_of := body_of o; stored_at := w_now w |}
  /\ store_get (location_of os source_tier source_path) (w_store (snd r)) = None
  /\ (forall l, l <> location_of os source_tier source_path ->
                l <> location_of os dest_tier dest_path ->
                store_get l (w_store (snd r)) = store_get l (w_store w)).
Proof.
  intros Hok Hsrc Hne r.
  destruct (move_run os source_tier source_path dest_tier dest_path w o Hok Hsrc)
    as (Hr & Ht & Hs & _).
  fold r in Hr, Ht, Hs. rewrite Hs.
  split; [exact Hr|]. split; [exact Ht|]. split.
  - rewrite store_get_delete_other by congruence. apply store_get_put.
  - split; [apply store_get_delete|].
    intros l Hls Hld.
    rewrite store_get_delete_other by exact Hls.
    apply store_get_put_other, Hld.
Qed.

Lemma move_relocates_witness :
  next_requests_succeed 3 expiring_world
  /\ store_get (location_of (fm_objectstore literal_manager) HOT "private/report.pdf")
       (w_store expiring_world) = Some (stored [])
  /\ store_get (location_of (fm_objectstore literal_manager) COLD "private/report.pdf")
       (w_store
          (snd (ObjectStore.move (fm_objectstore literal_manager) HOT
                  "private/report.pdf" COLD "private/report.pdf" expiring_world)))
     = Some {| body_of := []; stored_at := 1000 |}
  /\ store_get (location_of (fm_objectstore literal_manager) HOT "private/report.pdf")
       (w_store
          (snd (ObjectStore.move (fm_objectstore literal_manager) HOT
                  "private/report.pdf" COLD "private/report.pdf" expiring_world)))
     = None.
Proof.
  assert (Hok : next_requests_succeed 3 expiring_world) by (intros i _; reflexivity).
  split; [exact Hok|]. split; [reflexivity|].
  destruct (move_relocates (fm_objectstore literal_manager) HOT "private/report.pdf"
              COLD "private/report.pdf" expiring_world (stored []) Hok eq_refl
              ltac:(discriminate))
    as (_ & _ & Hd & Hs & _).
  split; [exact Hd|exact Hs].
Defined.

(** When source and destination are the same place, the same path in one
    tier or two tiers kept in one bucket of one endpoint, a [move] that
    meets no failure returns normally and the object is gone: it is
    written over itself and then deleted. *)
Theorem move_onto_itself_deletes {DB : Type} (os : ObjectStoreService)
    (source_tier : StorageTier) (source_path : string) (dest_tier : StorageTier)
    (dest_path : string) (w : World DB) (o : Stored) :
  next_requests_succeed 3 w ->
  store_get (location_of os source_tier source_path) (w_store w) = Some o ->
  location_of os source_tier source_path = location_of os dest_tier dest_path ->
  let r := ObjectStore.move os source_tier source_path dest_tier dest_path w in
  fst r = Ok tt
  /\ store_get (location_of os dest_tier dest_path) (w_store (snd r)) = None.
Proof.
  intros Hok Hsrc Heq r.
  destruct (move_run os source_tier source_path dest_tier dest_path w o Hok Hsrc)
    as (Hr & _ & Hs & _).
  fold r in Hr, Hs. rewrite Hs, <- Heq.
  split; [exact Hr|apply store_get_delete].
Qed.

Lemma move_onto_itself_deletes_witness :
  next_requests_succeed 3
    (world_of [(("https://s3.example.com", "files", "public/a"), stored [])]
       no_faults empty_session 1000)
  /\ location_of (fm_objectstore one_bucket_manager) HOT "public/a"
     = location_of (fm_objectstore one_bucket_manager) COLD "public/a"
  /\ w_store
       (snd (ObjectStore.move (fm_objectstore one_bucket_manager) HOT "public/a"
               COLD "public/a"
               (world_of [(("https://s3.example.com", "files", "public/a"), stored [])]
                  no_faults empty_session 1000)))
     = [].
Proof.
  assert (Hok : next_requests_succeed 3
                  (world_of [(("https://s3.example.com", "files", "public/a"),
                              stored [])] no_faults empty_session 1000))
    by (intros i _; reflexivity).
  split; [exact Hok|]. split; [reflexivity|].
  pose proof (move_onto_itself_deletes (fm_objectstore one_bucket_manager) HOT
                "public/a" COLD "public/a" _ (stored []) Hok eq_refl eq_refl)
    as [_ Hgone].
  reflexivity.
Defined.

(** The loop collects the pages from a token on: what it returns is what
    it had, followed by every object still to come. *)
Lemma list_objects_loop_collects {DB : Type} (fuel : nat) (client : Client)
    (bucket : string) (prefix : option string) (objects : list S3Object)
    (token : option nat) (w : World DB) :
  fault_free w ->
  (remaining client bucket prefix token w < fuel)%nat ->
  let r := ObjectStore.list_objects_loop fuel client bucket prefix objects token w in
  fst r
  = Ok (objects
        ++ List.map (fun e => ObjectStore.to_S3Object (to_item e))
             (skipn (match token with Some n => n | None => O end)
                (List.filter
                   (in_listing (endpoint_url client) bucket
                      (if truthy prefix then prefix else None))
                   (w_store w))))
  /\ w_store (snd r) = w_store w
  /\ w_db (snd r) = w_db w.
Proof.
  revert objects token w.
  induction fuel as [|fuel IH]; intros objects token w Hfree Hfuel; [lia|].
  cbn [ObjectStore.list_objects_loop].
  unfold bind, list_objects_v2, request. rewrite (Hfree (length (w_trace w))).
  cbn [IsTruncated Contents NextContinuationToken listing_page w_store log
       w_page_size].
  unfold remaining in Hfuel.
  set (all := List.filter
                (in_listing (endpoint_url client) bucket
                   (if truthy prefix then prefix else None)) (w_store w)) in *.
  set (offset := match token with Some n => n | None => O end) in *.
  set (page := Pos.to_nat (w_page_size w)).
  set (rest := skipn offset all) in *.
  assert (Hpage : (0 < page)%nat) by (subst page; lia).
  set (w1 := log (S3 (ListObjectsV2 client bucket
                        (if truthy prefix then prefix else None) token)) w).
  set (f := fun e => ObjectStore.to_S3Object (to_item e)).
  assert (Hitems : match List.map to_item (firstn page rest) with
                   | [] => objects
                   | _ :: _ =>
                     objects
                     ++ List.map ObjectStore.to_S3Object
                          (List.map to_item (firstn page rest))
                   end
                   = objects ++ List.map f (firstn page rest)).
  { rewrite List.map_map. fold f.
    destruct (firstn page rest) as [|x l]; simpl; [rewrite app_nil_r|]; reflexivity. }
  assert (Hcontents :
            match
              match List.map to_item (firstn page rest) with
              | [] => None
              | _ :: _ => Some (List.map to_item (firstn page rest))
              end
            with
            | Some items => objects ++ List.map ObjectStore.to_S3Object items
            | None => objects
            end = objects ++ List.map f (firstn page rest)).
  { rewrite <- Hitems. destruct (List.map to_item (firstn page rest)); reflexivity. }
  rewrite Hcontents.
  destruct (Nat.ltb page (length rest)) eqn:Hmore; cbn [negb].
  - apply Nat.ltb_lt in Hmore.
    assert (Hskip : skipn (offset + page) all = skipn page rest).
    { subst rest. rewrite List.skipn_skipn. f_equal. lia. }
    assert (Hrem : (remaining client bucket prefix (Some (offset + page)%nat) w1
                    < fuel)%nat).
    { unfold remaining. cbn [w_store log w1]. fold all. rewrite Hskip.
      rewrite List.length_skipn. lia. }
    destruct (IH (objects ++ List.map f (firstn page rest))
                (Some (offset + page)%nat) w1 Hfree Hrem) as (Hr & Hs & Hd).
    cbn [w_store w_db log w1] in Hr, Hs, Hd. fold all in Hr. fold f in Hr.
    rewrite Hskip in Hr.
    split; [|split; assumption].
    rewrite Hr, <- app_assoc, <- List.map_app, List.firstn_skipn. reflexivity.
  - apply Nat.ltb_ge in Hmore. unfold ret. cbn [fst snd w_store w_db log].
    rewrite List.firstn_all2 by exact Hmore. auto.
Qed.

(** [list_objects] follows the pages of the backend to the end: when no
    request fails it returns every object of the bucket of the tier whose
    key begins with the prefix, in the order of the backend, however
    small the pages are, and changes nothing.  An empty prefix is no
    prefix. *)
Theorem list_objects_complete {DB : Type} (self : ObjectStoreService)
    (tier : StorageTier) (prefix : option string) (w : World DB) :
  fault_free w ->
  let r := ObjectStore.list_objects self tier prefix w in
  fst r = Ok (listed_objects self tier prefix w)
  /\ w_store (snd r) = w_store w
  /\ w_db (snd r) = w_db w
  /\ listed_objects self tier (Some "") w = listed_objects self tier None w.
Proof.
  intros Hfree r. subst r. unfold ObjectStore.list_objects.
  assert (Hrem : (remaining (ObjectStore._get_client self tier)
                    (tc_bucket (ObjectStore._get_config self tier)) prefix None w
                  < S (length (w_store w)))%nat).
  { unfold remaining. simpl. apply Nat.lt_succ_r, List.filter_length_le. }
  destruct (list_objects_loop_collects _ _ _ prefix [] None w Hfree Hrem)
    as (Hr & Hs & Hd).
  split; [exact Hr|]. split; [exact Hs|]. split; [exact Hd|reflexivity].
Qed.

Lemma list_objects_complete_witness :
  fault_free abc_world
  /\ w_page_size abc_world = 2%positive
  /\ fst (ObjectStore.list_objects (fm_objectstore literal_manager) HOT
            (Some "public/") abc_world)
     = Ok [listed "public/a"; listed "public/b"; listed "public/c"].
Proof.
  assert (Hfree : fault_free abc_world) by (intros n; reflexivity).
  split; [exact Hfree|]. split; [reflexivity|].
  rewrite (proj1 (list_objects_complete (fm_objectstore literal_manager) HOT
                    (Some "public/") abc_world Hfree)).
  reflexivity.
Defined.

(** ** file_manager.py *)

(** [get_url] changes nothing in the world.  For a path under
    "public/" it is the public URL; for a path under "private/" it is the
    presigned URL with the expiry of the options, where an expiry of 0
    counts as not given and the configured default is used. *)
Theorem get_url_outcome {DB : Type} `{StorageAdapter DB} (self : FileManager)
    (file : PhysicalFile) (options : GetUrlOptions) (w : World DB) :
  let os := fm_objectstore self in
  let tier := pf_storage_tier file in
  snd (FileManager.get_url self file options w) = w
  /\ FileManager.get_url self file {| expires_in := Some 0 |} w
     = FileManager.get_url self file {| expires_in := None |} w
  /\ (startswith "public/" (pf_path file) = true ->
      fst (FileManager.get_url self file options w)
      = Ok (ObjectStore.get_public_url os tier (pf_path file)))
  /\ (startswith "public/" (pf_path file) = false ->
      startswith "private/" (pf_path file) = true ->
      fst (FileManager.get_url self file options w)
      = Ok (w_presign w (ObjectStore._get_client os tier)
              (tc_bucket (ObjectStore._get_config os tier)) (pf_path file)
              (url_expiry self options) (w_now w))).
Proof.
  intros os tier.
  unfold FileManager.get_url, FileManager._get_visibility_from_path, url_expiry.
  rewrite _normalize_tier_total.
  unfold bind, lift, ret, raise, ObjectStore.get_presigned_url,
    generate_presigned_url.
  cbn [expires_in Z.eqb].
  destruct (startswith "public/" (pf_path file)).
  - repeat split; intros; try reflexivity; discriminate.
  - destruct (startswith "private/" (pf_path file));
      repeat split; intros; try reflexivity; discriminate.
Qed.

(** [set_tier] to the tier the record already has returns the record it
    was given and leaves the world as it was. *)
Theorem set_tier_same_is_noop {DB : Type} `{StorageAdapter DB}
    (self : FileManager) (file : PhysicalFile) (options : SetTierOptions)
    (w : World DB) :
  pf_storage_tier file = st_tier options ->
  FileManager.set_tier self file options w = (Ok file, w).
Proof.
  intros Ht. unfold FileManager.set_tier.
  rewrite _normalize_tier_total. unfold bind, lift, ret.
  destruct (decide (pf_storage_tier file = st_tier options)); congruence.
Qed.

Lemma set_tier_same_is_noop_witness :
  pf_storage_tier expiring_file = HOT
  /\ FileManager.set_tier literal_manager expiring_file
       {| st_tier := HOT; st_move_file := true; st_hot_duration := Some 60 |}
       expiring_world
     = (Ok expiring_file, expiring_world).
Proof.
  split; [reflexivity|].
  apply set_tier_same_is_noop. reflexivity.
Defined.

Lemma requests_only_ret {DB X : Type} (x : X) : requests_only (@ret DB X x).
Proof.
  intros w. repeat split. exists []. rewrite app_nil_r. auto.
Qed.

Lemma requests_only_raise {DB X : Type} (e : Exn) : requests_only (@raise DB X e).
Proof.
  intros w. repeat split. exists []. rewrite app_nil_r. auto.
Qed.

Lemma requests_only_bind {DB X Y : Type} (m : M DB X) (k : X -> M DB Y) :
  requests_only m -> (forall x, requests_only (k x)) -> requests_only (bind m k).
Proof.
  intros Hm Hk w. unfold bind.
  destruct (Hm w) as (Hd & Hn & evs & Ht & He).
  destruct (m w) as [[x|e] w1]; cbn [fst snd] in *.
  - destruct (Hk x w1) as (Hd' & Hn' & evs' & Ht' & He').
    split; [congruence|]. split; [congruence|].
    exists (evs ++ evs'). rewrite Ht', Ht, app_assoc, forallb_app, He, He'. auto.
  - split; [exact Hd|]. split; [exact Hn|]. exists evs. auto.
Qed.

Lemma requests_only_try_except {DB X : Type} (m : M DB X)
    (handler : Exn -> M DB X) :
  requests_only m -> (forall e, requests_only (handler e)) ->
  requests_only (try_except m handler).
Proof.
  intros Hm Hh w. unfold try_except.
  destruct (Hm w) as (Hd & Hn & evs & Ht & He).
  destruct (m w) as [[x|e] w1]; cbn [fst snd] in *.
  - split; [exact Hd|]. split; [exact Hn|]. exists evs. auto.
  - destruct (Hh e w1) as (Hd' & Hn' & evs' & Ht' & He').
    split; [congruence|]. split; [congruence|].
    exists (evs ++ evs'). rewrite Ht', Ht, app_assoc, forallb_app, He, He'. auto.
Qed.

Lemma requests_only_request {DB X : Type} (r : S3Request) (perform : M DB X) :
  (forall w, w_db (snd (perform w)) = w_db w
             /\ w_now (snd (perform w)) = w_now w
             /\ w_trace (snd (perform w)) = w_trace w) ->
  requests_only (request r perform).
Proof.
  intros Hp w. unfold request.
  destruct (w_faults w (length (w_trace w))).
  - repeat split. exists [S3 r]. auto.
  - destruct (Hp (log (S3 r) w)) as (Hd & Hn & Ht).
    rewrite Hd, Hn, Ht. repeat split. exists [S3 r]. auto.
Qed.

Lemma move_requests_only {DB : Type} (os : ObjectStoreService)
    (source_tier : StorageTier) (source_path : string) (dest_tier : StorageTier)
    (dest_path : string) :
  requests_only
    (@ObjectStore.move DB os source_tier source_path dest_tier dest_path).
Proof.
  unfold ObjectStore.move, ObjectStore.copy, ObjectStore.download,
    ObjectStore.upload, ObjectStore.delete, get_object, put_object, delete_object.
  repeat first
    [ apply requests_only_bind | apply requests_only_try_except
    | apply requests_only_request | apply requests_only_ret
    | apply requests_only_raise | intros ? ].
  - destruct (store_get _ _); repeat split.
  - destruct e; try apply requests_only_raise.
    destruct (String.eqb code "NoSuchKey"); apply requests_only_raise.
  - repeat split.
  - repeat split.
Qed.

(** [set_tier] moves the object before it touches the record.  Either no
    method of the adapter is called, the database is as it was and the
    outcome is the record it was given (same tier) or an exception; or
    the [update] of the adapter is the last call, after the requests of
    the move, and when a move was asked for it had succeeded. *)
Theorem set_tier_moves_first {DB : Type} `{StorageAdapter DB}
    (self : FileManager) (file : PhysicalFile) (options : SetTierOptions)
    (w : World DB) :
  let r := FileManager.set_tier self file options w in
  let moved :=
    ObjectStore.move (fm_objectstore self) (pf_storage_tier file) (pf_path file)
      (st_tier options) (pf_path file) w in
  (exists evs,
     w_trace (snd r) = w_trace w ++ evs
     /\ forallb is_request evs = true
     /\ w_db (snd r) = w_db w
     /\ (fst r = Ok file \/ exists e, fst r = Raise e))
  \/ (exists evs hot_until,
        w_trace (snd r)
        = w_trace w ++ evs
          ++ [Adapter (Update (pf_id file) (Some (st_tier options)) None hot_until)]
        /\ forallb is_request evs = true
        /\ (st_move_file options = true -> fst moved = Ok tt)
        /\ (fst r, w_db (snd r))
           = adapter_update (w_now w) (pf_id file) (Some (st_tier options)) None
               hot_until (w_db w)).
Proof.
  intros r moved. subst moved.
  assert (Hr : r = FileManager.set_tier self file options w) by reflexivity.
  clearbody r.
  unfold FileManager.set_tier in Hr. rewrite _normalize_tier_total in Hr.
  unfold lift in Hr. unfold bind at 1 in Hr.
  destruct (decide (pf_storage_tier file = st_tier options)) as [Heq|Hne].
  { left. exists []. rewrite app_nil_r. unfold ret in Hr. subst r. cbn [fst snd].
    repeat split; try reflexivity. left. reflexivity. }
  set (mv := ObjectStore.move (fm_objectstore self) (pf_storage_tier file)
               (pf_path file) (st_tier options) (pf_path file)).
  assert (Hstep : forall (hu : option Z) (w0 : World DB),
            w_db w0 = w_db w -> w_now w0 = w_now w ->
            let r := (fun w1 => call (Update (pf_id file) (Some (st_tier options))
                                        None hu)
                                  (adapter_update (w_now w1) (pf_id file)
                                     (Some (st_tier options)) None hu) w1) w0 in
            w_trace (snd r)
            = w_trace w0
              ++ [Adapter (Update (pf_id file) (Some (st_tier options)) None hu)]
            /\ (fst r, w_db (snd r))
               = adapter_update (w_now w) (pf_id file) (Some (st_tier options))
                   None hu (w_db w)).
  { intros hu w0 Hd Hn. unfold call. rewrite Hd, Hn.
    destruct (adapter_update _ _ _ _ _ (w_db w)) as [x d]. cbn. auto. }
  assert (Hmain : forall (hu : option Z) (update_hot_until : bool),
            let r :=
              ((if st_move_file options then mv else ret tt) ;;;
               (let* updated_file :=
                  (if update_hot_until
                   then fun w1 => call (Update (pf_id file) (Some (st_tier options))
                                          None hu)
                                    (adapter_update (w_now w1) (pf_id file)
                                       (Some (st_tier options)) None hu) w1
                   else fun w1 => call (Update (pf_id file) (Some (st_tier options))
                                          None None)
                                    (adapter_update (w_now w1) (pf_id file)
                                       (Some (st_tier options)) None None) w1) in
                ret updated_file)) w in
            (exists evs,
               w_trace (snd r) = w_trace w ++ evs
               /\ forallb is_request evs = true
               /\ w_db (snd r) = w_db w
               /\ (fst r = Ok file \/ exists e, fst r = Raise e))
            \/ (exists evs hot_until,
                  w_trace (snd r)
                  = w_trace w ++ evs
                    ++ [Adapter (Update (pf_id file) (Some (st_tier options)) None
                                   hot_until)]
                  /\ forallb is_request evs = true
                  /\ (st_move_file options = true -> fst (mv w) = Ok tt)
                  /\ (fst r, w_db (snd r))
                     = adapter_update (w_now w) (pf_id file)
                         (Some (st_tier options)) None hot_until (w_db w))).
  { intros hu flag r0.
    assert (Hr0 : r0 = ((if st_move_file options then mv else ret tt) ;;;
               (let* updated_file :=
                  (if flag
                   then fun w1 => call (Update (pf_id file) (Some (st_tier options))
                                          None hu)
                                    (adapter_update (w_now w1) (pf_id file)
                                       (Some (st_tier options)) None hu) w1
                   else fun w1 => call (Update (pf_id file) (Some (st_tier options))
                                          None None)
                                    (adapter_update (w_now w1) (pf_id file)
                                       (Some (st_tier options)) None None) w1) in
                ret updated_file)) w) by reflexivity.
    clearbody r0.
    assert (Hupd : exists hu',
              r0 = ((if st_move_file options then mv else ret tt) ;;;
                    (let* updated_file :=
                       (fun w1 => call (Update (pf_id file) (Some (st_tier options))
                                          None hu')
                                    (adapter_update (w_now w1) (pf_id file)
                                       (Some (st_tier options)) None hu') w1) in
                     ret updated_file)) w).
    { destruct flag; eexists; exact Hr0. }
    clear Hr0. destruct Hupd as [hu' Hr0].
    assert (Hpre : exists u w0 evs,
              ((if st_move_file options then mv else ret tt) w = (u, w0))
              /\ w_db w0 = w_db w /\ w_now w0 = w_now w
              /\ w_trace w0 = w_trace w ++ evs /\ forallb is_request evs = true
              /\ (st_move_file options = true -> fst (mv w) = u)).
    { destruct (st_move_file options).
      - destruct (move_requests_only (fm_objectstore self) (pf_storage_tier file)
                    (pf_path file) (st_tier options) (pf_path file) w)
          as (Hd & Hn & evs & Ht & He).
        fold mv in Hd, Hn, Ht.
        destruct (mv w) as [u w0] eqn:Hmv. cbn [fst snd] in *.
        exists u, w0, evs. auto 10.
      - exists (Ok tt), w, []. unfold ret. rewrite app_nil_r.
        repeat split; auto. discriminate. }
    destruct Hpre as (u & w0 & evs & Hrun & Hd & Hn & Ht & He & Hmv).
    unfold bind at 1 in Hr0. rewrite Hrun in Hr0.
    destruct u as [[]|e].
    - right. exists evs, hu'.
      destruct (Hstep hu' w0 Hd Hn) as [Htr Hup]. cbv zeta in Htr, Hup.
      unfold bind, ret in Hr0.
      destruct (call _ _ w0) as [[x|e] w2]; subst r0; cbn [fst snd] in *;
        rewrite Htr, Ht, <- app_assoc; auto.
    - left. exists evs. subst r0. cbn [fst snd]. eauto 10. }
  assert (Hhu : exists hu flag,
            (match st_tier options with
             | HOT =>
               match st_hot_duration options with
               | Some d => let* now := datetime_now in ret (Some (now + d), true)
               | None => ret (None, false)
               end
             | COLD => ret (None, true)
             end) w = (Ok (hu, flag), w)).
  { destruct (st_tier options); [destruct (st_hot_duration options)|];
      unfold bind, datetime_now, ret; eauto. }
  destruct Hhu as (hu & flag & Hhu).
  unfold bind at 1 in Hr. rewrite Hhu in Hr. cbn [fst snd] in Hr.
  fold mv in Hr. rewrite Hr. exact (Hmain hu flag).
Qed.

(** What a successful [update] of the reference adapter returns: the row
    with the given columns replaced and the others kept. *)
Lemma update_result (now id : Z) (tier : option StorageTier)
    (path : option string) (hot_until : option Z) (session session' : Session)
    (file : PhysicalFile) :
  SQLAlchemyAdapter.update now id tier path hot_until session = (Ok file, session') ->
  exists model,
    row_of id session = Some model
    /\ pf_id file = id
    /\ StorageTier_value (pf_storage_tier file)
       = match tier with
         | Some t => StorageTier_value t
         | None => m_storage_tier model
         end
    /\ pf_path file = match path with Some p => p | None => m_path model end
    /\ pf_hot_until file
       = match hot_until with Some h => Some h | None => m_hot_until model end
    /\ pf_filename file = m_filename model
    /\ row_of id session'
       = Some {| m_id := id;
                 m_storage_tier := StorageTier_value (pf_storage_tier file);
                 m_filename := pf_filename file;
                 m_path := pf_path file;
                 m_hot_until := pf_hot_until file;
                 m_created_at := m_created_at model;
                 m_updated_at := now |}.
Proof.
  unfold SQLAlchemyAdapter.update, row_of.
  destruct (SQLAlchemyAdapter.select_by_id id session) as [|model rest] eqn:Hsel;
    [discriminate|].
  pose proof (select_by_id_id _ _ _ _ Hsel) as Hid.
  destruct (match path with
            | Some p => SQLAlchemyAdapter.path_taken p (Some id) session
            | None => false
            end); [discriminate|].
  match goal with
  | |- context [SQLAlchemyAdapter.replace_row ?m _] => set (model' := m)
  end.
  intros [= Hd <-].
  unfold SQLAlchemyAdapter._to_dto in Hd.
  destruct (StorageTier_of_value (m_storage_tier model')) as [t|] eqn:Ht;
    [|discriminate].
  injection Hd as <-. cbn [pf_id pf_storage_tier pf_path pf_hot_until pf_filename].
  assert (Hval : StorageTier_value t = m_storage_tier model').
  { unfold StorageTier_of_value in Ht.
    destruct (String.eqb (m_storage_tier model') "HOT") eqn:Eh.
    - apply String.eqb_eq in Eh. injection Ht as <-. symmetry. exact Eh.
    - destruct (String.eqb (m_storage_tier model') "COLD") eqn:Ec; [|discriminate].
      apply String.eqb_eq in Ec. injection Ht as <-. symmetry. exact Ec. }
  exists model. split; [reflexivity|].
  split; [exact Hid|]. split; [exact Hval|].
  split; [reflexivity|]. split; [reflexivity|]. split; [reflexivity|].
  assert (Hid' : id = m_id model') by (subst model'; simpl; congruence).
  rewrite Hid' at 1. rewrite select_replace_row_same.
  simpl. rewrite Hid, Hsel. simpl. rewrite Hval. subst model'. simpl.
  rewrite Hid. reflexivity.
Qed.

(** A [set_tier] that changes the tier and returns a record has made the
    [update] of the adapter on the database it started from. *)
Lemma set_tier_update {DB : Type} `{StorageAdapter DB} (self : FileManager)
    (file file' : PhysicalFile) (options : SetTierOptions) (w w' : World DB) :
  pf_storage_tier file <> st_tier options ->
  FileManager.set_tier self file options w = (Ok file', w') ->
  adapter_update (w_now w) (pf_id file) (Some (st_tier options)) None
    (match st_tier options, st_hot_duration options with
     | HOT, Some d => Some (w_now w + d)
     | _, _ => None
     end) (w_db w)
  = (Ok file', w_db w').
Proof.
  intros Hne. unfold FileManager.set_tier. rewrite _normalize_tier_total.
  unfold lift. unfold bind at 1.
  destruct (decide (pf_storage_tier file = st_tier options)); [contradiction|].
  set (mv := if st_move_file options
             then ObjectStore.move (fm_objectstore self) (pf_storage_tier file)
                    (pf_path file) (st_tier options) (pf_path file)
             else ret tt).
  assert (Hmv : w_db (snd (mv w)) = w_db w /\ w_now (snd (mv w)) = w_now w).
  { subst mv. destruct (st_move_file options).
    - destruct (move_requests_only (fm_objectstore self) (pf_storage_tier file)
                  (pf_path file) (st_tier options) (pf_path file) w)
        as (Hd & Hn & _). auto.
    - auto. }
  destruct Hmv as [Hd Hn].
  destruct (st_tier options); [destruct (st_hot_duration options) as [d|]|];
    unfold bind, datetime_now, ret, call; cbn [fst snd];
    destruct (mv w) as [[u|e] w0]; cbn [fst snd] in *; try discriminate;
    rewrite Hd, Hn;
    match goal with
    | |- context [adapter_update ?a1 ?a2 ?a3 ?a4 ?a5 ?a6] =>
      destruct (adapter_update a1 a2 a3 a4 a5 a6) as [[x|ex] s']
    end; intros [= <- <-]; reflexivity.
Qed.

(** On the reference adapter, [set_tier] from COLD to HOT returns the
    record as HOT under its old path and id; with a duration its
    [hot_until] is the current time plus the duration, without one it is
    whatever the row held before. *)
Theorem set_tier_to_hot (self : FileManager) (file file' : PhysicalFile)
    (move_file : bool) (hot_duration : option Z) (w w' : World Session) :
  pf_storage_tier file = COLD ->
  FileManager.set_tier self file
    {| st_tier := HOT; st_move_file := move_file; st_hot_duration := hot_duration |}
    w = (Ok file', w') ->
  exists model,
    row_of (pf_id file) (w_db w) = Some model
    /\ pf_id file' = pf_id file
    /\ pf_storage_tier file' = HOT
    /\ pf_path file' = m_path model
    /\ pf_hot_until file'
       = match hot_duration with
         | Some d => Some (w_now w + d)
         | None => m_hot_until model
         end
    /\ tier_of_row (pf_id file) (w_db w') = Some "HOT".
Proof.
  intros Ht Hrun.
  apply set_tier_update in Hrun; [|cbn; congruence].
  cbn [st_tier st_hot_duration adapter_update SQLAlchemy_StorageAdapter] in Hrun.
  apply update_result in Hrun
    as (model & Hrow & Hid & Htier & Hpath & Hhot & _ & Hrow').
  exists model. split; [exact Hrow|]. split; [exact Hid|].
  assert (Hhot' : pf_storage_tier file' = HOT).
  { destruct (pf_storage_tier file'); [reflexivity|discriminate]. }
  split; [exact Hhot'|]. split; [exact Hpath|]. split.
  - rewrite Hhot. destruct hot_duration; reflexivity.
  - unfold tier_of_row. rewrite Hrow'. simpl. rewrite Hhot'. reflexivity.
Qed.

Lemma set_tier_to_hot_witness :
  pf_storage_tier (cold_file 1 "private/report.pdf" (Some 500)) = COLD
  /\ List.map pf_hot_until
       (match fst (FileManager.set_tier literal_manager
                     (cold_file 1 "private/report.pdf" (Some 500))
                     {| st_tier := HOT; st_move_file := true;
                        st_hot_duration := None |}
                     archived_world) with
        | Ok f => [f]
        | Raise _ => []
        end)
     = [Some 500]
  /\ exists file' w',
       FileManager.set_tier literal_manager
         (cold_file 1 "private/report.pdf" (Some 500))
         {| st_tier := HOT; st_move_file := true; st_hot_duration := Some 60 |}
         archived_world = (Ok file', w')
       /\ pf_hot_until file' = Some 1060.
Proof.
  split; [reflexivity|]. split; [reflexivity|].
  set (options := {| st_tier := HOT; st_move_file := true;
                     st_hot_duration := Some 60 |}).
  set (file := cold_file 1 "private/report.pdf" (Some 500)).
  set (file' := {| pf_id := 1; pf_storage_tier := HOT; pf_filename := "file";
                   pf_path := "private/report.pdf"; pf_hot_until := Some 1060;
                   pf_created_at := Some 0; pf_updated_at := Some 1000 |}).
  assert (Hrun : FileManager.set_tier literal_manager file options archived_world
                 = (Ok file',
                    snd (FileManager.set_tier literal_manager file options
                           archived_world)))
    by reflexivity.
  exists file', (snd (FileManager.set_tier literal_manager file options
                        archived_world)).
  split; [exact Hrun|].
  destruct (set_tier_to_hot literal_manager file file' true (Some 60)
              archived_world _ eq_refl Hrun)
    as (model & _ & _ & _ & _ & Hh & _).
  exact Hh.
Defined.

Lemma drop_joined (p s : string) :
  drop_chars (String.length p + 1) (p +:+ "/" +:+ s) = s.
Proof.
  induction p as [|a p IH]; [reflexivity|].
  rewrite append_cons. cbn [String.length Nat.add drop_chars]. exact IH.
Qed.

(** A [set_visibility] that changes the visibility of a record whose
    path was built from the prefix of its tier: the new path keeps the
    part after the prefix. *)
Lemma set_visibility_run {DB : Type} `{StorageAdapter DB}
    (config : S3StrataConfig) (self : FileManager) (file : PhysicalFile)
    (options : SetVisibilityOptions) (current : FileVisibility)
    (p suffix : string) (w : World DB) :
  FileManager.init config = Ok self ->
  let tier := pf_storage_tier file in
  let tc := ObjectStore._get_config (fm_objectstore self) tier in
  let new_path :=
    py_format (prefix_of tc (sv_visibility options)) +:+ "/" +:+ suffix in
  FileManager._get_visibility_from_path (pf_path file) = Ok current ->
  current <> sv_visibility options ->
  prefix_of tc current = Some p ->
  pf_path file = p +:+ "/" +:+ suffix ->
  FileManager.set_visibility self file options w
  = ((if sv_move_file options
      then ObjectStore.move (fm_objectstore self) tier (pf_path file) tier new_path
      else ret tt) ;;;
     (let* updated_file :=
        (fun w1 => call (Update (pf_id file) None (Some new_path) None)
                     (adapter_update (w_now w1) (pf_id file) None (Some new_path)
                        None) w1) in
      ret updated_file)) w.
Proof.
  intros Hi tier tc new_path Hv Hne Hp Hpath.
  unfold FileManager.set_visibility.
  rewrite _normalize_tier_total, Hv.
  unfold lift. unfold bind at 1. unfold bind at 1.
  destruct (decide (current = sv_visibility options)); [contradiction|].
  rewrite (init_path_prefix _ _ (pf_storage_tier file) current Hi).
  fold tier tc. rewrite Hp.
  unfold bind at 1. unfold bind at 1. unfold ret at 1.
  assert (Hdrop : drop_chars (String.length p + 1) (pf_path file) = suffix)
    by (rewrite Hpath; apply drop_joined).
  rewrite Hdrop.
  rewrite (init_build_path _ _ tier (sv_visibility options) suffix Hi).
  fold tier tc new_path. unfold bind at 1. reflexivity.
Qed.

(** The same with an undisturbed move of a stored object. *)
Lemma set_visibility_moved {DB : Type} `{StorageAdapter DB}
    (config : S3StrataConfig) (self : FileManager) (file : PhysicalFile)
    (options : SetVisibilityOptions) (current : FileVisibility)
    (p suffix : string) (w : World DB) (o : Stored) :
  FileManager.init config = Ok self ->
  let os := fm_objectstore self in
  let tier := pf_storage_tier file in
  let tc := ObjectStore._get_config os tier in
  let new_path :=
    py_format (prefix_of tc (sv_visibility options)) +:+ "/" +:+ suffix in
  FileManager._get_visibility_from_path (pf_path file) = Ok current ->
  current <> sv_visibility options ->
  prefix_of tc current = Some p ->
  pf_path file = p +:+ "/" +:+ suffix ->
  sv_move_file options = true ->
  next_requests_succeed 3 w ->
  store_get (location_of os tier (pf_path file)) (w_store w) = Some o ->
  let r := FileManager.set_visibility self file options w in
  w_trace (snd r)
  = w_trace w
    ++ move_requests os tier (pf_path file) tier new_path (body_of o)
    ++ [path_update file new_path]
  /\ (fst r, w_db (snd r))
     = adapter_update (w_now w) (pf_id file) None (Some new_path) None (w_db w)
  /\ w_store (snd r)
     = store_delete (location_of os tier (pf_path file))
         (store_put (location_of os tier new_path)
            {| body_of := body_of o; stored_at := w_now w |} (w_store w)).
Proof.
  intros Hi os tier tc new_path Hv Hne Hp Hpath Hmove Hok Hsrc r.
  pose proof (set_visibility_run config self file options current p suffix w
                Hi Hv Hne Hp Hpath) as Hrun.
  fold os tier tc new_path r in Hrun. clearbody r.
  rewrite Hmove in Hrun.
  destruct (move_run os tier (pf_path file) tier new_path w o Hok Hsrc)
    as (Hr & Ht & Hs & Hd & _ & Hn).
  unfold bind at 1 in Hrun.
  destruct (ObjectStore.move os tier (pf_path file) tier new_path w)
    as [u w0]. cbn [fst snd] in Hr, Ht, Hs, Hd, Hn. subst u.
  unfold bind, call, ret in Hrun. rewrite Hd, Hn in Hrun.
  unfold path_update.
  destruct (adapter_update (w_now w) (pf_id file) None (Some new_path) None
              (w_db w)) as [[x|e] d]; subst r;
    cbn [fst snd w_trace w_db w_store set_db log];
    rewrite Ht, Hs, <- app_assoc; auto.
Qed.

(** Without a move, a change of visibility is one [update] of the
    adapter and nothing else: the record gets the prefix of the new
    visibility in front of the part of its path after the old prefix, and
    no request goes to the object store. *)
Theorem set_visibility_record_only {DB : Type} `{StorageAdapter DB}
    (config : S3StrataConfig) (self : FileManager) (file : PhysicalFile)
    (options : SetVisibilityOptions) (current : FileVisibility)
    (p suffix : string) (w : World DB) :
  FileManager.init config = Ok self ->
  let tier := pf_storage_tier file in
  let tc := ObjectStore._get_config (fm_objectstore self) tier in
  let new_path :=
    py_format (prefix_of tc (sv_visibility options)) +:+ "/" +:+ suffix in
  FileManager._get_visibility_from_path (pf_path file) = Ok current ->
  current <> sv_visibility options ->
  prefix_of tc current = Some p ->
  pf_path file = p +:+ "/" +:+ suffix ->
  sv_move_file options = false ->
  let r := FileManager.set_visibility self file options w in
  w_trace (snd r) = w_trace w ++ [path_update file new_path]
  /\ (fst r, w_db (snd r))
     = adapter_update (w_now w) (pf_id file) None (Some new_path) None (w_db w)
  /\ w_store (snd r) = w_store w.
Proof.
  intros Hi tier tc new_path Hv Hne Hp Hpath Hmove r.
  pose proof (set_visibility_run config self file options current p suffix w
                Hi Hv Hne Hp Hpath) as Hrun.
  fold tier tc new_path r in Hrun. clearbody r.
  rewrite Hmove in Hrun.
  unfold bind, call, ret in Hrun. unfold path_update.
  destruct (adapter_update (w_now w) (pf_id file) None (Some new_path) None
              (w_db w)) as [[x|e] d]; subst r; cbn; auto.
Qed.

Lemma set_visibility_record_only_witness :
  FileManager.init (separate_config "public" "private") = Ok literal_manager
  /\ fst (FileManager.set_visibility literal_manager (report_file "public/report.pdf")
            {| sv_visibility := PRIVATE; sv_move_file := false |}
            (world_of [] no_faults
               {| rows := [hot_row 1 "public/report.pdf" None]; next_id := 2 |} 1000))
     = Ok {| pf_id := 1; pf_storage_tier := HOT; pf_filename := "file";
             pf_path := "private/report.pdf"; pf_hot_until := None;
             pf_created_at := Some 0; pf_updated_at := Some 1000 |}
  /\ w_trace
       (snd (FileManager.set_visibility literal_manager
               (report_file "public/report.pdf")
               {| sv_visibility := PRIVATE; sv_move_file := false |}
               (world_of [] no_faults
                  {| rows := [hot_row 1 "public/report.pdf" None]; next_id := 2 |}
                  1000)))
     = [path_update (report_file "public/report.pdf") "private/report.pdf"].
Proof.
  split; [reflexivity|]. split; [reflexivity|].
  destruct (set_visibility_record_only _ literal_manager
              (report_file "public/report.pdf")
              {| sv_visibility := PRIVATE; sv_move_file := false |}
              PUBLIC "public" "report.pdf"
              (world_of [] no_faults
                 {| rows := [hot_row 1 "public/report.pdf" None]; next_id := 2 |} 1000)
              (separate_manager_init "public" "private") eq_refl
              ltac:(discriminate) eq_refl eq_refl eq_refl)
    as (Ht & _).
  exact Ht.
Defined.

(** With the move, and no failure on the way, a change of visibility
    takes the object from the old path to the new one in the same bucket
    (get, put, delete) and then updates the path of the record. *)
Theorem set_visibility_relocates {DB : Type} `{StorageAdapter DB}
    (config : S3StrataConfig) (self : FileManager) (file : PhysicalFile)
    (options : SetVisibilityOptions) (current : FileVisibility)
    (p suffix : string) (w : World DB) (o : Stored) :
  FileManager.init config = Ok self ->
  let os := fm_objectstore self in
  let tier := pf_storage_tier file in
  let tc := ObjectStore._get_config os tier in
  let new_path :=
    py_format (prefix_of tc (sv_visibility options)) +:+ "/" +:+ suffix in
  FileManager._get_visibility_from_path (pf_path file) = Ok current ->
  current <> sv_visibility options ->
  prefix_of tc current = Some p ->
  pf_path file = p +:+ "/" +:+ suffix ->
  sv_move_file options = true ->
  next_requests_succeed 3 w ->
  store_get (location_of os tier (pf_path file)) (w_store w) = Some o ->
  pf_path file <> new_path ->
  let r := FileManager.set_visibility self file options w in
  w_trace (snd r)
  = w_trace w
    ++ move_requests os tier (pf_path file) tier new_path (body_of o)
    ++ [path_update file new_path]
  /\ (fst r, w_db (snd r))
     = adapter_update (w_now w) (pf_id file) None (Some new_path) None (w_db w)
  /\ store_get (location_of os tier new_path) (w_store (snd r))
     = Some {| body_of := body_of o; stored_at := w_now w |}
  /\ store_get (location_of os tier (pf_path file)) (w_store (snd r)) = None.
Proof.
  intros Hi os tier tc new_path Hv Hne Hp Hpath Hmove Hok Hsrc Hdiff r.
  destruct (set_visibility_moved config self file options current p suffix w o
              Hi Hv Hne Hp Hpath Hmove Hok Hsrc) as (Ht & Hu & Hs).
  fold os tier tc new_path r in Ht, Hu, Hs.
  split; [exact Ht|]. split; [exact Hu|]. rewrite Hs. split.
  - rewrite store_get_delete_other; [apply store_get_put|].
    unfold location_of. congruence.
  - apply store_get_delete.
Qed.

Lemma set_visibility_relocates_witness :
  FileManager.init (separate_config "public" "private") = Ok literal_manager
  /\ next_requests_succeed 3
       (world_of [(hot_location "public/report.pdf", stored [Byte.x2a])] no_faults
          {| rows := [hot_row 1 "public/report.pdf" None]; next_id := 2 |} 1000)
  /\ w_store
       (snd (FileManager.set_visibility literal_manager
               (report_file "public/report.pdf")
               {| sv_visibility := PRIVATE; sv_move_file := true |}
               (world_of [(hot_location "public/report.pdf", stored [Byte.x2a])]
                  no_faults
                  {| rows := [hot_row 1 "public/report.pdf" None]; next_id := 2 |}
                  1000)))
     = [(hot_location "private/report.pdf",
         {| body_of := [Byte.x2a]; stored_at := 1000 |})]
  /\ store_get (hot_location "public/report.pdf")
       (w_store
          (snd (FileManager.set_visibility literal_manager
                  (report_file "public/report.pdf")
                  {| sv_visibility := PRIVATE; sv_move_file := true |}
                  (world_of [(hot_location "public/report.pdf", stored [Byte.x2a])]
                     no_faults
                     {| rows := [hot_row 1 "public/report.pdf" None]; next_id := 2 |}
                     1000))))
     = None.
Proof.
  set (w := world_of [(hot_location "public/report.pdf", stored [Byte.x2a])]
              no_faults
              {| rows := [hot_row 1 "public/report.pdf" None]; next_id := 2 |} 1000).
  assert (Hok : next_requests_succeed 3 w) by (intros i _; reflexivity).
  split; [reflexivity|]. split; [exact Hok|]. split; [reflexivity|].
  destruct (set_visibility_relocates _ literal_manager
              (report_file "public/report.pdf")
              {| sv_visibility := PRIVATE; sv_move_file := true |}
              PUBLIC "public" "report.pdf" w (stored [Byte.x2a])
              (separate_manager_init "public" "private") eq_refl
              ltac:(discriminate) eq_refl eq_refl eq_refl Hok eq_refl
              ltac:(discriminate))
    as (_ & _ & _ & Hgone).
  exact Hgone.
Defined.

(** On the reference adapter, a change of visibility towards a path that
    another record already holds moves the object first, over the object
    of the other record, and then fails on the unique constraint: the
    exception is raised, the table is as before, the record still names
    the old path, and no object is left there. *)
Theorem set_visibility_onto_taken_path (config : S3StrataConfig)
    (self : FileManager) (file : PhysicalFile) (options : SetVisibilityOptions)
    (current : FileVisibility) (p suffix : string) (w : World Session)
    (o : Stored) (model : PhysicalFileModel) :
  FileManager.init config = Ok self ->
  let os := fm_objectstore self in
  let tier := pf_storage_tier file in
  let tc := ObjectStore._get_config os tier in
  let new_path :=
    py_format (prefix_of tc (sv_visibility options)) +:+ "/" +:+ suffix in
  FileManager._get_visibility_from_path (pf_path file) = Ok current ->
  current <> sv_visibility options ->
  prefix_of tc current = Some p ->
  pf_path file = p +:+ "/" +:+ suffix ->
  sv_move_file options = true ->
  next_requests_succeed 3 w ->
  store_get (location_of os tier (pf_path file)) (w_store w) = Some o ->
  pf_path file <> new_path ->
  row_of (pf_id file) (w_db w) = Some model ->
  SQLAlchemyAdapter.path_taken new_path (Some (pf_id file)) (w_db w) = true ->
  let r := FileManager.set_visibility self file options w in
  fst r = Raise SQLAlchemyAdapter.unique_violation
  /\ w_db (snd r) = w_db w
  /\ store_get (location_of os tier new_path) (w_store (snd r))
     = Some {| body_of := body_of o; stored_at := w_now w |}
  /\ store_get (location_of os tier (pf_path file)) (w_store (snd r)) = None.
Proof.
  intros Hi os tier tc new_path Hv Hne Hp Hpath Hmove Hok Hsrc Hdiff Hrow Htaken r.
  destruct (set_visibility_moved config self file options current p suffix w o
              Hi Hv Hne Hp Hpath Hmove Hok Hsrc) as (_ & Hu & Hs).
  fold os tier tc new_path r in Hu, Hs.
  cbn [adapter_update SQLAlchemy_StorageAdapter] in Hu.
  unfold SQLAlchemyAdapter.update in Hu. unfold row_of in Hrow.
  destruct (SQLAlchemyAdapter.select_by_id (pf_id file) (w_db w)) as [|m rest];
    [discriminate|].
  rewrite Htaken in Hu. injection Hu as Hf Hd.
  split; [exact Hf|]. split; [exact Hd|]. rewrite Hs. split.
  - rewrite store_get_delete_other; [apply store_get_put|].
    unfold location_of. congruence.
  - apply store_get_delete.
Qed.

Lemma set_visibility_onto_taken_path_witness :
  FileManager.init (separate_config "public" "private") = Ok literal_manager
  /\ SQLAlchemyAdapter.path_taken "private/a.txt" (Some 1) (w_db crowded_world) = true
  /\ fst (FileManager.set_visibility literal_manager (hot_file 1 "public/a.txt" None)
            {| sv_visibility := PRIVATE; sv_move_file := true |} crowded_world)
     = Raise SQLAlchemyAdapter.unique_violation
  /\ w_store
       (snd (FileManager.set_visibility literal_manager
               (hot_file 1 "public/a.txt" None)
               {| sv_visibility := PRIVATE; sv_move_file := true |} crowded_world))
     = [(hot_location "private/a.txt",
         {| body_of := [Byte.x01]; stored_at := 1000 |})]
  /\ List.map m_path
       (rows (w_db (snd (FileManager.set_visibility literal_manager
                           (hot_file 1 "public/a.txt" None)
                           {| sv_visibility := PRIVATE; sv_move_file := true |}
                           crowded_world))))
     = ["public/a.txt"; "private/a.txt"].
Proof.
  assert (Hok : next_requests_succeed 3 crowded_world) by (intros i _; reflexivity).
  split; [reflexivity|]. split; [reflexivity|].
  destruct (set_visibility_onto_taken_path _ literal_manager
              (hot_file 1 "public/a.txt" None)
              {| sv_visibility := PRIVATE; sv_move_file := true |}
              PUBLIC "public" "a.txt" crowded_world (stored [Byte.x01])
              (hot_row 1 "public/a.txt" None)
              (separate_manager_init "public" "private") eq_refl
              ltac:(discriminate) eq_refl eq_refl eq_refl Hok eq_refl
              ltac:(discriminate) eq_refl eq_refl)
    as (Hraise & _).
  split; [exact Hraise|]. split; reflexivity.
Defined.

(** ** Orphan objects *)

Lemma store_get_delete_None (l l' : Location) (s : list (Location * Stored)) :
  store_get l s = None -> store_get l (store_delete l' s) = None.
Proof.
  unfold store_delete.
  induction s as [|[l0 o0] s IH]; [reflexivity|].
  cbn [store_get List.filter fst].
  destruct (Location_eqb l l0) eqn:E; [discriminate|].
  intros Hl. destruct (negb (Location_eqb l' l0)); cbn [store_get];
    [rewrite E|]; auto.
Qed.

Section Orphans.
Context {DB : Type} `{StorageAdapter DB}.
Variable self : FileManager.

Lemma delete_orphans_loop_dry (orphans : list OrphanObject)
    (result : DeleteOrphanResult) (w : World DB) :
  FileManager.delete_orphans_loop self true orphans result w
  = (Ok {| deleted := deleted result + Z.of_nat (length orphans);
           failed := failed result;
           deleted_paths := deleted_paths result ++ List.map o_key orphans;
           errors := errors result;
           dry_run := dry_run result |}, w).
Proof.
  revert result. induction orphans as [|o rest IH]; intros result.
  - cbn [FileManager.delete_orphans_loop length List.map]. unfold ret.
    rewrite Z.add_0_r, app_nil_r. destruct result; reflexivity.
  - cbn [FileManager.delete_orphans_loop negb].
    unfold bind at 1. unfold try_except, bind, ret.
    rewrite IH. cbn [deleted failed deleted_paths errors dry_run length List.map].
    rewrite <- app_assoc. do 3 f_equal. lia.
Qed.

(** A dry run of [delete_orphan_objects] sends no delete: after the
    listing nothing more happens, every orphan of the chosen tier is
    counted as deleted and its key reported, and nothing fails. *)
Theorem delete_orphan_objects_dry_run (options : DeleteOrphanOptions)
    (w w1 : World DB) (orphans : list OrphanObject) :
  FileManager.list_orphan_objects self (do_prefix options) w = (Ok orphans, w1) ->
  do_dry_run options = true ->
  let chosen := FileManager.filter_by_tier (do_tier options) orphans in
  FileManager.delete_orphan_objects self options w
  = (Ok {| deleted := Z.of_nat (length chosen);
           failed := 0;
           deleted_paths := List.map o_key chosen;
           errors := [];
           dry_run := true |}, w1).
Proof.
  intros Hlist Hdry chosen.
  unfold FileManager.delete_orphan_objects, bind. rewrite Hlist, Hdry.
  fold chosen. rewrite delete_orphans_loop_dry. reflexivity.
Qed.

(** The loop of [delete_orphan_objects] without dry run: it never
    raises, counts every orphan once, and touches neither the database
    nor any object but those it deletes. *)
Lemma delete_orphans_loop_counts (orphans : list OrphanObject)
    (result : DeleteOrphanResult) (w : World DB) :
  exists result' w',
    FileManager.delete_orphans_loop self false orphans result w = (Ok result', w')
    /\ deleted result' + failed result'
       = deleted result + failed result + Z.of_nat (length orphans)
    /\ deleted result' - deleted result
       = Z.of_nat (length (deleted_paths result')) - Z.of_nat (length (deleted_paths result))
    /\ failed result' - failed result
       = Z.of_nat (length (errors result')) - Z.of_nat (length (errors result))
    /\ deleted result <= deleted result'
    /\ failed result <= failed result'
    /\ dry_run result' = dry_run result
    /\ w_db w' = w_db w
    /\ (forall l, store_get l (w_store w) = None -> store_get l (w_store w') = None).
Proof.
  revert result w. induction orphans as [|o rest IH]; intros result w.
  - exists result, w. cbn [FileManager.delete_orphans_loop length]. unfold ret.
    repeat split; auto; lia.
  - cbn [FileManager.delete_orphans_loop negb].
    unfold bind at 1. unfold try_except, bind at 1.
    unfold ObjectStore.delete, delete_object, request.
    destruct (w_faults w (length (w_trace w))) as [e|].
    + unfold ret.
      match goal with
      | |- context [FileManager.delete_orphans_loop self false rest ?r ?w0] =>
        destruct (IH r w0) as (result' & w' & Hrun & Hsum & Hd & Hf & Hld & Hlf
                               & Hdry & Hdb & Hst)
      end.
      cbn [deleted failed deleted_paths errors dry_run w_db w_store log] in *.
      rewrite length_app in Hf. cbn [length] in Hf.
      exists result', w'. rewrite Hrun.
      repeat split; auto; cbn [length]; lia.
    + unfold ret.
      match goal with
      | |- context [FileManager.delete_orphans_loop self false rest ?r ?w0] =>
        destruct (IH r w0) as (result' & w' & Hrun & Hsum & Hd & Hf & Hld & Hlf
                               & Hdry & Hdb & Hst)
      end.
      cbn [deleted failed deleted_paths errors dry_run w_db w_store log set_store]
        in *.
      rewrite length_app in Hd. cbn [length] in Hd.
      exists result', w'. rewrite Hrun.
      repeat split; auto; cbn [length]; try lia.
      intros l Hl. apply Hst, store_get_delete_None, Hl.
Qed.

(** Without dry run, [delete_orphan_objects] is best effort: once the
    orphans are listed it never raises; every orphan of the chosen tier
    is counted exactly once, as deleted or as failed; there is one
    reported path per deletion and one error per failure; the database of
    the adapter is not touched and no object appears. *)
Theorem delete_orphan_objects_counts (options : DeleteOrphanOptions)
    (w w1 : World DB) (orphans : list OrphanObject) :
  FileManager.list_orphan_objects self (do_prefix options) w = (Ok orphans, w1) ->
  do_dry_run options = false ->
  let chosen := FileManager.filter_by_tier (do_tier options) orphans in
  exists result w',
    FileManager.delete_orphan_objects self options w = (Ok result, w')
    /\ deleted result + failed result = Z.of_nat (length chosen)
    /\ deleted result = Z.of_nat (length (deleted_paths result))
    /\ failed result = Z.of_nat (length (errors result))
    /\ dry_run result = false
    /\ w_db w' = w_db w1
    /\ (forall l, store_get l (w_store w1) = None -> store_get l (w_store w') = None).
Proof.
  intros Hlist Hdry chosen.
  unfold FileManager.delete_orphan_objects, bind. rewrite Hlist, Hdry.
  fold chosen.
  destruct (delete_orphans_loop_counts chosen
              {| deleted := 0; failed := 0; deleted_paths := []; errors := [];
                 dry_run := false |} w1)
    as (result & w' & Hrun & Hsum & Hd & Hf & _ & _ & Hdr & Hdb & Hst).
  cbn [deleted failed deleted_paths errors dry_run length] in *.
  exists result, w'. rewrite Hrun. repeat split; auto; lia.
Qed.

End Orphans.

Lemma delete_orphan_objects_dry_run_witness :
  fst (FileManager.list_orphan_objects literal_manager None orphan_world)
  = Ok two_orphans
  /\ fst (FileManager.delete_orphan_objects literal_manager
            {| do_prefix := None; do_tier := Some HOT; do_dry_run := true |}
            orphan_world)
     = Ok {| deleted := 2; failed := 0;
             deleted_paths := ["public/docs/a.txt"; "private/b.bin"];
             errors := []; dry_run := true |}
  /\ w_store
       (snd (FileManager.delete_orphan_objects literal_manager
               {| do_prefix := None; do_tier := Some HOT; do_dry_run := true |}
               orphan_world))
     = w_store orphan_world.
Proof.
  split; [reflexivity|].
  set (options := {| do_prefix := None; do_tier := Some HOT; do_dry_run := true |}).
  assert (Hlist : FileManager.list_orphan_objects literal_manager
                    (do_prefix options) orphan_world
                  = (Ok two_orphans,
                     snd (FileManager.list_orphan_objects literal_manager None
                            orphan_world))) by reflexivity.
  pose proof (delete_orphan_objects_dry_run literal_manager options orphan_world
                _ _ Hlist eq_refl) as Hrun.
  rewrite Hrun. split; reflexivity.
Defined.

Lemma delete_orphan_objects_counts_witness :
  do_dry_run {| do_prefix := None; do_tier := None; do_dry_run := false |} = false
  /\ fst (FileManager.delete_orphan_objects literal_manager
            {| do_prefix := None; do_tier := None; do_dry_run := false |}
            orphan_world)
     = Ok {| deleted := 2; failed := 0;
             deleted_paths := ["public/docs/a.txt"; "private/b.bin"];
             errors := []; dry_run := false |}
  /\ exists result w',
       FileManager.delete_orphan_objects literal_manager
         {| do_prefix := None; do_tier := None; do_dry_run := false |} orphan_world
       = (Ok result, w')
       /\ deleted result + failed result = 2.
Proof.
  split; [reflexivity|]. split; [reflexivity|].
  set (options := {| do_prefix := None; do_tier := None; do_dry_run := false |}).
  assert (Hlist : FileManager.list_orphan_objects literal_manager
                    (do_prefix options) orphan_world
                  = (Ok two_orphans,
                     snd (FileManager.list_orphan_objects literal_manager None
                            orphan_world))) by reflexivity.
  destruct (delete_orphan_objects_counts literal_manager options orphan_world
              _ _ Hlist eq_refl)
    as (result & w' & Hrun & Hsum & _).
  exists result, w'. split; [exact Hrun|exact Hsum].
Defined.

Section Adoption.
Context {DB : Type} `{StorageAdapter DB}.
Variable self : FileManager.

(** The loop of [adopt_orphan_objects] never raises, counts every orphan
    once, creates one record per orphan whose filename it could extract,
    and sends nothing to the object store. *)
Lemma adopt_orphans_loop_counts (options : AdoptOrphanOptions)
    (extract_filename : string -> Result string) (orphans : list OrphanObject)
    (result : AdoptOrphanResult) (w : World DB) :
  exists result' w',
    FileManager.adopt_orphans_loop options extract_filename orphans result w
    = (Ok result', w')
    /\ adopted result' + adopt_failed result'
       = adopted result + adopt_failed result + Z.of_nat (length orphans)
    /\ adopted result' - adopted result
       = Z.of_nat (length (adopted_file_ids result'))
         - Z.of_nat (length (adopted_file_ids result))
    /\ adopt_failed result' - adopt_failed result
       = Z.of_nat (length (adopt_errors result'))
         - Z.of_nat (length (adopt_errors result))
    /\ w_store w' = w_store w
    /\ w_now w' = w_now w
    /\ w_trace w'
       = w_trace w ++ adoption_calls options extract_filename (w_now w) orphans.
Proof.
  revert result w. induction orphans as [|o rest IH]; intros result w.
  - exists result, w. cbn [FileManager.adopt_orphans_loop length adoption_calls
                            flat_map]. unfold ret. rewrite app_nil_r.
    repeat split; auto; lia.
  - cbn [FileManager.adopt_orphans_loop adoption_calls flat_map].
    fold (adoption_calls options extract_filename (w_now w) rest).
    unfold bind at 1. unfold try_except. unfold bind at 1. unfold lift.
    destruct (extract_filename (o_key o)) as [filename|e].
    + assert (Hhu : (match o_tier o, ao_set_hot_until options, ao_hot_duration options
                     with
                     | HOT, true, Some d =>
                       let* now := datetime_now in ret (Some (now + d))
                     | _, _, _ => ret None
                     end) w = (Ok (adopted_hot_until options (w_now w) o), w)).
      { unfold adopted_hot_until, bind, datetime_now, ret.
        destruct (o_tier o), (ao_set_hot_until options),
          (ao_hot_duration options); reflexivity. }
      unfold bind at 1. rewrite Hhu.
      unfold bind at 1. unfold call.
      destruct (adapter_create (w_now w) (o_tier o) filename (o_key o)
                  (adopted_hot_until options (w_now w) o) (w_db w)) as [[f|e] d];
        unfold ret;
        match goal with
        | |- context [FileManager.adopt_orphans_loop options extract_filename rest
                        ?r ?w0] =>
          destruct (IH r w0) as (result' & w' & Hrun & Hsum & Ha & Hf & Hs & Hn & Ht)
        end;
        cbn [adopted adopt_failed adopted_file_ids adopt_errors w_store w_now
             w_trace set_db log] in *;
        rewrite ?length_app in *; cbn [length] in *;
        exists result', w'; rewrite Hrun, Ht, <- app_assoc;
        repeat split; auto; lia.
    + unfold ret.
      match goal with
      | |- context [FileManager.adopt_orphans_loop options extract_filename rest
                      ?r ?w0] =>
        destruct (IH r w0) as (result' & w' & Hrun & Hsum & Ha & Hf & Hs & Hn & Ht)
      end.
      cbn [adopted adopt_failed adopted_file_ids adopt_errors] in *.
      rewrite ?length_app in *; cbn [length] in *.
      exists result', w'. rewrite Hrun, Ht.
      repeat split; auto; lia.
Qed.

(** [adopt_orphan_objects] is best effort: once the orphans are listed
    it never raises; every orphan of the chosen tier is counted once, as
    adopted or as failed, with one id per adoption and one error per
    failure; it calls [create] for the key and the tier of each orphan, in
    order, with an expiry only for a HOT orphan when [set_hot_until] and a
    duration are both given; and it sends no request to the object store
    after the listing. *)
Theorem adopt_orphan_objects_counts (options : AdoptOrphanOptions)
    (w w1 : World DB) (orphans : list OrphanObject) :
  FileManager.list_orphan_objects self (ao_prefix options) w = (Ok orphans, w1) ->
  let chosen := FileManager.filter_by_tier (ao_tier options) orphans in
  exists result w',
    FileManager.adopt_orphan_objects self options w = (Ok result, w')
    /\ adopted result + adopt_failed result = Z.of_nat (length chosen)
    /\ adopted result = Z.of_nat (length (adopted_file_ids result))
    /\ adopt_failed result = Z.of_nat (length (adopt_errors result))
    /\ w_store w' = w_store w1
    /\ w_trace w'
       = w_trace w1
         ++ adoption_calls options (extractor_of options) (w_now w1) chosen.
Proof.
  intros Hlist chosen.
  unfold FileManager.adopt_orphan_objects, bind. rewrite Hlist.
  fold chosen. fold (extractor_of options).
  destruct (adopt_orphans_loop_counts options (extractor_of options) chosen
              {| adopted := 0; adopt_failed := 0; adopted_file_ids := [];
                 adopt_errors := [] |} w1)
    as (result & w' & Hrun & Hsum & Ha & Hf & Hs & _ & Ht).
  cbn [adopted adopt_failed adopted_file_ids adopt_errors length] in *.
  exists result, w'. rewrite Hrun. repeat split; auto; lia.
Qed.

End Adoption.

Lemma adopt_orphan_objects_counts_witness :
  fst (FileManager.adopt_orphan_objects literal_manager adopt_all orphan_world)
  = Ok {| adopted := 2; adopt_failed := 0; adopted_file_ids := [1; 2];
          adopt_errors := [] |}
  /\ List.map (fun m => (m_filename m, m_path m, m_hot_until m))
       (rows (w_db (snd (FileManager.adopt_orphan_objects literal_manager adopt_all
                           orphan_world))))
     = [("a.txt", "public/docs/a.txt", Some 4600);
        ("b.bin", "private/b.bin", Some 4600)]
  /\ exists result w',
       FileManager.adopt_orphan_objects literal_manager adopt_all orphan_world
       = (Ok result, w')
       /\ w_store w' = w_store orphan_world.
Proof.
  split; [reflexivity|]. split; [reflexivity|].
  assert (Hlist : FileManager.list_orphan_objects literal_manager
                    (ao_prefix adopt_all) orphan_world
                  = (Ok two_orphans,
                     snd (FileManager.list_orphan_objects literal_manager None
                            orphan_world))) by reflexivity.
  destruct (adopt_orphan_objects_counts literal_manager adopt_all orphan_world
              _ _ Hlist)
    as (result & w' & Hrun & _ & _ & _ & Hs & _).
  exists result, w'. split; [exact Hrun|exact Hs].
Defined.

(** ** The default filename of an adopted orphan *)

Lemma split_on_cons (sep : ascii) (s : string) :
  exists h t, split_on sep s = h :: t.
Proof.
  destruct s as [|c s]; cbn [split_on]; [eauto|].
  destruct (Ascii.eqb c sep); [eauto|].
  destruct (split_on sep s); eauto.
Qed.

(** Splitting at a character and joining with it gives the string back. *)
Lemma join_split_on (sep : ascii) (s : string) :
  join_with (String sep EmptyString) (split_on sep s) = s.
Proof.
  induction s as [|c s IH]; [reflexivity|].
  cbn [split_on].
  destruct (split_on_cons sep s) as (h & t & Hs). rewrite Hs in *.
  destruct (Ascii.eqb c sep) eqn:E.
  - apply Ascii.eqb_eq in E. subst c.
    change (join_with (String sep "") ("" :: h :: t))
      with ("" +:+ String sep "" +:+ join_with (String sep "") (h :: t)).
    rewrite IH. reflexivity.
  - destruct t as [|x t].
    + cbn [join_with] in *. rewrite IH. reflexivity.
    + change (join_with (String sep "") (String c h :: x :: t))
        with (String c h +:+ String sep "" +:+ join_with (String sep "") (x :: t)).
      change (join_with (String sep "") (h :: x :: t))
        with (h +:+ String sep "" +:+ join_with (String sep "") (x :: t)) in IH.
      rewrite append_cons, IH. reflexivity.
Qed.

Lemma split_on_parts (sep : ascii) (s : string) :
  Forall (fun part => has_char sep part = false) (split_on sep s).
Proof.
  induction s as [|c s IH]; cbn [split_on]; [repeat constructor|].
  destruct (Ascii.eqb c sep) eqn:E; [constructor; [reflexivity|exact IH]|].
  destruct (split_on sep s) as [|h t]; [repeat constructor|].
  - cbn [has_char]. rewrite Ascii.eqb_sym, E. reflexivity.
  - apply Forall_cons in IH as [Hh Ht]. constructor; [|exact Ht].
    cbn [has_char]. rewrite Ascii.eqb_sym, E. exact Hh.
Qed.

Lemma join_with_last (sep : string) (init : list string) (x : string) :
  init <> [] ->
  join_with sep (init ++ [x]) = join_with sep init +:+ sep +:+ x.
Proof.
  induction init as [|a init IH]; [congruence|]. intros _.
  destruct init as [|b init].
  - reflexivity.
  - change (join_with sep ((a :: b :: init) ++ [x]))
      with (a +:+ sep +:+ join_with sep ((b :: init) ++ [x])).
    rewrite IH by discriminate.
    change (join_with sep (a :: b :: init))
      with (a +:+ sep +:+ join_with sep (b :: init)).
    rewrite !append_assoc. reflexivity.
Qed.

Lemma split_on_trailing (sep : ascii) (s : string) :
  split_on sep (s +:+ String sep EmptyString) = split_on sep s ++ [EmptyString].
Proof.
  induction s as [|c s IH].
  - rewrite append_nil. cbn [split_on]. rewrite Ascii.eqb_refl. reflexivity.
  - rewrite append_cons. cbn [split_on]. rewrite IH.
    destruct (Ascii.eqb c sep); [reflexivity|].
    destruct (split_on_cons sep s) as (h & t & Hs). rewrite Hs. reflexivity.
Qed.

(** The default filename of a key is what follows its last slash: it
    holds no slash, and the key is the filename alone or a directory, a
    slash and the filename.  A key that ends in a slash gets the empty
    filename. *)
Theorem default_extract_filename_last_segment (path : string) :
  exists name,
    FileManager.default_extract_filename path = Ok name
    /\ has_char "/" name = false
    /\ (path = name \/ exists dir, path = dir +:+ "/" +:+ name)
    /\ FileManager.default_extract_filename (path +:+ "/") = Ok "".
Proof.
  unfold FileManager.default_extract_filename.
  assert (Hlast : forall s, exists init,
            split_on "/" s = init ++ [List.last (split_on "/" s) ""]).
  { intros s. destruct (split_on_cons "/" s) as (h & t & Hs).
    exists (removelast (split_on "/" s)).
    apply app_removelast_last. rewrite Hs. discriminate. }
  destruct (Hlast path) as [init Hinit].
  exists (List.last (split_on "/" path) ""). split; [reflexivity|].
  pose proof (split_on_parts "/" path) as Hparts.
  pose proof (join_split_on "/" path) as Hjoin.
  rewrite Hinit in Hparts, Hjoin.
  split.
  { apply Forall_app in Hparts as [_ Hl]. apply Forall_cons in Hl as [Hl _].
    exact Hl. }
  split.
  { destruct init as [|a init].
    - left. symmetry. exact Hjoin.
    - right. rewrite join_with_last in Hjoin by discriminate.
      eexists. symmetry. exact Hjoin. }
  rewrite split_on_trailing, last_last. reflexivity.
Qed.

(** ** Listing both tiers *)

Lemma only_trace_differs_refl {DB : Type} (w : World DB) :
  only_trace_differs w w.
Proof. repeat split. Qed.

Lemma only_trace_differs_log {DB : Type} (e : Event) (w w' : World DB) :
  only_trace_differs w w' -> only_trace_differs w (log e w').
Proof. intros H. exact H. Qed.

Lemma only_trace_differs_trans {DB : Type} (w1 w2 w3 : World DB) :
  only_trace_differs w1 w2 -> only_trace_differs w2 w3 ->
  only_trace_differs w1 w3.
Proof.
  unfold only_trace_differs. intros H12 H23.
  destruct H12 as (?&?&?&?&?&?&?&?), H23 as (?&?&?&?&?&?&?&?).
  repeat split; congruence.
Qed.

(** A listing, complete or interrupted, only adds to the trace. *)
Lemma list_objects_loop_frame {DB : Type} (fuel : nat) (client : Client)
    (bucket : string) (prefix : option string) (objects : list S3Object)
    (token : option nat) (w : World DB) :
  only_trace_differs w
    (snd (ObjectStore.list_objects_loop fuel client bucket prefix objects token w)).
Proof.
  revert objects token w.
  induction fuel as [|fuel IH]; intros objects token w;
    [apply only_trace_differs_refl|].
  cbn [ObjectStore.list_objects_loop].
  unfold bind, list_objects_v2, request.
  destruct (w_faults w (length (w_trace w))); [repeat split|].
  cbn [fst snd].
  match goal with
  | |- context [if ?b then _ else _] => destruct b
  end; [repeat split|].
  eapply only_trace_differs_trans; [|apply IH]. repeat split.
Qed.

(** Under a manager built from its configuration and a store that
    answers every request, [list_all_objects] returns the complete
    listing of each tier under the prefix with its bucket name and its
    length, the sum of the two lengths and the time of the call, and
    changes neither the store nor the records.  Tiers that share a bucket
    of one endpoint are both listed in full, so each object is counted
    twice. *)
Theorem list_all_objects_snapshot {DB : Type} `{StorageAdapter DB}
    (config : S3StrataConfig) (self : FileManager) (prefix : option string)
    (w : World DB) :
  FileManager.init config = Ok self ->
  fault_free w ->
  let os := fm_objectstore self in
  let hot := listed_objects os HOT prefix w in
  let cold := listed_objects os COLD prefix w in
  let r := FileManager.list_all_objects self prefix w in
  fst r
  = Ok {| all_hot :=
            {| bo_tier := HOT;
               bo_bucket := tc_bucket (ObjectStore._get_config os HOT);
               bo_objects := hot;
               bo_count := Z.of_nat (length hot) |};
          all_cold :=
            {| bo_tier := COLD;
               bo_bucket := tc_bucket (ObjectStore._get_config os COLD);
               bo_objects := cold;
               bo_count := Z.of_nat (length cold) |};
          total_count := Z.of_nat (length hot) + Z.of_nat (length cold);
          collected_at := w_now w |}
  /\ w_store (snd r) = w_store w
  /\ w_db (snd r) = w_db w
  /\ (location_of os HOT "" = location_of os COLD "" ->
      Z.of_nat (length hot) + Z.of_nat (length cold)
      = 2 * Z.of_nat (length hot)).
Proof.
  intros Hi Hfree os hot cold r.
  assert (Hr : r = FileManager.list_all_objects self prefix w) by reflexivity.
  clearbody r.
  unfold FileManager.list_all_objects, bind, gather2 in Hr. fold os in Hr.
  pose proof (list_objects_loop_collects (S (length (w_store w)))
                (ObjectStore._get_client os HOT)
                (tc_bucket (ObjectStore._get_config os HOT)) prefix [] None w
                Hfree) as Hhot.
  pose proof (list_objects_loop_frame (S (length (w_store w)))
                (ObjectStore._get_client os HOT)
                (tc_bucket (ObjectStore._get_config os HOT)) prefix [] None w)
    as Hframe.
  unfold ObjectStore.list_objects in Hr at 1.
  destruct (ObjectStore.list_objects_loop (S (length (w_store w)))
              (ObjectStore._get_client os HOT)
              (tc_bucket (ObjectStore._get_config os HOT)) prefix [] None w)
    as [r1 w1] eqn:E1.
  cbn [fst snd] in Hhot, Hframe.
  destruct Hhot as (Hr1 & Hs1 & Hd1).
  { unfold remaining. simpl. apply Nat.lt_succ_r, List.filter_length_le. }
  destruct Hframe as (_ & Hf1 & _ & _ & _ & _ & Hn1 & _).
  assert (Hfree1 : fault_free w1) by (intros n; rewrite Hf1; apply Hfree).
  pose proof (list_objects_loop_collects (S (length (w_store w1)))
                (ObjectStore._get_client os COLD)
                (tc_bucket (ObjectStore._get_config os COLD)) prefix [] None w1
                Hfree1) as Hcold.
  pose proof (list_objects_loop_frame (S (length (w_store w1)))
                (ObjectStore._get_client os COLD)
                (tc_bucket (ObjectStore._get_config os COLD)) prefix [] None w1)
    as Hframe2.
  unfold ObjectStore.list_objects in Hr.
  destruct (ObjectStore.list_objects_loop (S (length (w_store w1)))
              (ObjectStore._get_client os COLD)
              (tc_bucket (ObjectStore._get_config os COLD)) prefix [] None w1)
    as [r2 w2] eqn:E2.
  cbn [fst snd] in Hcold, Hframe2.
  destruct Hcold as (Hr2 & Hs2 & Hd2).
  { unfold remaining. simpl. apply Nat.lt_succ_r, List.filter_length_le. }
  destruct Hframe2 as (_ & _ & _ & _ & _ & _ & Hn2 & _).
  subst r1 r2. cbn [fst snd app skipn] in Hr.
  unfold lift in Hr.
  rewrite (init_bucket_name _ _ HOT Hi), (init_bucket_name _ _ COLD Hi) in Hr.
  unfold datetime_now, ret in Hr. cbn [fst snd] in Hr.
  rewrite Hs1 in Hr.
  assert (Hh : hot
               = List.map (fun e => ObjectStore.to_S3Object (to_item e))
                   (List.filter
                      (in_listing (endpoint_url (ObjectStore._get_client os HOT))
                         (tc_bucket (ObjectStore._get_config os HOT))
                         (if truthy prefix then prefix else None)) (w_store w)))
    by reflexivity.
  assert (Hc : cold
               = List.map (fun e => ObjectStore.to_S3Object (to_item e))
                   (List.filter
                      (in_listing (endpoint_url (ObjectStore._get_client os COLD))
                         (tc_bucket (ObjectStore._get_config os COLD))
                         (if truthy prefix then prefix else None)) (w_store w)))
    by reflexivity.
  rewrite Hn2, Hn1 in Hr. subst r. cbn [fst snd].
  split; [reflexivity|].
  split; [congruence|]. split; [congruence|].
  intros Hsame.
  assert (He : endpoint_url (ObjectStore._get_client os HOT)
               = endpoint_url (ObjectStore._get_client os COLD))
    by exact (f_equal (fun l : Location => fst (fst l)) Hsame).
  assert (Hb : tc_bucket (ObjectStore._get_config os HOT)
               = tc_bucket (ObjectStore._get_config os COLD))
    by exact (f_equal (fun l : Location => snd (fst l)) Hsame).
  assert (Heq : cold = hot).
  { rewrite Hh, Hc, He, Hb. reflexivity. }
  rewrite Heq. lia.
Qed.

Lemma list_all_objects_snapshot_witness :
  FileManager.init one_bucket_config = Ok shared_bucket_manager
  /\ fault_free shared_bucket_world
  /\ fst (FileManager.list_all_objects shared_bucket_manager (Some "public/")
            shared_bucket_world)
     = Ok {| all_hot :=
               {| bo_tier := HOT; bo_bucket := "files";
                  bo_objects := [listed "public/a"]; bo_count := 1 |};
             all_cold :=
               {| bo_tier := COLD; bo_bucket := "files";
                  bo_objects := [listed "public/a"]; bo_count := 1 |};
             total_count := 2;
             collected_at := 1000 |}.
Proof.
  assert (Hi : FileManager.init one_bucket_config = Ok shared_bucket_manager)
    by reflexivity.
  assert (Hfree : fault_free shared_bucket_world) by (intros n; reflexivity).
  split; [exact Hi|]. split; [exact Hfree|].
  rewrite (proj1 (list_all_objects_snapshot one_bucket_config
                    shared_bucket_manager (Some "public/") shared_bucket_world
                    Hi Hfree)).
  reflexivity.
Defined.

(** ** examples/sqlalchemy_adapter.py *)

Lemma path_taken_None (path : string) (session : Session) :
  SQLAlchemyAdapter.path_taken path None session = true
  <-> In path (List.map m_path (rows session)).
Proof.
  unfold SQLAlchemyAdapter.path_taken. rewrite existsb_exists, in_map_iff.
  split.
  - intros (m & Hin & Hb). apply andb_true_iff in Hb as [Hb _].
    apply String.eqb_eq in Hb. eauto.
  - intros (m & Hp & Hin). exists m. split; [exact Hin|].
    rewrite Hp, String.eqb_refl. reflexivity.
Qed.


Lemma _to_dto_valid (model : PhysicalFileModel) (t : StorageTier) :
  m_storage_tier model = StorageTier_value t ->
  SQLAlchemyAdapter._to_dto model
  = Ok {| pf_id := m_id model; pf_storage_tier := t;
          pf_filename := m_filename model; pf_path := m_path model;
          pf_hot_until := m_hot_until model;
          pf_created_at := Some (m_created_at model);
          pf_updated_at := Some (m_updated_at model) |}.
Proof.
  intros Ht. unfold SQLAlchemyAdapter._to_dto. rewrite Ht.
  destruct t; reflexivity.
Qed.

Lemma create_table_ok (now : Z) (tier : StorageTier) (filename path : string)
    (hot_until : option Z) (session : Session) :
  table_ok session ->
  table_ok (snd (SQLAlchemyAdapter.create now tier filename path hot_until session)).
Proof.
  intros (Hid & Hpath & Hlt & Htier). unfold SQLAlchemyAdapter.create.
  destruct (SQLAlchemyAdapter.path_taken path None session) eqn:Htaken;
    [repeat split; assumption|].
  cbn [snd]. unfold table_ok. cbn [rows next_id].
  rewrite !List.map_app. cbn [List.map m_id m_path].
  split; [|split; [|split]].
  - apply NoDup_app. split; [exact Hid|]. split; [|apply NoDup_singleton].
    intros x Hx Hx'. apply list_elem_of_singleton in Hx'. subst x.
    apply list_elem_of_In, in_map_iff in Hx as (m & Hm & Hin).
    rewrite List.Forall_forall in Hlt. specialize (Hlt m Hin). lia.
  - apply NoDup_app. split; [exact Hpath|]. split; [|apply NoDup_singleton].
    intros x Hx Hx'. apply list_elem_of_singleton in Hx'. subst x.
    apply list_elem_of_In, path_taken_None in Hx. congruence.
  - apply Forall_app. split.
    + eapply Forall_impl; [exact Hlt|]. cbn. intros m Hm. lia.
    + constructor; [cbn; lia|constructor].
  - apply Forall_app. split; [exact Htier|].
    constructor; [cbn; eauto|constructor].
Qed.







Lemma select_by_id_fresh (id : Z) (session : Session) :
  Forall (fun m => m_id m < next_id session) (rows session) ->
  next_id session <= id ->
  SQLAlchemyAdapter.select_by_id id session = [].
Proof.
  unfold SQLAlchemyAdapter.select_by_id. intros Hlt Hid.
  induction (rows session) as [|m l IH]; [reflexivity|].
  apply Forall_cons in Hlt as [Hm Hl]. cbn [List.filter].
  destruct (m_id m =? id) eqn:E; [apply Z.eqb_eq in E; lia|]. exact (IH Hl).
Qed.



Lemma select_after_delete (id id' : Z) (l : list PhysicalFileModel) :
  List.filter (fun m => m_id m =? id')
    (List.filter (fun r => negb (m_id r =? id)) l)
  = if id' =? id then [] else List.filter (fun m => m_id m =? id') l.
Proof.
  induction l as [|m l IH]; [destruct (id' =? id); reflexivity|].
  cbn [List.filter].
  destruct (m_id m =? id) eqn:E; cbn [negb List.filter].
  - rewrite IH. apply Z.eqb_eq in E. subst id.
    destruct (id' =? m_id m) eqn:E'; [reflexivity|].
    rewrite Z.eqb_sym, E'. reflexivity.
  - rewrite IH. destruct (id' =? id) eqn:E'; [|reflexivity].
    apply Z.eqb_eq in E'. subst id'. rewrite E. reflexivity.
Qed.

(** A key that no row has makes [delete] and [update] raise
    [NoResultFound] and leaves the table as it was.  [delete] of a key
    that has a row succeeds; afterwards [find_by_id] of that key returns
    [None] and the rows of every other key are the ones from before. *)
Theorem delete_then_find_by_id (id : Z) (session : Session) :
  let r := SQLAlchemyAdapter.delete id session in
  match row_of id session with
  | None =>
    r = (Raise NoResultFound, session)
    /\ forall now tier path hot_until,
         SQLAlchemyAdapter.update now id tier path hot_until session
         = (Raise NoResultFound, session)
  | Some _ =>
    fst r = Ok tt
    /\ SQLAlchemyAdapter.find_by_id id (snd r) = (Ok None, snd r)
    /\ forall id', id' <> id ->
         SQLAlchemyAdapter.select_by_id id' (snd r)
         = SQLAlchemyAdapter.select_by_id id' session
  end.
Proof.
  unfold row_of, SQLAlchemyAdapter.delete, SQLAlchemyAdapter.update.
  destruct (SQLAlchemyAdapter.select_by_id id session) as [|model rest] eqn:Hsel;
    cbn [head fst snd].
  - split; [reflexivity|]. intros now tier path hot_until. reflexivity.
  - split; [reflexivity|].
    unfold SQLAlchemyAdapter.find_by_id, SQLAlchemyAdapter.select_by_id.
    cbn [rows]. split.
    + rewrite select_after_delete, Z.eqb_refl. reflexivity.
    + intros id' Hne. rewrite select_after_delete.
      apply Z.eqb_neq in Hne. rewrite Hne. reflexivity.
Qed.

Lemma _to_dtos_In (models : list PhysicalFileModel) (files : list PhysicalFile) :
  SQLAlchemyAdapter._to_dtos models = Ok files ->
  forall f, In f files
            <-> exists m, In m models /\ SQLAlchemyAdapter._to_dto m = Ok f.
Proof.
  revert files. induction models as [|m l IH]; intros files Hfiles f.
  - injection Hfiles as <-. split; [intros []|intros (m & [] & _)].
  - cbn [SQLAlchemyAdapter._to_dtos] in Hfiles.
    destruct (SQLAlchemyAdapter._to_dto m) as [f0|e] eqn:Hm; [|discriminate].
    destruct (SQLAlchemyAdapter._to_dtos l) as [fs|e]; [|discriminate].
    injection Hfiles as <-. specialize (IH fs eq_refl f). split.
    + intros [<-|Hin]; [exists m; split; [left; reflexivity|exact Hm]|].
      apply IH in Hin as (m' & Hin & Hm'). exists m'. split; [right|]; assumption.
    + intros (m' & [<-|Hin] & Hm'); [left; congruence|].
      right. apply IH. eauto.
Qed.

(** [find_expired_hot_files] never raises and changes nothing.  It
    returns exactly the records of the rows whose tier is "HOT" and whose
    [hot_until] is set and not later than the time of the call: a HOT row
    without [hot_until] never expires, and no COLD row is returned,
    whatever its [hot_until]. *)
Theorem find_expired_hot_files_exact (now : Z) (session : Session) :
  exists files,
    SQLAlchemyAdapter.find_expired_hot_files now session = (Ok files, session)
    /\ (forall f,
          In f files
          <-> exists m h,
                In m (rows session)
                /\ m_storage_tier m = "HOT"
                /\ m_hot_until m = Some h
                /\ h <= now
                /\ SQLAlchemyAdapter._to_dto m = Ok f)
    /\ Forall (fun f => pf_storage_tier f = HOT
                        /\ exists h, pf_hot_until f = Some h /\ h <= now) files.
Proof.
  unfold SQLAlchemyAdapter.find_expired_hot_files.
  destruct (_to_dtos_hot _ (expired_rows_hot now session))
    as (files & Hfiles & _ & _).
  exists files. rewrite Hfiles. split; [reflexivity|].
  assert (Hexp : forall m,
            SQLAlchemyAdapter.is_expired_hot now m = true
            <-> m_storage_tier m = "HOT"
                /\ exists h, m_hot_until m = Some h /\ h <= now).
  { intros m. unfold SQLAlchemyAdapter.is_expired_hot.
    rewrite andb_true_iff, String.eqb_eq. cbn [StorageTier_value].
    destruct (m_hot_until m) as [h|].
    - rewrite Z.leb_le. split.
      + intros [Ht Hh]. eauto.
      + intros [Ht (h' & Hh' & Hle)]. injection Hh' as <-. auto.
    - split; [intros [_ Hf]; discriminate|intros [_ (h & Hh & _)]; discriminate]. }
  assert (Hiff : forall f,
            In f files
            <-> exists m h,
                  In m (rows session)
                  /\ m_storage_tier m = "HOT"
                  /\ m_hot_until m = Some h
                  /\ h <= now
                  /\ SQLAlchemyAdapter._to_dto m = Ok f).
  { intros f. rewrite (_to_dtos_In _ _ Hfiles f). split.
    - intros (m & Hin & Hm). apply filter_In in Hin as [Hin He].
      apply Hexp in He as (Ht & h & Hh & Hle). exists m, h. auto.
    - intros (m & h & Hin & Ht & Hh & Hle & Hm). exists m. split; [|exact Hm].
      apply filter_In. split; [exact Hin|]. apply Hexp. eauto. }
  split; [exact Hiff|].
  apply List.Forall_forall. intros f Hf.
  apply Hiff in Hf as (m & h & _ & Ht & Hh & Hle & Hm).
  destruct (_to_dto_path _ _ Hm) as (_ & _ & Hhu & Hv).
  split.
  - rewrite Ht in Hv. destruct (pf_storage_tier f); [reflexivity|discriminate].
  - exists h. split; [congruence|exact Hle].
Qed.

(** ** An upload and what can be read back *)

Section UploadRun.
Context {DB : Type} `{StorageAdapter DB}.

(** A successful [upload], step by step: one put, one [create]. *)
Lemma upload_run (config : S3StrataConfig) (self : FileManager)
    (data : bytes) (options : UploadOptions) (w w' : World DB)
    (file : PhysicalFile) :
  FileManager.init config = Ok self ->
  FileManager.upload self data options w = (Ok file, w') ->
  let tier := upload_tier self options in
  let os := fm_objectstore self in
  exists filename path_suffix,
    let full_path :=
      py_format (prefix_of (ObjectStore._get_config os tier)
                   (upload_visibility self options))
      +:+ "/" +:+ path_suffix in
    adapter_create (w_now w) tier filename full_path
      (upload_hot_until self options (w_now w)) (w_db w)
    = (Ok file, w_db w')
    /\ w_store w'
       = store_put (location_of os tier full_path)
           {| body_of := data; stored_at := w_now w |} (w_store w)
    /\ w_faults w' = w_faults w
    /\ w_now w' = w_now w.
Proof.
  intros Hi. unfold FileManager.upload, upload_hot_until, location_of.
  fold (upload_tier self options) (upload_visibility self options).
  unfold ObjectStore.upload, bind, ret, lift, call, put_object, request,
    datetime_now, uuid4.
  destruct (truthy (up_filename options)), (truthy (up_path_suffix options));
    simpl; rewrite (init_build_path _ _ _ _ _ Hi);
    destruct (upload_tier self options), (up_hot_duration options) as [d|]; simpl;
    destruct (w_faults w (length (w_trace w))) as [e|]; simpl; try discriminate;
    match goal with
    | |- context [adapter_create ?a1 ?a2 ?a3 ?a4 ?a5 ?a6] =>
      destruct (adapter_create a1 a2 a3 a4 a5 a6) as [x d'] eqn:Hc
    end; destruct x; simpl; intros [= <- <-]; simpl;
    do 2 eexists; (split; [exact Hc|]); repeat split.
Qed.

End UploadRun.

Lemma create_find_by_id (now : Z) (tier : StorageTier) (filename path : string)
    (hot_until : option Z) (session session' : Session) (file : PhysicalFile) :
  Forall (fun m => m_id m < next_id session) (rows session) ->
  SQLAlchemyAdapter.create now tier filename path hot_until session
  = (Ok file, session') ->
  file = created_file now (next_id session) tier filename path hot_until
  /\ SQLAlchemyAdapter.find_by_id (pf_id file) session' = (Ok (Some file), session').
Proof.
  intros Hlt. unfold SQLAlchemyAdapter.create.
  destruct (SQLAlchemyAdapter.path_taken path None session); [discriminate|].
  rewrite (_to_dto_valid _ tier) by reflexivity. cbn [m_id m_filename m_path
    m_hot_until m_created_at m_updated_at].
  intros [= <- <-]. split; [reflexivity|].
  unfold SQLAlchemyAdapter.find_by_id, SQLAlchemyAdapter.select_by_id.
  cbn [rows pf_id]. rewrite List.filter_app.
  fold (SQLAlchemyAdapter.select_by_id (next_id session) session).
  rewrite (select_by_id_fresh _ _ Hlt) by lia.
  cbn [List.filter m_id app]. rewrite Z.eqb_refl.
  rewrite (_to_dto_valid _ tier) by reflexivity. reflexivity.
Qed.

(** What a successful [upload] on the reference adapter leaves behind
    can be read back: the record has the chosen tier and, for a HOT upload
    with a duration, expires that many seconds after the call and
    otherwise never; a download of the record's tier and path returns the
    uploaded bytes, [exists] is true and [get_by_id] of the record's id
    returns the record. *)
Theorem upload_round_trip (config : S3StrataConfig) (self : FileManager)
    (data : bytes) (options : UploadOptions) (w w' : World Session)
    (file : PhysicalFile) :
  FileManager.init config = Ok self ->
  table_ok (w_db w) ->
  FileManager.upload self data options w = (Ok file, w') ->
  w_faults w' (length (w_trace w')) = None ->
  pf_storage_tier file = upload_tier self options
  /\ pf_hot_until file = upload_hot_until self options (w_now w)
  /\ fst (ObjectStore.download (fm_objectstore self) (pf_storage_tier file)
            (pf_path file) w') = Ok data
  /\ fst (FileManager.exists_ self file w') = Ok true
  /\ fst (FileManager.get_by_id (pf_id file) w') = Ok (Some file)
  /\ table_ok (w_db w').
Proof.
  intros Hi Hok Hup Hnext.
  destruct (upload_run _ _ _ _ _ _ _ Hi Hup)
    as (filename & suffix & Hcreate & Hstore & _ & _).
  cbn [adapter_create SQLAlchemy_StorageAdapter] in Hcreate.
  pose proof Hok as (_ & _ & Hlt & _).
  destruct (create_find_by_id _ _ _ _ _ _ _ _ Hlt Hcreate) as [Hfile Hfind].
  assert (Htier : pf_storage_tier file = upload_tier self options)
    by (rewrite Hfile; reflexivity).
  assert (Hpath : pf_path file
                  = py_format
                      (prefix_of
                         (ObjectStore._get_config (fm_objectstore self)
                            (upload_tier self options))
                         (upload_visibility self options))
                    +:+ "/" +:+ suffix)
    by (rewrite Hfile; reflexivity).
  assert (Hget : store_get
                   (location_of (fm_objectstore self) (pf_storage_tier file)
                      (pf_path file)) (w_store w')
                 = Some {| body_of := data; stored_at := w_now w |}).
  { rewrite Hstore, Htier, Hpath. apply store_get_put. }
  split; [exact Htier|].
  split; [rewrite Hfile; reflexivity|].
  split.
  { unfold ObjectStore.download, try_except, get_object, request.
    rewrite Hnext. cbn [w_store log]. fold (location_of (fm_objectstore self)
      (pf_storage_tier file) (pf_path file)).
    rewrite Hget. reflexivity. }
  split.
  { unfold FileManager.exists_. rewrite _normalize_tier_total.
    unfold ObjectStore.exists_, bind, lift, try_except, head_object, request, ret.
    rewrite Hnext. cbn [w_store log]. fold (location_of (fm_objectstore self)
      (pf_storage_tier file) (pf_path file)).
    rewrite Hget. reflexivity. }
  split.
  { unfold FileManager.get_by_id, call.
    cbn [adapter_find_by_id SQLAlchemy_StorageAdapter]. rewrite Hfind. reflexivity. }
  pose proof (create_table_ok (w_now w) (upload_tier self options) filename
                (py_format
                   (prefix_of
                      (ObjectStore._get_config (fm_objectstore self)
                         (upload_tier self options))
                      (upload_visibility self options)) +:+ "/" +:+ suffix)
                (upload_hot_until self options (w_now w)) (w_db w) Hok) as Hok'.
  rewrite Hcreate in Hok'. exact Hok'.
Qed.

Lemma upload_round_trip_witness :
  fst (FileManager.upload literal_manager [Byte.x68; Byte.x69]
         {| up_tier := Some HOT; up_visibility := Some PRIVATE;
            up_filename := Some "hi.txt"; up_path_suffix := None;
            up_hot_duration := Some 60 |} fresh_world)
  = Ok {| pf_id := 1; pf_storage_tier := HOT; pf_filename := "hi.txt";
          pf_path := "private/uuid-0-hi.txt"; pf_hot_until := Some 1060;
          pf_created_at := Some 1000; pf_updated_at := Some 1000 |}
  /\ fst (ObjectStore.download (fm_objectstore literal_manager) HOT
            "private/uuid-0-hi.txt"
            (snd (FileManager.upload literal_manager [Byte.x68; Byte.x69]
                    {| up_tier := Some HOT; up_visibility := Some PRIVATE;
                       up_filename := Some "hi.txt"; up_path_suffix := None;
                       up_hot_duration := Some 60 |} fresh_world)))
     = Ok [Byte.x68; Byte.x69].
Proof.
  split; [reflexivity|].
  assert (Hok : table_ok (w_db fresh_world)).
  { unfold table_ok. cbn. repeat split; constructor. }
  set (options := {| up_tier := Some HOT; up_visibility := Some PRIVATE;
                     up_filename := Some "hi.txt"; up_path_suffix := None;
                     up_hot_duration := Some 60 |}).
  set (file := {| pf_id := 1; pf_storage_tier := HOT; pf_filename := "hi.txt";
                  pf_path := "private/uuid-0-hi.txt"; pf_hot_until := Some 1060;
                  pf_created_at := Some 1000; pf_updated_at := Some 1000 |}).
  assert (Hup : FileManager.upload literal_manager [Byte.x68; Byte.x69] options
                  fresh_world
                = (Ok file,
                   snd (FileManager.upload literal_manager [Byte.x68; Byte.x69]
                          options fresh_world))) by reflexivity.
  exact (proj1 (proj2 (proj2
           (upload_round_trip _ literal_manager _ options fresh_world _ file
              (separate_manager_init "public" "private") Hok Hup eq_refl)))).
Defined.

(** ** Adoption leaves no orphan *)











(** ** A sweep does not pick up what it has moved *)

Lemma update_cold_expired_ids (t now id : Z) (session session' : Session)
    (r : Result PhysicalFile) :
  SQLAlchemyAdapter.update now id (Some COLD) None None session = (r, session') ->
  expired_ids t session'
  = if is_ok r then without [id] (expired_ids t session)
    else expired_ids t session.
Proof.
  unfold SQLAlchemyAdapter.update.
  destruct (SQLAlchemyAdapter.select_by_id id session) as [|model rest] eqn:Hsel.
  - intros [= <- <-]. reflexivity.
  - pose proof (select_by_id_id _ _ _ _ Hsel) as Hid.
    unfold SQLAlchemyAdapter._to_dto. simpl.
    intros [= <- <-]. cbn [is_ok].
    unfold expired_ids, without, SQLAlchemyAdapter.replace_row. cbn [rows m_id].
    rewrite Hid. clear Hsel.
    induction (rows session) as [|m l IH]; [reflexivity|].
    cbn [List.map List.filter].
    destruct (m_id m =? id) eqn:E.
    + cbn [SQLAlchemyAdapter.is_expired_hot m_storage_tier StorageTier_value].
      change (String.eqb "COLD" "HOT") with false. cbn [andb].
      destruct (SQLAlchemyAdapter.is_expired_hot t m); [|exact IH].
      cbn [List.map List.filter existsb]. rewrite E. cbn [orb negb]. exact IH.
    + destruct (SQLAlchemyAdapter.is_expired_hot t m); [|exact IH].
      cbn [List.map List.filter existsb]. rewrite E. cbn [orb negb].
      rewrite IH. reflexivity.
Qed.

Lemma set_tier_cold_expired_ids (self : FileManager) (file : PhysicalFile)
    (t : Z) (w w1 : World Session) (r : Result PhysicalFile) :
  pf_storage_tier file = HOT ->
  FileManager.set_tier self file cold_options w = (r, w1) ->
  expired_ids t (w_db w1)
  = if is_ok r then without [pf_id file] (expired_ids t (w_db w))
    else expired_ids t (w_db w).
Proof.
  intros Ht. unfold FileManager.set_tier.
  rewrite _normalize_tier_total, Ht.
  unfold cold_options, lift. cbn [st_tier st_move_file st_hot_duration].
  unfold bind at 1. destruct (decide (HOT = COLD)) as [Hd|_]; [discriminate|].
  unfold bind at 1. unfold ret at 1. cbn [fst snd].
  unfold bind at 1.
  pose proof (move_db (DB := Session) (fm_objectstore self) HOT (pf_path file)
                COLD (pf_path file) w) as Hmove.
  destruct (ObjectStore.move (fm_objectstore self) HOT (pf_path file) COLD
              (pf_path file) w) as [[u|e] w0]; simpl in Hmove.
  - unfold bind, call, ret. cbn [adapter_update SQLAlchemy_StorageAdapter].
    destruct (SQLAlchemyAdapter.update (w_now w0) (pf_id file) (Some COLD) None None
                (w_db w0)) as [x d] eqn:Hu.
    apply (update_cold_expired_ids t) in Hu. rewrite Hmove in Hu.
    destruct x; intros [= <- <-]; simpl; exact Hu.
  - intros [= <- <-]. rewrite Hmove. reflexivity.
Qed.

Lemma without_cons (id : Z) (moved ids : list Z) :
  without moved (without [id] ids) = without (id :: moved) ids.
Proof.
  unfold without. induction ids as [|i ids IH]; [reflexivity|].
  cbn [List.filter existsb]. destruct (i =? id); cbn [orb negb List.filter].
  - exact IH.
  - destruct (existsb (Z.eqb i) moved); cbn [negb]; [exact IH|f_equal; exact IH].
Qed.

Lemma without_nil (ids : list Z) : without [] ids = ids.
Proof.
  unfold without. induction ids as [|i ids IH]; [reflexivity|].
  cbn [List.filter existsb negb]. f_equal. exact IH.
Qed.

Lemma archive_steps_expired_ids (self : FileManager) (files : list PhysicalFile)
    (w w2 : World Session) (outcomes : list (Result PhysicalFile)) :
  archive_steps self files w outcomes w2 ->
  Forall (fun f => pf_storage_tier f = HOT) files ->
  forall t,
    expired_ids t (w_db w2)
    = without (moved_ids files outcomes) (expired_ids t (w_db w)).
Proof.
  induction 1 as [w|file rest w w1 w2 file' outcomes Hstep Hsteps IH
                  |file rest w w1 w2 e outcomes Hstep Hsteps IH];
    intros Hhot t.
  - cbn [moved_ids]. rewrite without_nil. reflexivity.
  - apply Forall_cons in Hhot as [Hfile Hrest].
    rewrite (IH Hrest t), (set_tier_cold_expired_ids _ _ t _ _ _ Hfile Hstep).
    cbn [is_ok moved_ids]. apply without_cons.
  - apply Forall_cons in Hhot as [Hfile Hrest].
    rewrite (IH Hrest t).
    change (w_db (log (Print (failure_line file e)) w1)) with (w_db w1).
    rewrite (set_tier_cold_expired_ids _ _ t _ _ _ Hfile Hstep).
    reflexivity.
Qed.

Lemma moved_ids_all (files : list PhysicalFile)
    (outcomes : list (Result PhysicalFile)) :
  length outcomes = length files ->
  failures outcomes = 0 ->
  moved_ids files outcomes = List.map pf_id files.
Proof.
  revert outcomes. induction files as [|f files IH]; intros [|o outcomes] Hlen Hf;
    try discriminate; [reflexivity|].
  unfold failures in *. cbn [List.filter] in Hf.
  destruct o as [x|e]; cbn [is_ok negb] in Hf; [|cbn [length] in Hf; lia].
  cbn [moved_ids List.map]. f_equal. apply IH; [|exact Hf].
  cbn [length] in Hlen. lia.
Qed.

Lemma without_self (ids : list Z) : without ids ids = [].
Proof.
  unfold without.
  assert (H : forall l, (forall i, In i l -> In i ids) ->
                        List.filter (fun i => negb (existsb (Z.eqb i) ids)) l = []).
  { induction l as [|i l IH]; intros Hsub; [reflexivity|].
    cbn [List.filter].
    assert (Hi : existsb (Z.eqb i) ids = true).
    { apply existsb_exists. exists i. split; [apply Hsub; left; reflexivity|].
      apply Z.eqb_refl. }
    rewrite Hi. cbn [negb]. apply IH. intros j Hj. apply Hsub. right. exact Hj. }
  apply H. auto.
Qed.

(** After a sweep over the reference adapter the records it moved are
    never selected again: at any time, the rows [find_expired_hot_files]
    selects are the ones it would have selected before the sweep without
    the moved records, so a later sweep retries the failed transitions and
    repeats none.  After a sweep without a failure nothing is expired at
    the time of the sweep. *)
Theorem archive_moves_once (self : FileManager) (w : World Session) :
  exists expired outcomes w',
    FileManager.archive_expired_hot_files self w = (Ok (successes outcomes), w')
    /\ archive_steps self expired
         (set_db (w_db w) (log (Adapter FindExpiredHotFiles) w)) outcomes w'
    /\ length outcomes = length expired
    /\ List.map pf_id expired = expired_ids (w_now w) (w_db w)
    /\ (forall t,
          expired_ids t (w_db w')
          = without (moved_ids expired outcomes) (expired_ids t (w_db w)))
    /\ (failures outcomes = 0 ->
        SQLAlchemyAdapter.find_expired_hot_files (w_now w) (w_db w')
        = (Ok [], w_db w')).
Proof.
  set (models := List.filter (SQLAlchemyAdapter.is_expired_hot (w_now w))
                   (rows (w_db w))).
  destruct (_to_dtos_hot models (expired_rows_hot _ _))
    as (expired & Hdto & Hids & Hhot).
  set (w0 := set_db (w_db w) (log (Adapter FindExpiredHotFiles) w)).
  destruct (archive_loop_steps self expired 0 w0)
    as (outcomes & w' & Hsteps & Hlen & Hrun).
  pose proof (archive_steps_expired_ids _ _ _ _ _ Hsteps Hhot) as Hafter.
  change (w_db w0) with (w_db w) in Hafter.
  exists expired, outcomes, w'.
  split.
  { unfold FileManager.archive_expired_hot_files, bind, call.
    cbn [adapter_find_expired_hot_files SQLAlchemy_StorageAdapter].
    unfold SQLAlchemyAdapter.find_expired_hot_files. fold models.
    rewrite Hdto. fold w0. rewrite Hrun. reflexivity. }
  split; [exact Hsteps|]. split; [exact Hlen|]. split; [exact Hids|].
  split; [exact Hafter|].
  intros Hnone.
  specialize (Hafter (w_now w)).
  rewrite (moved_ids_all _ _ Hlen Hnone), Hids in Hafter.
  fold (expired_ids (w_now w) (w_db w)) in Hafter.
  rewrite without_self in Hafter.
  unfold SQLAlchemyAdapter.find_expired_hot_files.
  unfold expired_ids in Hafter.
  destruct (List.filter (SQLAlchemyAdapter.is_expired_hot (w_now w))
              (rows (w_db w'))); [reflexivity|discriminate].
Qed.

(** Three expired records, the transition of the second fails: the first
    sweep moves two, and only the second record is expired afterwards. *)
Example archive_moves_once_example :
  fst (FileManager.archive_expired_hot_files literal_manager sweep_world) = Ok 2
  /\ expired_ids 1000 (w_db sweep_world) = [1; 2; 3]
  /\ expired_ids 1000
       (w_db (snd (FileManager.archive_expired_hot_files literal_manager
                     sweep_world)))
     = without [1; 3] [1; 2; 3].
Proof. repeat split; vm_compute; reflexivity. Qed.
